(** * WebAuthn PRF encryption demo: the server, the key derivation and
    the client handlers, embedded as Rocq functions.

    Sources embedded here:
    - [server/src/db.ts]      the D1 queries,
    - [server/src/index.ts]   the Hono endpoints and the challenge map,
    - [client/src/crypto.ts]  salt, nonce, base64url and key derivation,
    - [client/src/App.tsx]    the register / authenticate / encrypt /
                              decrypt handlers.

    The SimpleWebAuthn verifier and the browser's authenticator are
    interfaces whose behaviour is a parameter of the model; the
    platform's random source is a tape of octets. The Web Crypto calls
    the client makes (HKDF with SHA-256, AES-256-GCM), base64 and the
    UTF-8 decoder are written out from their standards and run on
    published vectors. The limits of the engines the code runs on (how
    many arguments a call takes, which initialization vectors AES-GCM
    takes) are parameters of the model as well. The challenge a
    [generate-*] call draws is an input of the call. *)

From Stdlib Require Import ZArith NArith List String Ascii Lia Bool.
From Stdlib.Strings Require Import Byte.
From Stdlib Require Import Zify ZifyNat ZifyN.
From stdpp Require Import base option list gmap strings pretty.

Local Open Scope Z_scope.
Local Open Scope string_scope.

(** ** JavaScript values used by the code *)

(** Truthiness of a string that may be [null] / [undefined]: only a
    non-empty string is truthy. *)
Definition truthy (o : option string) : bool :=
  match o with
  | Some s => negb (String.eqb s "")
  | None => false
  end.

(** [a || b] on possibly absent strings. *)
Definition js_or (a : option string) (b : string) : string :=
  match a with
  | Some s => if String.eqb s "" then b else s
  | None => b
  end.

(** [n.toString()] for an integer. *)
Definition toString (n : Z) : string := pretty n.

(** [xs.join(",")]. *)
Fixpoint join_comma (xs : list string) : string :=
  match xs with
  | [] => ""
  | [x] => x
  | x :: rest => x ++ "," ++ join_comma rest
  end.

(** [s.split(",")]: [cur] holds the characters of the current field in
    reverse. *)
Fixpoint split_comma_go (s : string) (cur : string) : list string :=
  match s with
  | EmptyString => [String.rev cur]
  | String c rest =>
      if Ascii.eqb c ","%char
      then String.rev cur :: split_comma_go rest ""
      else split_comma_go rest (String c cur)
  end.

Definition split_comma (s : string) : list string := split_comma_go s "".

(** The outcome of a call that may throw; the payload of [Thrown] is
    [String(error)]. *)
Inductive Outcome (A : Type) : Type :=
| Returned (a : A)
| Thrown (error : string).
Arguments Returned {A} a.
Arguments Thrown {A} error.

(** ** The platforms the code runs on *)

(** A call takes so many arguments and no more: spreading a longer
    array into the arguments of a call throws a RangeError. The limit is
    the engine's, one for the worker and one for the page. AES-GCM takes
    an initialization vector of some lengths only, which differ from one
    implementation to the next; [aes_gcm_takes_iv] says whether a vector
    of that many octets is taken. *)
Class Platform := {
  worker_max_arguments : N;
  page_max_arguments : N;
  aes_gcm_takes_iv : nat -> bool
}.

(** ** The D1 tables (schema.sql) and the queries of db.ts *)

Record User := mkUser {
  u_id : Z;
  u_username : string;
  u_prf_salt : option string;
  u_encrypted_blob_key : option string;
  u_blob_nonce : option string
}.

Record PasskeyRow := mkPasskeyRow {
  cred_id : string;
  cred_public_key : list byte;
  internal_user_id : Z;
  webAuthn_user_id : string;
  counter : Z;
  backup_eligible : bool;
  backup_status : bool;
  transports : option string
}.

(** [users_seq] is SQLite's AUTOINCREMENT sequence for [users.id]. *)
Record D1Database := mkD1 {
  users : list User;
  users_seq : Z;
  passkeys : list PasskeyRow
}.

Inductive DeviceType := singleDevice | multiDevice.

(** The [Passkey] object of the shared types. *)
Record Passkey := mkPasskey {
  pk_id : string;
  pk_publicKey : list byte;
  pk_user : User;
  pk_webAuthnUserID : option string;
  pk_counter : Z;
  pk_deviceType : DeviceType;
  pk_backedUp : bool;
  pk_transports : option (list string)
}.

Definition deviceType_eqb (a b : DeviceType) : bool :=
  match a, b with
  | singleDevice, singleDevice | multiDevice, multiDevice => true
  | _, _ => false
  end.

(** Message of the error D1 raises when an INSERT hits the primary key
    of [passkeys]. *)
Definition d1_unique_cred_id : string :=
  "Error: D1_ERROR: UNIQUE constraint failed: passkeys.cred_id".

Definition has_cred (db : D1Database) (credId : string) : bool :=
  existsb (fun r => String.eqb (cred_id r) credId) (passkeys db).

(** Message of the error D1 raises when [undefined] is bound to a
    statement. *)
Definition d1_type_error : string :=
  "Error: D1_TYPE_ERROR: Type 'undefined' not supported for value 'undefined'".

(** Message of the error D1 raises when an INSERT names a user that
    does not exist. *)
Definition d1_foreign_key : string :=
  "Error: D1_ERROR: FOREIGN KEY constraint failed".

(** Whether a row of [users] has the id. *)
Definition has_user (db : D1Database) (userId : Z) : bool :=
  existsb (fun u => Z.eqb (u_id u) userId) (users db).

(** [savePasskey]: INSERT INTO passkeys. The statement is the code's;
    the three refusals are the database's: [undefined] cannot be bound,
    [cred_id] is the primary key, and [internal_user_id] references
    [users.id] (checked when the statement ends, so after the primary
    key). *)
Definition savePasskey (db : D1Database) (passkey : Passkey)
  : Outcome D1Database :=
  let transportsString :=
    match pk_transports passkey with
    | Some ts => Some (join_comma ts)
    | None => None
    end in
  match pk_webAuthnUserID passkey with
  | None => Thrown d1_type_error
  | Some webAuthnUserID =>
      if has_cred db (pk_id passkey) then Thrown d1_unique_cred_id
      else if negb (has_user db (u_id (pk_user passkey)))
      then Thrown d1_foreign_key
      else
        Returned
          (mkD1 (users db) (users_seq db)
             (passkeys db ++
              [mkPasskeyRow (pk_id passkey) (pk_publicKey passkey)
                 (u_id (pk_user passkey))
                 webAuthnUserID
                 (pk_counter passkey)
                 (deviceType_eqb (pk_deviceType passkey) multiDevice)
                 (pk_backedUp passkey)
                 transportsString]))
  end.

(** [getUser]: SELECT * FROM users WHERE username = ?, first row. *)
Definition getUser (db : D1Database) (username : string) : option User :=
  List.find (fun u => String.eqb (u_username u) username) (users db).

(** SELECT * FROM users WHERE id = ?, first row. *)
Definition userById (db : D1Database) (userId : Z) : option User :=
  List.find (fun u => Z.eqb (u_id u) userId) (users db).

(** The id AUTOINCREMENT hands out: one more than the largest id ever
    used. *)
Definition next_user_id (db : D1Database) : Z :=
  1 + fold_right Z.max (Z.max 0 (users_seq db)) (map u_id (users db)).

(** [createUser]: INSERT INTO users (username) VALUES (?) RETURNING *.
    [username] is UNIQUE; the remaining columns default to NULL. *)
Definition createUser (db : D1Database) (username : string)
  : Outcome (User * D1Database) :=
  match getUser db username with
  | Some _ => Thrown "Error: D1_ERROR: UNIQUE constraint failed: users.username"
  | None =>
      let result := mkUser (next_user_id db) username None None None in
      Returned (result,
                mkD1 (users db ++ [result]) (u_id result) (passkeys db))
  end.

(** The object built from a [passkeys] row and its user. The row's
    column is [webAuthn_user_id]; the code reads [webauthn_user_id],
    which the row does not have. *)
Definition passkey_of_row (user : User) (result : PasskeyRow) : Passkey :=
  mkPasskey (cred_id result) (cred_public_key result) user
    None
    (counter result)
    (if backup_eligible result then multiDevice else singleDevice)
    (backup_status result)
    (if truthy (transports result)
     then option_map split_comma (transports result) else None).

(** [getUserPasskeys]. *)
Definition getUserPasskeys (db : D1Database) (userId : Z) : list Passkey :=
  let results :=
    List.filter (fun r => Z.eqb (internal_user_id r) userId) (passkeys db) in
  match userById db userId with
  | None => []
  | Some user => map (passkey_of_row user) results
  end.

(** [getPasskeyById]. *)
Definition getPasskeyById (db : D1Database) (credId : string)
  : option Passkey :=
  match List.find (fun r => String.eqb (cred_id r) credId) (passkeys db) with
  | None => None
  | Some result =>
      match userById db (internal_user_id result) with
      | None => None
      | Some user => Some (passkey_of_row user result)
      end
  end.

(** [updatePasskeyCounter]: UPDATE passkeys SET counter = ? WHERE
    cred_id = ?. *)
Definition updatePasskeyCounter (db : D1Database) (credId : string)
  (newCounter : Z) : D1Database :=
  mkD1 (users db) (users_seq db)
    (map (fun r =>
            if String.eqb (cred_id r) credId
            then mkPasskeyRow (cred_id r) (cred_public_key r)
                   (internal_user_id r) (webAuthn_user_id r) newCounter
                   (backup_eligible r) (backup_status r) (transports r)
            else r)
       (passkeys db)).

(** UPDATE users SET encrypted_blob_key = ?, blob_nonce = ? WHERE
    id = ?, with both values bound. *)
Definition update_blob_reference (db : D1Database) (userId : Z)
  (blobKey nonce : string) : D1Database :=
  mkD1
    (map (fun u =>
            if Z.eqb (u_id u) userId
            then mkUser (u_id u) (u_username u) (u_prf_salt u)
                   (Some blobKey) (Some nonce)
            else u)
       (users db))
    (users_seq db) (passkeys db).

(** [saveUserBlobReference]: one UPDATE of both columns. [nonce] is what
    the caller read from the request body, [None] when the body has no
    such field: D1 refuses to bind [undefined], and the statement does
    not run. *)
Definition saveUserBlobReference (db : D1Database) (userId : Z)
  (blobKey : string) (nonce : option string) : Outcome D1Database :=
  match nonce with
  | None => Thrown d1_type_error
  | Some nonce => Returned (update_blob_reference db userId blobKey nonce)
  end.

(** [getUserBlobReference]: the two columns of the user's row. *)
Definition getUserBlobReference (db : D1Database) (userId : Z)
  : option (option string * option string) :=
  match userById db userId with
  | Some u => Some (u_encrypted_blob_key u, u_blob_nonce u)
  | None => None
  end.

(** [saveUserPrfSalt]: UPDATE users SET prf_salt = ? WHERE id = ?. *)
Definition saveUserPrfSalt (db : D1Database) (userId : Z) (prfSalt : string)
  : D1Database :=
  mkD1
    (map (fun u =>
            if Z.eqb (u_id u) userId
            then mkUser (u_id u) (u_username u) (Some prfSalt)
                   (u_encrypted_blob_key u) (u_blob_nonce u)
            else u)
       (users db))
    (users_seq db) (passkeys db).

(** [getUserPrfSalt]: [result?.prf_salt || null]. *)
Definition getUserPrfSalt (db : D1Database) (userId : Z) : option string :=
  match userById db userId with
  | Some u => if truthy (u_prf_salt u) then u_prf_salt u else None
  | None => None
  end.

(** ** Binary strings and base64 ([btoa] / [atob]) *)

(** The binary string whose character codes are [bytes]. *)
Definition binary_string (bytes : list byte) : string :=
  string_of_list_byte bytes.

(** What [String(error)] is for the RangeError of a call with too many
    arguments. *)
Definition range_error : string :=
  "RangeError: Maximum call stack size exceeded".

(** [String.fromCharCode(...bytes)]: every octet is an argument of the
    one call, which the engine refuses when they are more than
    [max_arguments]. *)
Definition fromCharCodes (max_arguments : N) (bytes : list byte)
  : Outcome string :=
  if (max_arguments <? N.of_nat (length bytes))%N then Thrown range_error
  else Returned (binary_string bytes).

(** [Uint8Array.from(s, c => c.charCodeAt(0))]. *)
Definition charCodes (s : string) : list byte := list_byte_of_string s.

Definition b64_alphabet : string :=
  "ABCDEFGHIJKLMNOPQRSTUVWXYZabcdefghijklmnopqrstuvwxyz0123456789+/".

Definition b64_char (n : N) : ascii :=
  match String.get (N.to_nat n) b64_alphabet with
  | Some c => c
  | None => "="%char
  end.

Fixpoint index_of (c : ascii) (s : string) : option N :=
  match s with
  | EmptyString => None
  | String d rest =>
      if Ascii.eqb c d then Some 0%N else option_map N.succ (index_of c rest)
  end.

Definition b64_value (c : ascii) : option N := index_of c b64_alphabet.

(** The sextets of a sequence of octets: three octets give four
    sextets, a tail of one gives two and a tail of two gives three. *)
Fixpoint sextets (octets : list N) : list N :=
  match octets with
  | [] => []
  | [a] => [a / 4; (a mod 4) * 16]
  | [a; b] => [a / 4; (a mod 4) * 16 + b / 16; (b mod 16) * 4]
  | a :: b :: c :: rest =>
      a / 4 :: (a mod 4) * 16 + b / 16 :: (b mod 16) * 4 + c / 64
      :: c mod 64 :: sextets rest
  end%N.

(** The [=] that complete the last group of four characters. *)
Definition padding (n : nat) : list ascii :=
  repeat "="%char ((3 - n mod 3) mod 3).

(** [btoa]: base64 of a binary string, padded. *)
Definition btoa (s : string) : string :=
  let octets := map N_of_ascii (list_ascii_of_string s) in
  string_of_list_ascii
    (map b64_char (sextets octets) ++ padding (length octets)).

Definition is_ascii_whitespace (c : ascii) : bool :=
  match N_of_ascii c with
  | 9 | 10 | 12 | 13 | 32 => true
  | _ => false
  end%N.

(** The padding rule of forgiving-base64 decode: when the length is a
    multiple of four, one or two trailing [=] are dropped. *)
Definition strip_padding (l : list ascii) : list ascii :=
  if (length l mod 4 =? 0)%nat then
    match rev l with
    | c1 :: c2 :: r =>
        if Ascii.eqb c1 "="
        then if Ascii.eqb c2 "=" then rev r else rev (c2 :: r)
        else l
    | [c1] => if Ascii.eqb c1 "=" then [] else l
    | [] => l
    end
  else l.

Fixpoint b64_values (l : list ascii) : option (list N) :=
  match l with
  | [] => Some []
  | c :: rest =>
      match b64_value c, b64_values rest with
      | Some v, Some vs => Some (v :: vs)
      | _, _ => None
      end
  end.

(** Four sextets become three octets; a tail of two gives one octet and
    a tail of three gives two. *)
Fixpoint atob_octets (vs : list N) : list N :=
  match vs with
  | a :: b :: c :: d :: rest =>
      (a * 4 + b / 16) :: ((b mod 16) * 16 + c / 4) :: ((c mod 4) * 64 + d)
      :: atob_octets rest
  | [a; b; c] => [a * 4 + b / 16; (b mod 16) * 16 + c / 4]
  | [a; b] => [a * 4 + b / 16]
  | _ => []
  end%N.

Definition invalid_character_error : string :=
  "InvalidCharacterError: The string to be decoded is not correctly encoded.".

(** [atob]: forgiving-base64 decode; throws on malformed input. *)
Definition atob (s : string) : Outcome string :=
  let l := List.filter (fun c => negb (is_ascii_whitespace c))
             (list_ascii_of_string s) in
  let l := strip_padding l in
  if (length l mod 4 =? 1)%nat then Thrown invalid_character_error
  else
    match b64_values l with
    | None => Thrown invalid_character_error
    | Some vs =>
        Returned (string_of_list_ascii (map ascii_of_N (atob_octets vs)))
    end.

(** ** The SimpleWebAuthn server library (external) *)

Record CredentialDescriptor := mkDescriptor {
  cd_id : string;
  cd_transports : option (list string)
}.

Record AuthenticatorSelection := mkSelection {
  residentKey : string;
  userVerification : string;
  authenticatorAttachment : string
}.

Record GenerateRegistrationOptionsOpts := mkRegOpts {
  ro_rpName : string;
  ro_rpID : string;
  ro_userName : string;
  ro_userID : list byte;
  ro_attestationType : string;
  ro_excludeCredentials : list CredentialDescriptor;
  ro_authenticatorSelection : AuthenticatorSelection;
  ro_extensions_prf : bool
}.

(** The options the library returns: what it was given, and the
    challenge it drew. *)
Record PublicKeyCredentialCreationOptionsJSON := mkCreationOptions {
  co_opts : GenerateRegistrationOptionsOpts;
  co_challenge : string
}.

Record GenerateAuthenticationOptionsOpts := mkAuthOpts {
  ao_rpID : string;
  ao_allowCredentials : list CredentialDescriptor;
  ao_userVerification : string;
  ao_extensions_prf : bool
}.

Record PublicKeyCredentialRequestOptionsJSON := mkRequestOptions {
  qo_opts : GenerateAuthenticationOptionsOpts;
  qo_challenge : string
}.

(** The registration response the browser posts back; [rr_payload]
    stands for the attestation data only the verifier reads. *)
Record RegistrationResponseJSON := mkRegResponse {
  rr_id : string;
  rr_userHandle : option string;
  rr_transports : option (list string);
  rr_payload : string
}.

(** The authentication response; [ar_prf_first] is
    [clientExtensionResults.prf.results.first]. *)
Record AuthenticationResponseJSON := mkAuthResponse {
  ar_id : string;
  ar_payload : string;
  ar_prf_first : option (list byte)
}.

Record WebAuthnCredential := mkCredential {
  wc_id : string;
  wc_publicKey : list byte;
  wc_counter : Z;
  wc_transports : option (list string)
}.

Record RegistrationInfo := mkRegistrationInfo {
  ri_credential : WebAuthnCredential;
  ri_credentialDeviceType : DeviceType;
  ri_credentialBackedUp : bool
}.

Record VerifiedRegistrationResponse := mkVerifiedReg {
  vr_verified : bool;
  vr_registrationInfo : option RegistrationInfo
}.

Record VerifiedAuthenticationResponse := mkVerifiedAuth {
  va_verified : bool;
  va_newCounter : Z
}.

(** The two verification calls, with their arguments in the order
    response, expectedChallenge, expectedOrigin, expectedRPID (and the
    stored credential). Either may throw. *)
Class SimpleWebAuthn := {
  verifyRegistrationResponse :
    RegistrationResponseJSON -> string -> string -> string ->
    Outcome VerifiedRegistrationResponse;
  verifyAuthenticationResponse :
    AuthenticationResponseJSON -> string -> string -> string ->
    WebAuthnCredential -> Outcome VerifiedAuthenticationResponse
}.

(** ** The server (index.ts) *)

(** What the worker holds: the two bindings of its environment and the
    module-level [challenges] map. *)
Record Server := mkServer {
  DB : D1Database;
  R2_BUCKET : gmap string (list byte);
  challenges : gmap string string
}.

(** The shapes of the JSON bodies the endpoints send. *)
Inductive Json :=
| JError (error : string)
| JCreationOptions (options : PublicKeyCredentialCreationOptionsJSON)
| JRequestOptions (options : PublicKeyCredentialRequestOptionsJSON)
| JVerified (verified : bool) (user : option User)
| JStored (blobKey : string)
| JBlob (encryptedBlob : string) (nonce : option string)
| JSuccess
| JPrfSalt (prfSalt : option string)
| JHasBlob (hasBlob : bool).

Record Response := mkResponse {
  status : Z;
  body : Json
}.

(** [c.json(body)] and [c.json(body, status)]. *)
Definition json (b : Json) : Response := mkResponse 200 b.
Definition json_status (b : Json) (st : Z) : Response := mkResponse st b.

Definition rpID : string := "localhost".
Definition origin : string := "http://" ++ rpID ++ ":5173".

Definition descriptor_of (passkey : Passkey) : CredentialDescriptor :=
  mkDescriptor (pk_id passkey) (pk_transports passkey).

Section Endpoints.
Context `{SimpleWebAuthn} `{Platform}.

(** POST /generate-registration-options. [challenge] is the challenge
    [generateRegistrationOptions] draws in this call. The handler has no
    try / catch: an exception of [createUser] ends the request with
    status 500. *)
Definition generate_registration_options (username challenge : string)
  (s : Server) : Response * Server :=
  let rpName := "SimpleWebAuthn Example" in
  let created :=
    match getUser (DB s) username with
    | Some user => Returned (user, DB s)
    | None => createUser (DB s) username
    end in
  match created with
  | Thrown e => (json_status (JError e) 500, s)
  | Returned (user, db) =>
      let userPasskeys := getUserPasskeys db (u_id user) in
      let opts :=
        mkRegOpts rpName rpID (u_username user)
          (charCodes (toString (u_id user)))
          "none"
          (map descriptor_of userPasskeys)
          (mkSelection "preferred" "preferred" "platform")
          true in
      let options := mkCreationOptions opts challenge in
      (json (JCreationOptions options),
       mkServer db (R2_BUCKET s)
         (<[username := co_challenge options]> (challenges s)))
  end.

(** POST /verify-registration. *)
Definition verify_registration (username : string)
  (response : RegistrationResponseJSON) (s : Server) : Response * Server :=
  match challenges s !! username with
  | None => (json_status (JError "Challenge not found") 400, s)
  | Some expectedChallenge =>
      if String.eqb expectedChallenge ""
      then (json_status (JError "Challenge not found") 400, s)
      else
        match getUser (DB s) username with
        | None => (json_status (JError "User not found") 400, s)
        | Some user =>
            match verifyRegistrationResponse response expectedChallenge
                    origin rpID with
            | Thrown e => (json_status (JError e) 400, s)
            | Returned verification =>
                match vr_verified verification,
                      vr_registrationInfo verification with
                | true, Some registrationInfo =>
                    let credential := ri_credential registrationInfo in
                    let newPasskey :=
                      mkPasskey (wc_id credential) (wc_publicKey credential)
                        user
                        (Some (js_or (rr_userHandle response)
                                 (toString (u_id user))))
                        (wc_counter credential)
                        (ri_credentialDeviceType registrationInfo)
                        (ri_credentialBackedUp registrationInfo)
                        (rr_transports response) in
                    match savePasskey (DB s) newPasskey with
                    | Thrown e => (json_status (JError e) 400, s)
                    | Returned db =>
                        (json (JVerified true None),
                         mkServer db (R2_BUCKET s)
                           (delete username (challenges s)))
                    end
                | _, _ => (json (JVerified false None), s)
                end
            end
        end
  end.

(** POST /generate-authentication-options. *)
Definition generate_authentication_options (username challenge : string)
  (s : Server) : Response * Server :=
  match getUser (DB s) username with
  | None => (json_status (JError "User not found") 404, s)
  | Some user =>
      let userPasskeys := getUserPasskeys (DB s) (u_id user) in
      if (length userPasskeys =? 0)%nat
      then (json_status (JError "No passkeys found for user") 404, s)
      else
        let options :=
          mkRequestOptions
            (mkAuthOpts rpID (map descriptor_of userPasskeys)
               "preferred" true)
            challenge in
        (json (JRequestOptions options),
         mkServer (DB s) (R2_BUCKET s)
           (<[username := qo_challenge options]> (challenges s)))
  end.

(** POST /verify-authentication. *)
Definition verify_authentication (username : string)
  (response : AuthenticationResponseJSON) (s : Server) : Response * Server :=
  match challenges s !! username with
  | None => (json_status (JError "Challenge not found") 400, s)
  | Some expectedChallenge =>
      if String.eqb expectedChallenge ""
      then (json_status (JError "Challenge not found") 400, s)
      else
        match getUser (DB s) username with
        | None => (json_status (JError "User not found") 404, s)
        | Some user =>
            match getPasskeyById (DB s) (ar_id response) with
            | None => (json_status (JError "Passkey not found") 404, s)
            | Some passkey =>
                match verifyAuthenticationResponse response
                        expectedChallenge origin rpID
                        (mkCredential (pk_id passkey) (pk_publicKey passkey)
                           (pk_counter passkey) (pk_transports passkey)) with
                | Thrown e => (json_status (JError e) 400, s)
                | Returned verification =>
                    if va_verified verification then
                      (json (JVerified true (Some (pk_user passkey))),
                       mkServer
                         (updatePasskeyCounter (DB s) (pk_id passkey)
                            (va_newCounter verification))
                         (R2_BUCKET s)
                         (delete username (challenges s)))
                    else (json (JVerified false None), s)
                end
            end
        end
  end.

(** POST /store-blob. [nonce] is the field of that name in the body,
    [None] when the body has none. The object is put in the bucket
    before the row is updated: when the update throws, the answer is
    500 and the object stays. A body without [encryptedBlob] is the
    body whose [encryptedBlob] is "undefined", which is what [atob]
    makes of it. *)
Definition store_blob (username encryptedBlob : string)
  (nonce : option string) (s : Server) : Response * Server :=
  match getUser (DB s) username with
  | None => (json_status (JError "User not found") 404, s)
  | Some user =>
      let blobKey := "user-" ++ toString (u_id user) ++ "-blob" in
      match atob encryptedBlob with
      | Thrown e => (json_status (JError e) 500, s)
      | Returned binary =>
          let blobData := charCodes binary in
          let bucket := <[blobKey := blobData]> (R2_BUCKET s) in
          match saveUserBlobReference (DB s) (u_id user) blobKey nonce with
          | Thrown e =>
              (json_status (JError e) 500,
               mkServer (DB s) bucket (challenges s))
          | Returned db =>
              (json (JStored blobKey), mkServer db bucket (challenges s))
          end
      end
  end.

(** POST /retrieve-blob. The object is spread into the arguments of
    [String.fromCharCode]; the RangeError of an object with more octets
    than a call takes arguments is caught and answered with 500. *)
Definition retrieve_blob (username : string) (s : Server)
  : Response * Server :=
  match getUser (DB s) username with
  | None => (json_status (JError "User not found") 404, s)
  | Some user =>
      match getUserBlobReference (DB s) (u_id user) with
      | None => (json_status (JError "No blob found for user") 404, s)
      | Some (None, _) =>
          (json_status (JError "No blob found for user") 404, s)
      | Some (Some encrypted_blob_key, blob_nonce) =>
          if String.eqb encrypted_blob_key ""
          then (json_status (JError "No blob found for user") 404, s)
          else
            match R2_BUCKET s !! encrypted_blob_key with
            | None => (json_status (JError "Blob not found in storage") 404, s)
            | Some arrayBuffer =>
                match fromCharCodes worker_max_arguments arrayBuffer with
                | Thrown e => (json_status (JError e) 500, s)
                | Returned binary =>
                    let base64Blob := btoa binary in
                    (json (JBlob base64Blob blob_nonce), s)
                end
            end
      end
  end.

(** POST /save-prf-salt. *)
Definition save_prf_salt (username prfSalt : string) (s : Server)
  : Response * Server :=
  match getUser (DB s) username with
  | None => (json_status (JError "User not found") 404, s)
  | Some user =>
      (json JSuccess,
       mkServer (saveUserPrfSalt (DB s) (u_id user) prfSalt)
         (R2_BUCKET s) (challenges s))
  end.

(** POST /get-prf-salt. *)
Definition get_prf_salt (username : string) (s : Server)
  : Response * Server :=
  match getUser (DB s) username with
  | None => (json_status (JError "User not found") 404, s)
  | Some user => (json (JPrfSalt (getUserPrfSalt (DB s) (u_id user))), s)
  end.

(** POST /check-blob. *)
Definition check_blob (username : string) (s : Server) : Response * Server :=
  match getUser (DB s) username with
  | None => (json_status (JError "User not found") 404, s)
  | Some user =>
      let hasBlob :=
        match getUserBlobReference (DB s) (u_id user) with
        | Some (encrypted_blob_key, _) => truthy encrypted_blob_key
        | None => false
        end in
      (json (JHasBlob hasBlob), s)
  end.

(** A request to the worker. The challenge a [generate-*] call draws is
    part of the request: it is the library's choice, not the
    server's. *)
Inductive Request :=
| GenerateRegistrationOptions (username challenge : string)
| VerifyRegistration (username : string) (response : RegistrationResponseJSON)
| GenerateAuthenticationOptions (username challenge : string)
| VerifyAuthentication (username : string)
    (response : AuthenticationResponseJSON)
| StoreBlob (username encryptedBlob : string) (nonce : option string)
| RetrieveBlob (username : string)
| SavePrfSalt (username prfSalt : string)
| GetPrfSalt (username : string)
| CheckBlob (username : string).

Definition handle (r : Request) (s : Server) : Response * Server :=
  match r with
  | GenerateRegistrationOptions u c => generate_registration_options u c s
  | VerifyRegistration u resp => verify_registration u resp s
  | GenerateAuthenticationOptions u c => generate_authentication_options u c s
  | VerifyAuthentication u resp => verify_authentication u resp s
  | StoreBlob u b n => store_blob u b n s
  | RetrieveBlob u => retrieve_blob u s
  | SavePrfSalt u p => save_prf_salt u p s
  | GetPrfSalt u => get_prf_salt u s
  | CheckBlob u => check_blob u s
  end.

(** A run of the worker: the requests are served in order. *)
Fixpoint run (rs : list Request) (s : Server) : Server :=
  match rs with
  | [] => s
  | r :: rest => run rest (snd (handle r s))
  end.

End Endpoints.

(** ** Verifiers used to run the endpoints on concrete requests *)

(** A verifier that looks at the challenge only: a response is accepted
    when its payload is the expected challenge, and the counter it
    reports is [reported]. *)
Definition challenge_verifier (reported : Z) : SimpleWebAuthn := {|
  verifyRegistrationResponse response expectedChallenge _ _ :=
    Returned
      (mkVerifiedReg (String.eqb (rr_payload response) expectedChallenge)
         (Some (mkRegistrationInfo
                  (mkCredential (rr_id response) [] 0 (rr_transports response))
                  singleDevice false)));
  verifyAuthenticationResponse response expectedChallenge _ _ _ :=
    Returned
      (mkVerifiedAuth (String.eqb (ar_payload response) expectedChallenge)
         reported)
|}.

(** The counter rule of the SimpleWebAuthn library on top of the
    challenge check: when either counter is positive, a reported
    counter that does not exceed the stored one makes the call throw. *)
Definition counter_verifier (reported : Z) : SimpleWebAuthn := {|
  verifyRegistrationResponse :=
    @verifyRegistrationResponse (challenge_verifier reported);
  verifyAuthenticationResponse response expectedChallenge _ _ credential :=
    if String.eqb (ar_payload response) expectedChallenge then
      if (Z.ltb 0 reported || Z.ltb 0 (wc_counter credential))
         && Z.leb reported (wc_counter credential)
      then Thrown ("Error: Response counter value " ++ toString reported
                   ++ " was lower than expected "
                   ++ toString (wc_counter credential))
      else Returned (mkVerifiedAuth true reported)
    else Thrown "Error: Unexpected authentication response challenge"
|}.

(** ** A platform used to run the code on concrete requests *)

(** An engine that takes 125000 arguments in a call, as V8 does with
    its default stack, give or take, and a Web Crypto that takes the
    96-bit initialization vector only. *)
Definition demo_platform : Platform := {|
  worker_max_arguments := 125000;
  page_max_arguments := 125000;
  aes_gcm_takes_iv n := (n =? 12)%nat
|}.

(** ** Views of the state the theorems speak about *)

(** The [prf_salt] column, row by row. *)
Definition salts (db : D1Database) : list (Z * option string) :=
  map (fun u => (u_id u, u_prf_salt u)) (users db).

(** The stored counter of a credential. *)
Definition stored_counter (db : D1Database) (credId : string) : option Z :=
  option_map counter
    (List.find (fun r => String.eqb (cred_id r) credId) (passkeys db)).

(** The username a request names. *)
Definition request_username (r : Request) : string :=
  match r with
  | GenerateRegistrationOptions u _ | VerifyRegistration u _
  | GenerateAuthenticationOptions u _ | VerifyAuthentication u _
  | StoreBlob u _ _ | RetrieveBlob u | SavePrfSalt u _ | GetPrfSalt u
  | CheckBlob u => u
  end.

(** Whether a request is a call of /save-prf-salt. *)
Definition is_save_prf_salt (r : Request) : bool :=
  match r with
  | SavePrfSalt _ _ => true
  | _ => false
  end.

(** Whether a response is [{ verified: true, ... }]. *)
Definition is_verified (r : Response) : bool :=
  match body r with
  | JVerified true _ => true
  | _ => false
  end.


(** A store with two users; bob owns the credential [cred-bob], whose
    counter is 5, and alice owns [cred-alice]. Alice's salt is set. *)
Definition alice : User := mkUser 1 "alice" (Some "c2FsdC1vbmU") None None.
Definition bob : User := mkUser 2 "bob" None None None.

Definition demo_db : D1Database :=
  mkD1 [alice; bob] 2
    [mkPasskeyRow "cred-alice" [] 1 "1" 0 false false None;
     mkPasskeyRow "cred-bob" [] 2 "2" 5 false false (Some "internal,hybrid")].

Definition demo_server : Server := mkServer demo_db ∅ ∅.

(** ** Octets *)

Definition byte_of_N (n : N) : byte :=
  match Byte.of_N (n mod 256) with
  | Some b => b
  | None => x00
  end.

Definition xor_byte (a b : byte) : byte :=
  byte_of_N (N.lxor (Byte.to_N a) (Byte.to_N b)).

(** Octet-wise xor of [data] with the front of [pad]; [data] keeps its
    length when [pad] is long enough, and is cut otherwise. *)
Fixpoint xor_bytes (data pad : list byte) : list byte :=
  match data, pad with
  | d :: data', p :: pad' => xor_byte d p :: xor_bytes data' pad'
  | _, _ => []
  end.

(** The [len] octets of [n], most significant first. *)
Definition be_bytes (len : nat) (n : N) : list byte :=
  map (fun i => byte_of_N (N.shiftr n (8 * N.of_nat (len - 1 - i))))
    (seq 0 len).

(** The number whose big-endian octets are [bs]. *)
Definition be_number (bs : list byte) : N :=
  fold_left (fun acc b => (acc * 256 + Byte.to_N b)%N) bs 0%N.

(** ** SHA-256 (FIPS 180-4), as the platform's HKDF uses it *)

Module SHA256.
Local Open Scope N_scope.

Definition add32 (x y : N) : N := (x + y) mod 2 ^ 32.

Definition rotr (n x : N) : N :=
  N.lor (N.shiftr x n) (N.shiftl x (32 - n) mod 2 ^ 32).

Definition Ch (x y z : N) : N :=
  N.lxor (N.land x y) (N.land (N.lxor x 0xffffffff) z).

Definition Maj (x y z : N) : N :=
  N.lxor (N.lxor (N.land x y) (N.land x z)) (N.land y z).

Definition Sigma0 (x : N) : N :=
  N.lxor (N.lxor (rotr 2 x) (rotr 13 x)) (rotr 22 x).

Definition Sigma1 (x : N) : N :=
  N.lxor (N.lxor (rotr 6 x) (rotr 11 x)) (rotr 25 x).

Definition sigma0 (x : N) : N :=
  N.lxor (N.lxor (rotr 7 x) (rotr 18 x)) (N.shiftr x 3).

Definition sigma1 (x : N) : N :=
  N.lxor (N.lxor (rotr 17 x) (rotr 19 x)) (N.shiftr x 10).

(** The big-endian 32-bit words of a sequence of octets, [n] of them. *)
Fixpoint words (n : nat) (block : list byte) : list N :=
  match n with
  | O => []
  | S n' => be_number (firstn 4 block) :: words n' (skipn 4 block)
  end.

(** The sixty-four round constants, four to a row. *)
Definition K : list N :=
  flat_map (fun row => words 4 (be_bytes 16 row))
    [0x428a2f9871374491b5c0fbcfe9b5dba5;
     0x3956c25b59f111f1923f82a4ab1c5ed5;
     0xd807aa9812835b01243185be550c7dc3;
     0x72be5d7480deb1fe9bdc06a7c19bf174;
     0xe49b69c1efbe47860fc19dc6240ca1cc;
     0x2de92c6f4a7484aa5cb0a9dc76f988da;
     0x983e5152a831c66db00327c8bf597fc7;
     0xc6e00bf3d5a7914706ca635114292967;
     0x27b70a852e1b21384d2c6dfc53380d13;
     0x650a7354766a0abb81c2c92e92722c85;
     0xa2bfe8a1a81a664bc24b8b70c76c51a3;
     0xd192e819d6990624f40e3585106aa070;
     0x19a4c1161e376c082748774c34b0bcb5;
     0x391c0cb34ed8aa4a5b9cca4f682e6ff3;
     0x748f82ee78a5636f84c878148cc70208;
     0x90befffaa4506cebbef9a3f7c67178f2].

(** The eight working variables; also the hash value between blocks. *)
Record State := mkState { a : N; b : N; c : N; d : N;
                          e : N; f : N; g : N; h : N }.

Definition H0 : State :=
  mkState 0x6a09e667 0xbb67ae85 0x3c6ef372 0xa54ff53a
          0x510e527f 0x9b05688c 0x1f83d9ab 0x5be0cd19.

Definition round (st : State) (k w : N) : State :=
  let T1 := add32 (add32 (add32 (add32 (h st) (Sigma1 (e st)))
                            (Ch (e st) (f st) (g st))) k) w in
  let T2 := add32 (Sigma0 (a st)) (Maj (a st) (b st) (c st)) in
  mkState (add32 T1 T2) (a st) (b st) (c st)
          (add32 (d st) T1) (e st) (f st) (g st).

(** The rounds of one block. [window] holds the sixteen schedule words
    W(t) .. W(t+15); each round uses the first and appends W(t+16). *)
Fixpoint rounds (ks : list N) (window : list N) (st : State) : State :=
  match ks with
  | [] => st
  | k :: ks' =>
      let w := nth 0 window 0 in
      let next :=
        add32 (add32 (add32 (sigma1 (nth 14 window 0)) (nth 9 window 0))
                 (sigma0 (nth 1 window 0))) w in
      rounds ks' (tl window ++ [next]) (round st k w)
  end.

Definition add_state (x y : State) : State :=
  mkState (add32 (a x) (a y)) (add32 (b x) (b y))
          (add32 (c x) (c y)) (add32 (d x) (d y))
          (add32 (e x) (e y)) (add32 (f x) (f y))
          (add32 (g x) (g y)) (add32 (h x) (h y)).

Definition compress (st : State) (block : list byte) : State :=
  add_state st (rounds K (words 16 block) st).

(** The blocks of the padded message, [n] of them. *)
Fixpoint blocks (n : nat) (padded : list byte) (st : State) : State :=
  match n with
  | O => st
  | S n' => blocks n' (skipn 64 padded) (compress st (firstn 64 padded))
  end.

(** Padding: the bit 1, zeros up to 56 mod 64, the length in bits on
    eight octets. *)
Definition pad (msg : list byte) : list byte :=
  let len := length msg in
  let zeros := ((119 - len mod 64) mod 64)%nat in
  (msg ++ x80 :: repeat x00 zeros ++ be_bytes 8 (8 * N.of_nat len))%list.

Definition digest (st : State) : list byte :=
  (be_bytes 4 (a st) ++ be_bytes 4 (b st) ++ be_bytes 4 (c st)
   ++ be_bytes 4 (d st) ++ be_bytes 4 (e st) ++ be_bytes 4 (f st)
   ++ be_bytes 4 (g st) ++ be_bytes 4 (h st))%list.

Definition hash (msg : list byte) : list byte :=
  let padded := pad msg in
  digest (blocks (length padded / 64) padded H0).

End SHA256.

(** ** HMAC-SHA-256 (RFC 2104) and HKDF (RFC 5869) *)

Definition hmac_sha256 (key msg : list byte) : list byte :=
  let key := if (64 <? length key)%nat then SHA256.hash key else key in
  let key := (key ++ repeat x00 (64 - length key))%list in
  let ipad := xor_bytes key (repeat x36 64) in
  let opad := xor_bytes key (repeat x5c 64) in
  SHA256.hash (opad ++ SHA256.hash (ipad ++ msg)).

Definition hkdf_extract (salt ikm : list byte) : list byte :=
  hmac_sha256 salt ikm.

(** T(i), T(i+1), ... for [n] blocks, [prev] being T(i-1). *)
Fixpoint hkdf_blocks (n : nat) (prk info prev : list byte) (i : N)
  : list byte :=
  match n with
  | O => []
  | S n' =>
      let t := hmac_sha256 prk (prev ++ info ++ [byte_of_N i]) in
      (t ++ hkdf_blocks n' prk info t (i + 1))%list
  end.

(** OKM of [len] octets; [None] when [len] exceeds 255 blocks. *)
Definition hkdf_expand (prk info : list byte) (len : nat)
  : option (list byte) :=
  let n := ((len + 31) / 32)%nat in
  if (255 <? n)%nat then None
  else Some (firstn len (hkdf_blocks n prk info [] 1)).

Definition hkdf_sha256 (salt ikm info : list byte) (len : nat)
  : option (list byte) :=
  hkdf_expand (hkdf_extract salt ikm) info len.

(** ** AES-256 (FIPS 197) and GCM (NIST SP 800-38D), as the platform's
    AES-GCM uses them *)

Module AES.
Local Open Scope N_scope.

(** Multiplication by x in GF(2^8) modulo x^8 + x^4 + x^3 + x + 1. *)
Definition xtime (x : N) : N :=
  let y := x * 2 in
  if 256 <=? y then N.lxor (y mod 256) 0x1b else y.

Fixpoint gmul_go (n : nat) (x y acc : N) : N :=
  match n with
  | O => acc
  | S n' =>
      gmul_go n' (xtime x) (y / 2) (if N.odd y then N.lxor acc x else acc)
  end.

Definition gmul (x y : N) : N := gmul_go 8 x y 0.

(** The inverse in GF(2^8) (0 for 0): the power 254. *)
Definition inverse (x : N) : N :=
  let x2 := gmul x x in
  let x4 := gmul x2 x2 in
  let x8 := gmul x4 x4 in
  let x16 := gmul x8 x8 in
  let x32 := gmul x16 x16 in
  let x64 := gmul x32 x32 in
  let x128 := gmul x64 x64 in
  gmul x128 (gmul x64 (gmul x32 (gmul x16 (gmul x8 (gmul x4 x2))))).

Definition rotl8 (x n : N) : N :=
  N.lor (N.shiftl x n mod 256) (N.shiftr x (8 - n)).

Definition sbox (x : N) : N :=
  let i := inverse x in
  N.lxor (N.lxor (N.lxor (N.lxor (N.lxor i (rotl8 i 1)) (rotl8 i 2))
                    (rotl8 i 3)) (rotl8 i 4)) 0x63.

(** The state is the sixteen octets of the block in input order: the
    octet of row r and column c is at index r + 4c. *)
Definition sub_bytes (st : list N) : list N := map sbox st.

Definition shift_rows (st : list N) : list N :=
  map (fun i => nth (i mod 4 + 4 * ((i / 4 + i mod 4) mod 4))%nat st 0)
    (seq 0 16).

Definition mix_column (a0 a1 a2 a3 : N) : list N :=
  [N.lxor (N.lxor (N.lxor (gmul 2 a0) (gmul 3 a1)) a2) a3;
   N.lxor (N.lxor (N.lxor a0 (gmul 2 a1)) (gmul 3 a2)) a3;
   N.lxor (N.lxor (N.lxor a0 a1) (gmul 2 a2)) (gmul 3 a3);
   N.lxor (N.lxor (N.lxor (gmul 3 a0) a1) a2) (gmul 2 a3)].

Definition mix_columns (st : list N) : list N :=
  flat_map (fun c => mix_column (nth (4 * c) st 0) (nth (4 * c + 1) st 0)
                       (nth (4 * c + 2) st 0) (nth (4 * c + 3) st 0))
    (seq 0 4).

Fixpoint add_round_key (st key : list N) : list N :=
  match st, key with
  | s :: st', k :: key' => N.lxor s k :: add_round_key st' key'
  | _, _ => []
  end.

Definition sub_word (w : N) : N :=
  N.lor (N.lor (N.lor (N.shiftl (sbox (N.shiftr w 24)) 24)
                  (N.shiftl (sbox (N.shiftr w 16 mod 256)) 16))
           (N.shiftl (sbox (N.shiftr w 8 mod 256)) 8))
    (sbox (w mod 256)).

Definition rot_word (w : N) : N :=
  N.lor (N.shiftl w 8 mod 2 ^ 32) (N.shiftr w 24).

(** Key expansion for a 256-bit key: words 8 .. 59 from the eight words
    of the key; [rc] is the round constant in use. *)
Fixpoint expand (n i : nat) (w : list N) (rc : N) : list N :=
  match n with
  | O => w
  | S n' =>
      let prev := nth (i - 1) w 0 in
      let temp :=
        if (i mod 8 =? 0)%nat
        then N.lxor (sub_word (rot_word prev)) (N.shiftl rc 24)
        else if (i mod 8 =? 4)%nat then sub_word prev else prev in
      expand n' (S i) (w ++ [N.lxor (nth (i - 8) w 0) temp])
        (if (i mod 8 =? 0)%nat then xtime rc else rc)
  end.

Definition key_schedule (key : list byte) : list N :=
  expand 52 8 (SHA256.words 8 key) 1.

(** The sixteen octets of round key [r]. *)
Definition round_key (w : list N) (r : nat) : list N :=
  flat_map (fun j => map Byte.to_N (be_bytes 4 (nth (4 * r + j) w 0)))
    (seq 0 4).

(** The cipher on one block, given as a 128-bit number. *)
Definition cipher (w : list N) (block : N) : N :=
  let st := add_round_key (map Byte.to_N (be_bytes 16 block))
              (round_key w 0) in
  let st :=
    fold_left
      (fun st r =>
         add_round_key (mix_columns (shift_rows (sub_bytes st)))
           (round_key w r))
      (seq 1 13) st in
  let st := add_round_key (shift_rows (sub_bytes st)) (round_key w 14) in
  be_number (map byte_of_N st).

End AES.

Module GCM.
Local Open Scope N_scope.

(** Multiplication in GF(2^128), blocks as numbers whose most
    significant bit is the first bit of the block. *)
Fixpoint mul_go (n : nat) (x v z : N) : N :=
  match n with
  | O => z
  | S n' =>
      let z := if N.testbit x (N.of_nat n') then N.lxor z v else z in
      let v := if N.testbit v 0
               then N.lxor (N.shiftr v 1) (N.shiftl 0xe1 120)
               else N.shiftr v 1 in
      mul_go n' x v z
  end.

Definition mul (x y : N) : N := mul_go 128 x y 0.

(** The 128-bit blocks of [data], the last one padded with zeros. *)
Fixpoint blocks_of (n : nat) (data : list byte) : list N :=
  match n with
  | O => []
  | S n' =>
      let block := firstn 16 data in
      be_number (block ++ repeat x00 (16 - length block))
      :: blocks_of n' (skipn 16 data)
  end.

Definition padded_blocks (data : list byte) : list N :=
  blocks_of ((length data + 15) / 16) data.

Definition ghash (H : N) (xs : list N) : N :=
  fold_left (fun y x => mul (N.lxor y x) H) xs 0.

Definition inc32 (block : N) : N :=
  N.lor (N.shiftl (N.shiftr block 32) 32) ((block mod 2 ^ 32 + 1) mod 2 ^ 32).

(** The pre-counter block J0 for the nonce [iv]. *)
Definition j0 (H : N) (iv : list byte) : N :=
  if (length iv =? 12)%nat
  then N.lor (N.shiftl (be_number iv) 32) 1
  else ghash H (padded_blocks iv ++ [8 * N.of_nat (length iv)]).

(** [n] blocks of key stream, counter blocks from [cb] on. *)
Fixpoint keystream (w : list N) (cb : N) (n : nat) : list byte :=
  match n with
  | O => []
  | S n' => (be_bytes 16 (AES.cipher w cb) ++ keystream w (inc32 cb) n')%list
  end.

Definition gctr (w : list N) (icb : N) (data : list byte) : list byte :=
  xor_bytes data (keystream w icb ((length data + 15) / 16)).

(** The tag over the ciphertext [ct] (no additional data). *)
Definition tag (w : list N) (H J0 : N) (ct : list byte) : list byte :=
  let S := ghash H (padded_blocks ct ++ [8 * N.of_nat (length ct)]) in
  be_bytes 16 (N.lxor (AES.cipher w J0) S).

Fixpoint bytes_eqb (x y : list byte) : bool :=
  match x, y with
  | [], [] => true
  | a :: x', b :: y' => Byte.eqb a b && bytes_eqb x' y'
  | _, _ => false
  end.

(** Authenticated encryption: the ciphertext followed by the 128-bit
    tag. *)
Definition seal (key iv plaintext : list byte) : list byte :=
  let w := AES.key_schedule key in
  let H := AES.cipher w 0 in
  let J0 := j0 H iv in
  let ct := gctr w (inc32 J0) plaintext in
  (ct ++ tag w H J0 ct)%list.

(** Authenticated decryption: [None] when the input is shorter than a
    tag or the tag does not match. *)
Definition open (key iv sealed : list byte) : option (list byte) :=
  if (length sealed <? 16)%nat then None
  else
    let w := AES.key_schedule key in
    let H := AES.cipher w 0 in
    let J0 := j0 H iv in
    let ct := firstn (length sealed - 16) sealed in
    let t := skipn (length sealed - 16) sealed in
    if bytes_eqb t (tag w H J0 ct)
    then Some (gctr w (inc32 J0) ct)
    else None.

End GCM.

(** ** The Web Crypto calls the client makes (W3C Web Cryptography API) *)

(** The random source behind [crypto.getRandomValues]: an unbounded
    tape of octets and the number of octets drawn so far. *)
Record Random := mkRandom {
  tape : nat -> byte;
  drawn : nat
}.

(** The next [n] octets of the tape. *)
Definition random_octets (n : nat) (rng : Random) : list byte :=
  map (tape rng) (seq (drawn rng) n).

(** The name of the exception [getRandomValues] throws for an array of
    more than 65536 octets. *)
Definition quota_exceeded_error : string := "QuotaExceededError".

(** [crypto.getRandomValues(new Uint8Array(n))]: the array filled, and
    the source after it; an array of more than 65536 octets is
    refused. *)
Definition getRandomValues (n : nat) (rng : Random)
  : Outcome (list byte * Random) :=
  if (65536 <? N.of_nat n)%N then Thrown quota_exceeded_error
  else Returned (random_octets n rng, mkRandom (tape rng) (drawn rng + n)).

Record CryptoKey := mkCryptoKey {
  key_algorithm : string;
  key_length : Z;
  key_extractable : bool;
  key_usages : list string;
  key_material : list byte
}.

Record HkdfParams := mkHkdfParams {
  hp_name : string;
  hp_hash : string;
  hp_salt : list byte;
  hp_info : list byte
}.

Record AesParams := mkAesParams {
  ap_name : string;
  ap_length : Z
}.

Record AesGcmParams := mkAesGcmParams {
  gp_name : string;
  gp_iv : list byte
}.

Module subtle.

Definition usages_within (allowed usages : list string) : bool :=
  forallb (fun u => existsb (String.eqb u) allowed) usages.

Definition has_usage (key : CryptoKey) (usage : string) : bool :=
  existsb (String.eqb usage) (key_usages key).

(** [importKey], for the one algorithm the client imports: raw key
    material for HKDF. Key material of any length is accepted. *)
Definition importKey (format : string) (keyData : list byte)
  (algorithm : string) (extractable : bool) (keyUsages : list string)
  : Outcome CryptoKey :=
  if negb (String.eqb algorithm "HKDF") then Thrown "NotSupportedError"
  else if negb (String.eqb format "raw") then Thrown "NotSupportedError"
  else if negb (usages_within ["deriveKey"; "deriveBits"] keyUsages)
  then Thrown "SyntaxError"
  else if extractable then Thrown "SyntaxError"
  else Returned (mkCryptoKey "HKDF" 0 false keyUsages keyData).

(** [deriveKey], for HKDF with SHA-256 as the derivation and a 256-bit
    AES-GCM key as the result. *)
Definition deriveKey (algorithm : HkdfParams) (baseKey : CryptoKey)
  (derivedKeyType : AesParams) (extractable : bool)
  (keyUsages : list string) : Outcome CryptoKey :=
  if negb (String.eqb (hp_name algorithm) "HKDF" &&
           String.eqb (hp_hash algorithm) "SHA-256" &&
           String.eqb (ap_name derivedKeyType) "AES-GCM")
  then Thrown "NotSupportedError"
  else if negb (String.eqb (hp_name algorithm) (key_algorithm baseKey))
  then Thrown "InvalidAccessError"
  else if negb (has_usage baseKey "deriveKey")
  then Thrown "InvalidAccessError"
  else if negb (Z.eqb (ap_length derivedKeyType) 256)
  then Thrown "OperationError"
  else
    match hkdf_sha256 (hp_salt algorithm) (key_material baseKey)
            (hp_info algorithm) 32 with
    | None => Thrown "OperationError"
    | Some secret =>
        if negb (usages_within ["encrypt"; "decrypt"; "wrapKey"; "unwrapKey"]
                   keyUsages)
        then Thrown "SyntaxError"
        else if (length keyUsages =? 0)%nat then Thrown "SyntaxError"
        else Returned (mkCryptoKey "AES-GCM" 256 extractable keyUsages secret)
    end.

(** [encrypt] with AES-GCM: the ciphertext followed by the tag. The
    operation fails for an initialization vector of a length the
    implementation does not take. *)
Definition encrypt `{Platform} (algorithm : AesGcmParams) (key : CryptoKey)
  (data : list byte) : Outcome (list byte) :=
  if negb (String.eqb (gp_name algorithm) "AES-GCM")
  then Thrown "NotSupportedError"
  else if negb (String.eqb (gp_name algorithm) (key_algorithm key))
  then Thrown "InvalidAccessError"
  else if negb (has_usage key "encrypt") then Thrown "InvalidAccessError"
  else if negb (aes_gcm_takes_iv (length (gp_iv algorithm)))
  then Thrown "OperationError"
  else Returned (GCM.seal (key_material key) (gp_iv algorithm) data).

(** [decrypt] with AES-GCM. *)
Definition decrypt `{Platform} (algorithm : AesGcmParams) (key : CryptoKey)
  (data : list byte) : Outcome (list byte) :=
  if negb (String.eqb (gp_name algorithm) "AES-GCM")
  then Thrown "NotSupportedError"
  else if negb (String.eqb (gp_name algorithm) (key_algorithm key))
  then Thrown "InvalidAccessError"
  else if negb (has_usage key "decrypt") then Thrown "InvalidAccessError"
  else if negb (aes_gcm_takes_iv (length (gp_iv algorithm)))
  then Thrown "OperationError"
  else
    match GCM.open (key_material key) (gp_iv algorithm) data with
    | Some plaintext => Returned plaintext
    | None => Thrown "OperationError"
    end.

End subtle.

(** ** crypto.ts *)

(** [generatePrfSalt]. *)
Definition generatePrfSalt (rng : Random) : Outcome (list byte * Random) :=
  getRandomValues 32 rng.

(** [generateNonce]. *)
Definition generateNonce (rng : Random) : Outcome (list byte * Random) :=
  getRandomValues 12 rng.

(** What replacing [c] by [by_] makes of the character [d]. *)
Definition replacement (c : ascii) (by_ : string) (d : ascii) : list ascii :=
  if Ascii.eqb d c then list_ascii_of_string by_ else [d].

(** [s.replace(/c/g, by)] for a character [c]; [by] may be empty. *)
Definition replace_all (c : ascii) (by_ : string) (s : string) : string :=
  string_of_list_ascii
    (flat_map (replacement c by_) (list_ascii_of_string s)).

(** The three replacements that make base64url of base64. *)
Definition base64_to_url (base64 : string) : string :=
  replace_all "="%char "" (replace_all "/"%char "_"
                             (replace_all "+"%char "-" base64)).

(** [uint8ArrayToBase64Url]; the array is spread into the arguments of
    [String.fromCharCode]. *)
Definition uint8ArrayToBase64Url `{Platform} (array : list byte)
  : Outcome string :=
  match fromCharCodes page_max_arguments array with
  | Thrown e => Thrown e
  | Returned binary =>
      let base64 := btoa binary in
      Returned (base64_to_url base64)
  end.

(** [s.padEnd(n, "=")]. *)
Definition padEnd (s : string) (n : nat) : string :=
  s ++ string_of_list_ascii (repeat "="%char (n - String.length s)).

(** [base64UrlToUint8Array]. *)
Definition base64UrlToUint8Array (base64url : string)
  : Outcome (list byte) :=
  let base64 := replace_all "_"%char "/" (replace_all "-"%char "+" base64url) in
  let padded :=
    padEnd base64
      (String.length base64 + (4 - String.length base64 mod 4) mod 4) in
  match atob padded with
  | Thrown e => Thrown e
  | Returned binary => Returned (charCodes binary)
  end.

(** What the five replacements do to one character: the three of
    [uint8ArrayToBase64Url], then the two of [base64UrlToUint8Array]. *)
Definition there_and_back (c : ascii) : list ascii :=
  flat_map (replacement "_" "/")
    (flat_map (replacement "-" "+")
       (flat_map (replacement "=" "")
          (flat_map (replacement "/" "_") (replacement "+" "-" c)))).

(** [deriveEncryptionKey]; without [salt], thirty-two zero octets. *)
Definition deriveEncryptionKey (prfOutput : list byte)
  (salt : option (list byte)) : Outcome CryptoKey :=
  let salt := default (repeat x00 32) salt in
  match subtle.importKey "raw" prfOutput "HKDF" false ["deriveKey"] with
  | Thrown e => Thrown e
  | Returned inputKeyMaterial =>
      subtle.deriveKey
        (mkHkdfParams "HKDF" "SHA-256" salt [])
        inputKeyMaterial
        (mkAesParams "AES-GCM" 256)
        false
        ["encrypt"; "decrypt"]
  end.

(** [encryptData]. *)
Definition encryptData `{Platform} (key : CryptoKey) (data nonce : list byte)
  : Outcome (list byte) :=
  subtle.encrypt (mkAesGcmParams "AES-GCM" nonce) key data.

(** [decryptData]. *)
Definition decryptData `{Platform} (key : CryptoKey)
  (ciphertext nonce : list byte) : Outcome (list byte) :=
  subtle.decrypt (mkAesGcmParams "AES-GCM" nonce) key ciphertext.


(** The base64url form of an array: what [uint8ArrayToBase64Url]
    returns when it returns. *)
Definition base64url (array : list byte) : string :=
  base64_to_url (btoa (binary_string array)).

(** ** The browser side of WebAuthn (external) *)

(** [startRegistration] and [startAuthentication] of
    @simplewebauthn/browser, given the options of the server and the
    salt the client put in [extensions.prf.eval.first]. Either may throw
    (the user cancels, no authenticator). *)
Class Browser := {
  startRegistration :
    PublicKeyCredentialCreationOptionsJSON -> list byte ->
    Outcome RegistrationResponseJSON;
  startAuthentication :
    PublicKeyCredentialRequestOptionsJSON -> list byte ->
    Outcome AuthenticationResponseJSON
}.

(** ** Text *)

(** A text is held as the octets of its UTF-8 form, which is what
    [TextEncoder.encode] yields. (A text with an unpaired surrogate has
    no such form and is outside the model.) *)
Definition TextEncoder_encode (s : string) : list byte := charCodes s.

(** The UTF-8 decoder of the Encoding standard, on the values of the
    octets. Inside a sequence the decoder holds the octets it has seen
    of it, last first, how many more it needs, and the bounds of the
    next octet. *)
Record Utf8 := mkUtf8 {
  utf8_seen : list N;
  utf8_needed : nat;
  utf8_lower : N;
  utf8_upper : N
}.

Definition utf8_start : Utf8 := mkUtf8 [] 0 0x80 0xBF.

(** U+FFFD, which the decoder writes for an error, in UTF-8. *)
Definition replacement_character : list N := [0xEF; 0xBF; 0xBD]%N.

(** An octet met outside a sequence: what is written, and the state
    after it. *)
Definition utf8_lead (b : N) : list N * Utf8 :=
  (if b <=? 0x7F then ([b], utf8_start)
   else if (0xC2 <=? b) && (b <=? 0xDF) then ([], mkUtf8 [b] 1 0x80 0xBF)
   else if (0xE0 <=? b) && (b <=? 0xEF)
   then ([], mkUtf8 [b] 2 (if b =? 0xE0 then 0xA0 else 0x80)
               (if b =? 0xED then 0x9F else 0xBF))
   else if (0xF0 <=? b) && (b <=? 0xF4)
   then ([], mkUtf8 [b] 3 (if b =? 0xF0 then 0x90 else 0x80)
               (if b =? 0xF4 then 0x8F else 0xBF))
   else (replacement_character, utf8_start))%N.

(** One octet. A sequence that is completed is the UTF-8 form of its
    code point and is written as it came; an octet out of bounds ends
    the sequence with an error and is read again outside it. *)
Definition utf8_octet (st : Utf8) (b : N) : list N * Utf8 :=
  match utf8_needed st with
  | O => utf8_lead b
  | S n =>
      if ((utf8_lower st <=? b) && (b <=? utf8_upper st))%N then
        match n with
        | O => (rev (b :: utf8_seen st), utf8_start)
        | S _ => ([], mkUtf8 (b :: utf8_seen st) n 0x80 0xBF)
        end
      else
        let '(written, st') := utf8_lead b in
        ((replacement_character ++ written)%list, st')
  end.

(** The decoder on a sequence of octets; the end of the input inside a
    sequence is an error. *)
Fixpoint utf8_decode (st : Utf8) (l : list N) : list N :=
  match l with
  | [] =>
      match utf8_needed st with
      | O => []
      | S _ => replacement_character
      end
  | b :: rest =>
      let '(written, st') := utf8_octet st b in
      (written ++ utf8_decode st' rest)%list
  end.

(** A byte order mark at the head of the decoded text, U+FEFF, is not
    part of what [decode] returns. *)
Definition drop_bom (l : list N) : list N :=
  match l with
  | a :: b :: c :: rest =>
      if ((a =? 0xEF) && (b =? 0xBB) && (c =? 0xBF))%N then rest else l
  | _ => l
  end.

(** [new TextDecoder().decode(bytes)]: UTF-8, errors replaced, the
    byte order mark dropped. *)
Definition TextDecoder_decode (bytes : list byte) : string :=
  string_of_list_ascii
    (map ascii_of_N (drop_bom (utf8_decode utf8_start (map Byte.to_N bytes)))).

Definition one_octet_whitespace (c : N) : bool :=
  ((9 <=? c) && (c <=? 13) || (c =? 32))%N.

Definition three_octet_whitespace (c x y : N) : bool :=
  ((c =? 0xE1) && (x =? 0x9A) && (y =? 0x80)
   || (c =? 0xE2) && (x =? 0x80)
      && ((0x80 <=? y) && (y <=? 0x8A) || (y =? 0xA8) || (y =? 0xA9)
          || (y =? 0xAF))
   || (c =? 0xE2) && (x =? 0x81) && (y =? 0x9F)
   || (c =? 0xE3) && (x =? 0x80) && (y =? 0x80)
   || (c =? 0xEF) && (x =? 0xBB) && (y =? 0xBF))%N.

(** Whether the text is made of white space and line terminators only
    (U+0009..U+000D, U+0020, U+00A0, U+1680, U+2000..U+200A, U+2028,
    U+2029, U+202F, U+205F, U+3000, U+FEFF). *)
Fixpoint all_whitespace (l : list N) : bool :=
  match l with
  | [] => true
  | c :: rest =>
      if one_octet_whitespace c then all_whitespace rest
      else
        match rest with
        | [] => false
        | x :: rest2 =>
            if ((c =? 0xC2) && (x =? 0xA0))%N then all_whitespace rest2
            else
              match rest2 with
              | [] => false
              | y :: rest3 =>
                  if three_octet_whitespace c x y then all_whitespace rest3
                  else false
              end
        end
  end.

(** [!s.trim()]. *)
Definition is_blank (s : string) : bool :=
  all_whitespace (map N_of_ascii (list_ascii_of_string s)).

(** The character U+0022. *)
Definition dquote : string := String "034"%char EmptyString.

(** ** App.tsx *)

Module App.

(** The state of the component. *)
Record State := mkState {
  username : string;
  message : string;
  isAuthenticated : bool;
  prfOutput : option (list byte);
  hasBlob : bool;
  decryptedBlob : option (list byte);
  userMessage : string;
  encryptedMessage : string;
  decryptedMessage : string;
  prfSalt : option (list byte)
}.

Definition setMessage (m : string) (st : State) : State :=
  mkState (username st) m (isAuthenticated st) (prfOutput st) (hasBlob st)
    (decryptedBlob st) (userMessage st) (encryptedMessage st)
    (decryptedMessage st) (prfSalt st).

Definition setIsAuthenticated (v : bool) (st : State) : State :=
  mkState (username st) (message st) v (prfOutput st) (hasBlob st)
    (decryptedBlob st) (userMessage st) (encryptedMessage st)
    (decryptedMessage st) (prfSalt st).

Definition setPrfOutput (v : option (list byte)) (st : State) : State :=
  mkState (username st) (message st) (isAuthenticated st) v (hasBlob st)
    (decryptedBlob st) (userMessage st) (encryptedMessage st)
    (decryptedMessage st) (prfSalt st).

Definition setHasBlob (v : bool) (st : State) : State :=
  mkState (username st) (message st) (isAuthenticated st) (prfOutput st) v
    (decryptedBlob st) (userMessage st) (encryptedMessage st)
    (decryptedMessage st) (prfSalt st).

Definition setDecryptedBlob (v : option (list byte)) (st : State) : State :=
  mkState (username st) (message st) (isAuthenticated st) (prfOutput st)
    (hasBlob st) v (userMessage st) (encryptedMessage st)
    (decryptedMessage st) (prfSalt st).

Definition setUserMessage (v : string) (st : State) : State :=
  mkState (username st) (message st) (isAuthenticated st) (prfOutput st)
    (hasBlob st) (decryptedBlob st) v (encryptedMessage st)
    (decryptedMessage st) (prfSalt st).

Definition setEncryptedMessage (v : string) (st : State) : State :=
  mkState (username st) (message st) (isAuthenticated st) (prfOutput st)
    (hasBlob st) (decryptedBlob st) (userMessage st) v
    (decryptedMessage st) (prfSalt st).

Definition setDecryptedMessage (v : string) (st : State) : State :=
  mkState (username st) (message st) (isAuthenticated st) (prfOutput st)
    (hasBlob st) (decryptedBlob st) (userMessage st) (encryptedMessage st)
    v (prfSalt st).

Definition setPrfSalt (v : option (list byte)) (st : State) : State :=
  mkState (username st) (message st) (isAuthenticated st) (prfOutput st)
    (hasBlob st) (decryptedBlob st) (userMessage st) (encryptedMessage st)
    (decryptedMessage st) v.

(** The page, the worker it talks to, and the random source of the
    page. *)
Record World := mkWorld {
  app : State;
  server : Server;
  rng : Random
}.

Definition with_app (f : State -> State) (w : World) : World :=
  mkWorld (f (app w)) (server w) (rng w).

(** [response.ok]. *)
Definition ok (r : Response) : bool :=
  Z.leb 200 (status r) && Z.leb (status r) 299.

(** [body.error], when the body has the field. *)
Definition error_of (b : Json) : option string :=
  match b with
  | JError e => Some e
  | _ => None
  end.

(** What a handler's [try] block leaves: the world, and the error when
    the block threw. An [ok] answer of an endpoint always has the body
    of that endpoint; the branches for another body are there for
    totality and stand for the [TypeError] the page would meet. *)
Definition Tried : Type := World * option string.

Section Handlers.
Context `{SimpleWebAuthn} `{Browser} `{Platform}.

(** The [try] block of [handleRegister]. [st] is the state the handler
    was created with, [challenge] the challenge the server library
    draws. *)
Definition tryRegister (challenge : string) (st : State) (w : World)
  : Tried :=
  let w := with_app (setMessage "Starting registration...") w in
  let salted :=
    match prfSalt st with
    | Some salt => Returned (salt, w)
    | None =>
        match generatePrfSalt (rng w) with
        | Thrown e => Thrown e
        | Returned (salt, rng') =>
            Returned
              (salt, mkWorld (setPrfSalt (Some salt) (app w)) (server w) rng')
        end
    end in
  match salted with
  | Thrown e => (w, Some e)
  | Returned (currentPrfSalt, w) =>
      let '(optionsResponse, srv) :=
        generate_registration_options (username st) challenge (server w) in
      let w := mkWorld (app w) srv (rng w) in
      if negb (ok optionsResponse)
      then (w, Some ("Error: " ++ js_or (error_of (body optionsResponse))
                                    "Failed to get registration options"))
      else
        match body optionsResponse with
        | JCreationOptions optionsJSON =>
            match startRegistration optionsJSON currentPrfSalt with
            | Thrown e => (w, Some e)
            | Returned registrationResponse =>
                let '(verificationResponse, srv) :=
                  verify_registration (username st) registrationResponse
                    (server w) in
                let w := mkWorld (app w) srv (rng w) in
                if is_verified verificationResponse then
                  match uint8ArrayToBase64Url currentPrfSalt with
                  | Thrown e => (w, Some e)
                  | Returned prfSaltBase64 =>
                      let '(_, srv) :=
                        save_prf_salt (username st) prfSaltBase64
                          (server w) in
                      let w := mkWorld (app w) srv (rng w) in
                      (with_app
                         (setMessage
                            "Registration successful! Your encryption salt has been saved. You can now authenticate and encrypt data.")
                         w, None)
                  end
                else
                  (with_app
                     (setMessage "Registration failed. Please try again.")
                     w, None)
            end
        | _ => (w, Some "TypeError: malformed options")
        end
  end.

(** [handleRegister]. *)
Definition handleRegister (challenge : string) (w : World) : World :=
  match tryRegister challenge (app w) w with
  | (w', None) => w'
  | (w', Some error) =>
      with_app (setMessage ("Registration error: " ++ error)) w'
  end.

(** The [try] block of [handleAuthenticate]. *)
Definition tryAuthenticate (challenge : string) (st : State) (w : World)
  : Tried :=
  let w := with_app (setMessage "Starting authentication...") w in
  let '(saltResponse, srv) := get_prf_salt (username st) (server w) in
  let w := mkWorld (app w) srv (rng w) in
  let saltData_prfSalt :=
    match body saltResponse with
    | JPrfSalt o => o
    | _ => None
    end in
  let salted :=
    match saltData_prfSalt with
    | Some stored =>
        if String.eqb stored "" then generatePrfSalt (rng w)
        else
          match base64UrlToUint8Array stored with
          | Returned salt => Returned (salt, rng w)
          | Thrown e => Thrown e
          end
    | None => generatePrfSalt (rng w)
    end in
  match salted with
  | Thrown e => (w, Some e)
  | Returned (currentPrfSalt, rng') =>
      let w := mkWorld (setPrfSalt (Some currentPrfSalt) (app w))
                 (server w) rng' in
      let '(optionsResponse, srv) :=
        generate_authentication_options (username st) challenge (server w) in
      let w := mkWorld (app w) srv (rng w) in
      if negb (ok optionsResponse)
      then (w, Some ("Error: " ++ js_or (error_of (body optionsResponse))
                                    "Failed to get authentication options"))
      else
        match body optionsResponse with
        | JRequestOptions optionsJSON =>
            match startAuthentication optionsJSON currentPrfSalt with
            | Thrown e => (w, Some e)
            | Returned authResponse =>
                let '(verificationResponse, srv) :=
                  verify_authentication (username st) authResponse
                    (server w) in
                let w := mkWorld (app w) srv (rng w) in
                if is_verified verificationResponse then
                  let w := with_app (setIsAuthenticated true) w in
                  match ar_prf_first authResponse with
                  | Some prfResult =>
                      let w := with_app (setPrfOutput (Some prfResult)) w in
                      let '(blobCheckResponse, srv) :=
                        check_blob (username st) (server w) in
                      let w := mkWorld (app w) srv (rng w) in
                      match body blobCheckResponse with
                      | JHasBlob true =>
                          (with_app
                             (fun a =>
                                setMessage
                                  ("Successfully authenticated as "
                                   ++ username st
                                   ++ "! You have an encrypted message stored. Click "
                                   ++ dquote ++ "Retrieve & Decrypt" ++ dquote
                                   ++ " to view it.")
                                  (setHasBlob true a))
                             w, None)
                      | _ =>
                          (with_app
                             (setMessage
                                ("Successfully authenticated as "
                                 ++ username st
                                 ++ "! PRF encryption key available."))
                             w, None)
                      end
                  | None =>
                      (with_app
                         (setMessage
                            ("Successfully authenticated as " ++ username st
                             ++ "! (Note: PRF extension not available)"))
                         w, None)
                  end
                else
                  (with_app
                     (setMessage "Authentication failed. Please try again.")
                     w, None)
            end
        | _ => (w, Some "TypeError: malformed options")
        end
  end.

(** [handleAuthenticate]. *)
Definition handleAuthenticate (challenge : string) (w : World) : World :=
  match tryAuthenticate challenge (app w) w with
  | (w', None) => w'
  | (w', Some error) =>
      with_app (setMessage ("Authentication error: " ++ error)) w'
  end.

(** The [try] block of [handleEncryptAndStore], entered with the PRF
    output [prf]. *)
Definition tryEncryptAndStore (prf : list byte) (st : State) (w : World)
  : Tried :=
  let w := with_app (setMessage "Encrypting your message...") w in
  let messageBytes := TextEncoder_encode (userMessage st) in
  match generateNonce (rng w) with
  | Thrown e => (w, Some e)
  | Returned (nonce, rng') =>
      let w := mkWorld (app w) (server w) rng' in
      match deriveEncryptionKey prf None with
      | Thrown e => (w, Some e)
      | Returned encryptionKey =>
          match encryptData encryptionKey messageBytes nonce with
          | Thrown e => (w, Some e)
          | Returned encryptedData =>
              match fromCharCodes page_max_arguments encryptedData with
              | Thrown e => (w, Some e)
              | Returned binary =>
                  let encryptedBase64 := btoa binary in
                  match uint8ArrayToBase64Url nonce with
                  | Thrown e => (w, Some e)
                  | Returned nonceBase64 =>
                      let w :=
                        with_app (setEncryptedMessage encryptedBase64) w in
                      let '(response, srv) :=
                        store_blob (username st) encryptedBase64
                          (Some nonceBase64) (server w) in
                      let w := mkWorld (app w) srv (rng w) in
                      match body response with
                      | JStored _ =>
                          (with_app
                             (fun a =>
                                setMessage
                                  "Successfully encrypted and stored message in R2!"
                                  (setHasBlob true a))
                             w, None)
                      | other =>
                          (with_app
                             (setMessage
                                ("Failed to store message: "
                                 ++ default "undefined" (error_of other)))
                             w, None)
                      end
                  end
              end
          end
      end
  end.

(** [handleEncryptAndStore]. *)
Definition handleEncryptAndStore (w : World) : World :=
  let st := app w in
  match prfOutput st with
  | None =>
      with_app
        (setMessage "Please authenticate first to get PRF encryption key.") w
  | Some prf =>
      if is_blank (userMessage st)
      then with_app (setMessage "Please enter a message to encrypt.") w
      else
        match tryEncryptAndStore prf st w with
        | (w', None) => w'
        | (w', Some error) =>
            with_app (setMessage ("Encryption error: " ++ error)) w'
        end
  end.

(** The [try] block of [handleRetrieveAndDecrypt]. *)
Definition tryRetrieveAndDecrypt (prf : list byte) (st : State) (w : World)
  : Tried :=
  let w := with_app (setMessage "Retrieving and decrypting message...") w in
  let '(response, srv) := retrieve_blob (username st) (server w) in
  let w := mkWorld (app w) srv (rng w) in
  if negb (ok response)
  then (w, Some ("Error: " ++ js_or (error_of (body response))
                                "Failed to retrieve message"))
  else
    match body response with
    | JBlob encryptedBlob nonce =>
        match atob encryptedBlob with
        | Thrown e => (w, Some e)
        | Returned binary =>
            let encryptedData := charCodes binary in
            match nonce with
            | None =>
                (w, Some "TypeError: Cannot read properties of null (reading 'replace')")
            | Some nonce =>
                match base64UrlToUint8Array nonce with
                | Thrown e => (w, Some e)
                | Returned nonceArray =>
                    match deriveEncryptionKey prf None with
                    | Thrown e => (w, Some e)
                    | Returned encryptionKey =>
                        match decryptData encryptionKey encryptedData
                                nonceArray with
                        | Thrown e => (w, Some e)
                        | Returned decryptedData =>
                            let decryptedText :=
                              TextDecoder_decode decryptedData in
                            (with_app
                               (fun a =>
                                  setMessage "Successfully decrypted message!"
                                    (setDecryptedMessage decryptedText
                                       (setDecryptedBlob (Some decryptedData)
                                          a)))
                               w, None)
                        end
                    end
                end
            end
        end
    | _ => (w, Some "TypeError: malformed blob")
    end.

(** [handleRetrieveAndDecrypt]. *)
Definition handleRetrieveAndDecrypt (w : World) : World :=
  let st := app w in
  match prfOutput st with
  | None =>
      with_app
        (setMessage "Please authenticate first to get PRF decryption key.") w
  | Some prf =>
      match tryRetrieveAndDecrypt prf st w with
      | (w', None) => w'
      | (w', Some error) =>
          with_app (setMessage ("Decryption error: " ++ error)) w'
      end
  end.

End Handlers.

(** [handleLogout]. *)
Definition handleLogout (w : World) : World :=
  with_app
    (fun a =>
       setMessage ""
         (setPrfSalt None
            (setDecryptedMessage ""
               (setEncryptedMessage ""
                  (setUserMessage ""
                     (setDecryptedBlob None
                        (setHasBlob false
                           (setPrfOutput None
                              (setIsAuthenticated false a)))))))))
    w.

End App.

(** ** Views of the page the theorems speak about *)

(** The material of the key a page derives from the PRF output [prf]:
    the handlers pass no salt to [deriveEncryptionKey]. *)
Definition page_key (prf : list byte) : list byte :=
  hmac_sha256 (hkdf_extract (repeat x00 32) prf) [x01].

(** The object key /store-blob uses for a user. *)
Definition blob_key (user : User) : string :=
  "user-" ++ toString (u_id user) ++ "-blob".

(** ** A browser and a page used to run the handlers *)

(** The PRF of an authenticator holding [secret] (WebAuthn level 3):
    HMAC-SHA-256 of the hashed, domain-separated salt. *)
Definition authenticator_prf (secret salt : list byte) : list byte :=
  hmac_sha256 secret
    (SHA256.hash (charCodes "WebAuthn PRF" ++ x00 :: salt)).

(** The head of a text is a byte order mark, U+FEFF. *)
Definition starts_with_bom (l : list N) : bool :=
  match l with
  | a :: b :: c :: _ => ((a =? 0xEF) && (b =? 0xBB) && (c =? 0xBF))%N
  | _ => false
  end.

(** An octet that continues a sequence. *)
Definition utf8_tail (b : N) : bool := ((0x80 <=? b) && (b <=? 0xBF))%N.

(** The first two octets of a well-formed sequence of three (Unicode,
    table 3-7): no overlong form and no surrogate. *)
Definition utf8_three (a b : N) : bool :=
  ((a =? 0xE0) && (0xA0 <=? b) && (b <=? 0xBF)
   || (0xE1 <=? a) && (a <=? 0xEC) && utf8_tail b
   || (a =? 0xED) && (0x80 <=? b) && (b <=? 0x9F)
   || (0xEE <=? a) && (a <=? 0xEF) && utf8_tail b)%N.

(** The first two octets of a well-formed sequence of four: no overlong
    form, nothing above U+10FFFF. *)
Definition utf8_four (a b : N) : bool :=
  ((a =? 0xF0) && (0x90 <=? b) && (b <=? 0xBF)
   || (0xF1 <=? a) && (a <=? 0xF3) && utf8_tail b
   || (a =? 0xF4) && (0x80 <=? b) && (b <=? 0x8F))%N.

(** Whether a sequence of octets is well-formed UTF-8, by the table of
    the Unicode standard. *)
Fixpoint well_formed_utf8 (l : list N) : bool :=
  match l with
  | [] => true
  | a :: r1 =>
      if (a <=? 0x7F)%N then well_formed_utf8 r1
      else
        match r1 with
        | [] => false
        | b :: r2 =>
            if ((0xC2 <=? a) && (a <=? 0xDF))%N
            then utf8_tail b && well_formed_utf8 r2
            else
              match r2 with
              | [] => false
              | c :: r3 =>
                  if ((0xE0 <=? a) && (a <=? 0xEF))%N
                  then utf8_three a b && utf8_tail c && well_formed_utf8 r3
                  else
                    match r3 with
                    | [] => false
                    | d :: r4 =>
                        utf8_four a b && utf8_tail c && utf8_tail d
                        && well_formed_utf8 r4
                    end
              end
        end
  end.

(** A text that [TextDecoder.decode] gives back as [TextEncoder.encode]
    got it: well-formed, and not headed by a byte order mark. *)
Definition plain_text (s : string) : bool :=
  let l := map N_of_ascii (list_ascii_of_string s) in
  well_formed_utf8 l && negb (starts_with_bom l).

(** A browser whose authenticator holds [secret]: it answers the
    challenge it is given, registers the credential [cred-new], signs
    in with the first credential the server allows, and evaluates the
    PRF on the salt the page asked for. *)
Definition prf_browser (secret : list byte) : Browser := {|
  startRegistration options salt :=
    Returned (mkRegResponse "cred-new" None (Some ["internal"])
                (co_challenge options));
  startAuthentication options salt :=
    match ao_allowCredentials (qo_opts options) with
    | [] => Thrown "NotAllowedError: no credential"
    | descriptor :: _ =>
        Returned (mkAuthResponse (cd_id descriptor) (qo_challenge options)
                    (Some (authenticator_prf secret salt)))
    end
|}.

(** A random source that deals 0, 1, 2, ... *)
Definition counting_random : Random :=
  mkRandom (fun i => byte_of_N (N.of_nat i)) 0.

(** The page as it loads, with [name] typed in the username field. *)
Definition fresh_page (name : string) : App.State :=
  App.mkState name "" false None false None "" "" "" None.

(** Bob opens the page; he has a passkey and no stored salt. *)
Definition bob_world : App.World :=
  App.mkWorld (fresh_page "bob") demo_server counting_random.

(** * More of the code *)

(** ** db.ts, continued *)

(** [getPasskey]: the first passkey row of the user, built with the
    user object it was given. *)
Definition getPasskey (db : D1Database) (user : User) : option Passkey :=
  match List.find (fun r => Z.eqb (internal_user_id r) (u_id user))
          (passkeys db) with
  | None => None
  | Some result => Some (passkey_of_row user result)
  end.

(** The constraints of schema.sql: [users.id] and [passkeys.cred_id]
    are primary keys, [users.username] is UNIQUE, and
    [passkeys.internal_user_id] references [users.id]. *)
Definition schema_constraints (db : D1Database) : Prop :=
  List.NoDup (map u_id (users db)) /\
  List.NoDup (map u_username (users db)) /\
  List.NoDup (map cred_id (passkeys db)) /\
  Forall (fun r => In (internal_user_id r) (map u_id (users db)))
    (passkeys db).

(** The worker on empty tables, an empty bucket and no challenge. *)
Definition empty_server : Server := mkServer (mkD1 [] 0 []) ∅ ∅.

(** Whether a string has no comma. *)
Definition comma_free (t : string) : bool :=
  negb (existsb (fun c => Ascii.eqb c ",") (list_ascii_of_string t)).

(** The transports that come back from the [transports] column as they
    went in: no list, or a list whose joined form is not empty and
    whose members have no comma. *)
Definition storable_transports (o : option (list string)) : bool :=
  match o with
  | None => true
  | Some ts => negb (String.eqb (join_comma ts) "") && forallb comma_free ts
  end.

(** The number of commas of a string. *)
Fixpoint commas (t : string) : nat :=
  match t with
  | EmptyString => 0%nat
  | String c rest =>
      ((if Ascii.eqb c "," then 1 else 0) + commas rest)%nat
  end.

(** ** Views of the worker's state *)

(** The blob references of a state are sound: the column
    [encrypted_blob_key] of a user, when set, holds the key /store-blob
    makes from the id of that user, and the bucket has an object under
    it. *)
Definition blob_references_sound (s : Server) : Prop :=
  Forall (fun u =>
            match u_encrypted_blob_key u with
            | None => True
            | Some k => k = blob_key u /\ is_Some (R2_BUCKET s !! k)
            end)
    (users (DB s)).

(** The columns of a user that no UPDATE of the code names. *)
Definition identity (u : User) : Z * string := (u_id u, u_username u).

(** The columns of a passkey row that no UPDATE of the code names. *)
Definition binding (r : PasskeyRow) : string * Z * list byte :=
  (cred_id r, internal_user_id r, cred_public_key r).

(** ** Views of the encodings *)

(** What the three replacements of [uint8ArrayToBase64Url] make of one
    character. *)
Definition to_url (c : ascii) : list ascii :=
  flat_map (replacement "=" "")
    (flat_map (replacement "/" "_") (replacement "+" "-" c)).

(** The characters a URL takes as they are where base64url is used:
    letters, digits, [-] and [_]. *)
Definition url_safe (c : ascii) : bool :=
  let n := N_of_ascii c in
  ((65 <=? n) && (n <=? 90) || (97 <=? n) && (n <=? 122)
   || (48 <=? n) && (n <=? 57) || (n =? 45) || (n =? 95))%N.

(** ** What the endpoints write *)

(** The requests that may write to the bucket. *)
Definition writes_bucket (r : Request) : bool :=
  match r with
  | StoreBlob _ _ _ => true
  | _ => false
  end.

(** Whether a request is a /store-blob whose body has no nonce. *)
Definition store_without_nonce (r : Request) : bool :=
  match r with
  | StoreBlob _ _ None => true
  | _ => false
  end.

(** The requests that may write to [passkeys]. *)
Definition writes_passkeys (r : Request) : bool :=
  match r with
  | VerifyRegistration _ _ | VerifyAuthentication _ _ => true
  | _ => false
  end.

(** The requests that may write to the challenge map. *)
Definition writes_challenges (r : Request) : bool :=
  match r with
  | GenerateRegistrationOptions _ _ | VerifyRegistration _ _
  | GenerateAuthenticationOptions _ _ | VerifyAuthentication _ _ => true
  | _ => false
  end.

(** The requests that may write to [users]. *)
Definition writes_users (r : Request) : bool :=
  match r with
  | GenerateRegistrationOptions _ _ | StoreBlob _ _ _ | SavePrfSalt _ _ =>
      true
  | _ => false
  end.

(** The columns of a user that /retrieve-blob and /check-blob read. *)
Definition blob_view (u : User)
  : Z * string * option string * option string :=
  (u_id u, u_username u, u_encrypted_blob_key u, u_blob_nonce u).

(** Whether a request is a call of /store-blob for [username]. *)
Definition stores_blob_for (username : string) (r : Request) : bool :=
  match r with
  | StoreBlob u _ _ => String.eqb u username
  | _ => false
  end.

(** ** The page as it is rendered (App.tsx, the JSX the component
    returns) *)

(** The controls of the page. *)
Inductive Control :=
| UsernameInput
| RegisterButton
| AuthenticateButton
| MessageTextarea
| EncryptButton
| RetrieveButton
| LogoutButton.

(** [prfOutput] as a condition: an [ArrayBuffer] is truthy, [null] is
    not. *)
Definition has_prf (st : App.State) : bool :=
  match App.prfOutput st with
  | Some _ => true
  | None => false
  end.

(** Whether the JSX puts the control on the page: the sign-in form when
    [!isAuthenticated]; otherwise the logout button and, when
    [prfOutput], the encryption panel, with the text area when
    [!hasBlob] and the retrieve button when [hasBlob]. *)
Definition rendered (st : App.State) (c : Control) : bool :=
  match c with
  | UsernameInput | RegisterButton | AuthenticateButton =>
      negb (App.isAuthenticated st)
  | LogoutButton => App.isAuthenticated st
  | EncryptButton => App.isAuthenticated st && has_prf st
  | MessageTextarea =>
      App.isAuthenticated st && has_prf st && negb (App.hasBlob st)
  | RetrieveButton => App.isAuthenticated st && has_prf st && App.hasBlob st
  end.

(** The [disabled] attribute: only the encrypt button has one,
    [hasBlob || !userMessage.trim()]. *)
Definition disabled (st : App.State) (c : Control) : bool :=
  match c with
  | EncryptButton => App.hasBlob st || is_blank (App.userMessage st)
  | _ => false
  end.

(** [setUsername]. *)
Definition setUsername (v : string) (st : App.State) : App.State :=
  App.mkState v (App.message st) (App.isAuthenticated st) (App.prfOutput st)
    (App.hasBlob st) (App.decryptedBlob st) (App.userMessage st)
    (App.encryptedMessage st) (App.decryptedMessage st) (App.prfSalt st).

(** What the user does on the page. A click on one of the two sign-in
    buttons comes with the challenge the server library will draw. *)
Inductive Event :=
| TypeUsername (value : string)
| TypeMessage (value : string)
| ClickRegister (challenge : string)
| ClickAuthenticate (challenge : string)
| ClickEncrypt
| ClickRetrieve
| ClickLogout.

Definition control_of (e : Event) : Control :=
  match e with
  | TypeUsername _ => UsernameInput
  | TypeMessage _ => MessageTextarea
  | ClickRegister _ => RegisterButton
  | ClickAuthenticate _ => AuthenticateButton
  | ClickEncrypt => EncryptButton
  | ClickRetrieve => RetrieveButton
  | ClickLogout => LogoutButton
  end.

Section Page.
Context `{SimpleWebAuthn} `{Browser} `{Platform}.

(** The [onChange] and [onClick] attributes. *)
Definition listener (e : Event) (w : App.World) : App.World :=
  match e with
  | TypeUsername v => App.with_app (setUsername v) w
  | TypeMessage v => App.with_app (App.setUserMessage v) w
  | ClickRegister challenge => App.handleRegister challenge w
  | ClickAuthenticate challenge => App.handleAuthenticate challenge w
  | ClickEncrypt => App.handleEncryptAndStore w
  | ClickRetrieve => App.handleRetrieveAndDecrypt w
  | ClickLogout => App.handleLogout w
  end.

(** An event reaches its listener when its control is on the page and
    not disabled. The page is taken one event at a time: the handler of
    an event has run to its end, and the page is rendered again, before
    the next event. (The handlers are asynchronous; an event that
    arrives while a handler awaits an answer is outside this
    definition.) *)
Definition event (e : Event) (w : App.World) : App.World :=
  if rendered (App.app w) (control_of e)
     && negb (disabled (App.app w) (control_of e))
  then listener e w
  else w.

Fixpoint events (es : list Event) (w : App.World) : App.World :=
  match es with
  | [] => w
  | e :: rest => events rest (event e w)
  end.

End Page.

(** A page that holds no key holds nothing made with one: a page that
    is signed out holds no PRF output, and a page without a PRF output
    has no blob flag, no typed message, no ciphertext and no
    plaintext. *)
Definition page_consistent (st : App.State) : Prop :=
  (App.isAuthenticated st = false -> App.prfOutput st = None) /\
  (App.prfOutput st = None ->
   App.hasBlob st = false /\ App.decryptedBlob st = None /\
   App.userMessage st = "" /\ App.encryptedMessage st = "" /\
   App.decryptedMessage st = "").

Definition is_logout (e : Event) : bool :=
  match e with
  | ClickLogout => true
  | _ => false
  end.

(** Two states of the page that differ in the status line and in the
    salt at most. *)
Definition same_session (a b : App.State) : Prop :=
  App.username a = App.username b /\
  App.isAuthenticated a = App.isAuthenticated b /\
  App.prfOutput a = App.prfOutput b /\
  App.hasBlob a = App.hasBlob b /\
  App.decryptedBlob a = App.decryptedBlob b /\
  App.userMessage a = App.userMessage b /\
  App.encryptedMessage a = App.encryptedMessage b /\
  App.decryptedMessage a = App.decryptedMessage b.

(** * Properties of the server *)

(** ** The spread into [String.fromCharCode] *)

(** The call returns the binary string of an array that fits the
    arguments of a call, and throws for a longer one. *)
Lemma fromCharCodes_cases (max_arguments : N) (bytes : list byte) :
  (N.of_nat (length bytes) <= max_arguments)%N /\
  fromCharCodes max_arguments bytes = Returned (binary_string bytes) \/
  (max_arguments < N.of_nat (length bytes))%N /\
  fromCharCodes max_arguments bytes = Thrown range_error.
Proof.
  unfold fromCharCodes.
  destruct (max_arguments <? N.of_nat (length bytes))%N eqn:Hlt.
  - right. split; [apply N.ltb_lt, Hlt | reflexivity].
  - left. split; [apply N.ltb_ge, Hlt | reflexivity].
Qed.

Lemma fromCharCodes_fits (max_arguments : N) (bytes : list byte) :
  (N.of_nat (length bytes) <= max_arguments)%N ->
  fromCharCodes max_arguments bytes = Returned (binary_string bytes).
Proof.
  intros Hfits. unfold fromCharCodes.
  apply N.ltb_ge in Hfits. rewrite Hfits. reflexivity.
Qed.

Lemma fromCharCodes_large (max_arguments : N) (bytes : list byte) :
  (max_arguments < N.of_nat (length bytes))%N ->
  fromCharCodes max_arguments bytes = Thrown range_error.
Proof.
  intros Hlarge. unfold fromCharCodes.
  apply N.ltb_lt in Hlarge. rewrite Hlarge. reflexivity.
Qed.

(** ** The [prf_salt] column *)

Lemma salts_update_blob_reference db userId blobKey nonce :
  salts (update_blob_reference db userId blobKey nonce) = salts db.
Proof.
  unfold salts, update_blob_reference; simpl.
  rewrite map_map. apply map_ext. intros u.
  destruct (Z.eqb (u_id u) userId); reflexivity.
Qed.

Lemma salts_saveUserBlobReference db userId blobKey nonce db' :
  saveUserBlobReference db userId blobKey nonce = Returned db' ->
  salts db' = salts db.
Proof.
  unfold saveUserBlobReference. destruct nonce; [|discriminate].
  intros Hsave. injection Hsave as <-. apply salts_update_blob_reference.
Qed.

Lemma salts_savePasskey db passkey db' :
  savePasskey db passkey = Returned db' -> salts db' = salts db.
Proof.
  unfold savePasskey. intros Hsave.
  destruct (pk_webAuthnUserID passkey); [|discriminate].
  destruct (has_cred db (pk_id passkey)); [discriminate|].
  destruct (has_user db (u_id (pk_user passkey))); [|discriminate].
  injection Hsave as <-. reflexivity.
Qed.

Lemma salts_createUser db username user db' :
  createUser db username = Returned (user, db') ->
  salts db' = (salts db ++ [(u_id user, None)])%list.
Proof.
  unfold createUser. intros Hcreate.
  destruct (getUser db username); [discriminate|].
  injection Hcreate as <- <-.
  unfold salts; simpl. rewrite map_app. reflexivity.
Qed.

Lemma salts_saveUserPrfSalt db userId prfSalt :
  salts (saveUserPrfSalt db userId prfSalt) =
  map (fun x => if Z.eqb (fst x) userId then (fst x, Some prfSalt) else x)
    (salts db).
Proof.
  unfold salts, saveUserPrfSalt; simpl.
  rewrite !map_map. apply map_ext. intros u; simpl.
  destruct (Z.eqb (u_id u) userId); reflexivity.
Qed.

(** [createUser] cannot throw when [getUser] found nobody. *)
Lemma createUser_returns db username :
  getUser db username = None ->
  exists user db', createUser db username = Returned (user, db').
Proof. unfold createUser. intros ->. eauto. Qed.

(** Destructs the scrutinees of a handler's matches, one after the
    other. *)
Ltac handler_cases :=
  repeat (simpl in *;
          match goal with
          | |- context [match ?x with _ => _ end] => destruct x eqn:?
          end).

(** What one request does to the column [prf_salt]. *)
Lemma handle_salts `{SimpleWebAuthn} `{Platform} (r : Request)
  (s : Server) :
  match r with
  | SavePrfSalt username prfSalt =>
      match getUser (DB s) username with
      | Some user =>
          salts (DB (snd (handle r s))) =
          map (fun x =>
                 if Z.eqb (fst x) (u_id user) then (fst x, Some prfSalt)
                 else x)
            (salts (DB s))
      | None => snd (handle r s) = s
      end
  | _ =>
      exists created,
        salts (DB (snd (handle r s)))
        = (salts (DB s) ++ map (fun i => (i, None)) created)%list
  end.
Proof.
  destruct r; simpl.
  - (* generate-registration-options *)
    unfold generate_registration_options.
    destruct (getUser (DB s) username) eqn:Hu; simpl.
    + exists []. rewrite app_nil_r. reflexivity.
    + destruct (createUser_returns _ _ Hu) as (user & db' & Hc).
      rewrite Hc; simpl. exists [u_id user].
      apply (salts_createUser _ _ _ _ Hc).
  - (* verify-registration *)
    exists []. rewrite app_nil_r. unfold verify_registration.
    handler_cases; try reflexivity.
    eapply salts_savePasskey; eassumption.
  - exists []. rewrite app_nil_r. unfold generate_authentication_options.
    handler_cases; reflexivity.
  - exists []. rewrite app_nil_r. unfold verify_authentication.
    handler_cases; reflexivity.
  - exists []. rewrite app_nil_r. unfold store_blob.
    handler_cases; try reflexivity.
    eapply salts_saveUserBlobReference; eassumption.
  - exists []. rewrite app_nil_r. unfold retrieve_blob.
    handler_cases; reflexivity.
  - unfold save_prf_salt.
    destruct (getUser (DB s) username); simpl; [|reflexivity].
    apply salts_saveUserPrfSalt.
  - exists []. rewrite app_nil_r. unfold get_prf_salt.
    handler_cases; reflexivity.
  - exists []. rewrite app_nil_r. unfold check_blob.
    handler_cases; reflexivity.
Qed.

(** C1, as amended. The column [prf_salt] is written by the endpoint
    /save-prf-salt and by nothing else. Every other request leaves the
    salt of every existing row as it was (generate-registration-options
    may add a row, whose salt is NULL), and so does every run of such
    requests; /save-prf-salt sets the salt of the named user to the
    value posted, whatever was stored there, and leaves the other rows
    alone. *)
Theorem prf_salt_written_only_by_save_prf_salt `{SimpleWebAuthn}
  `{Platform} (s : Server) :
  (forall r : Request,
      match r with
      | SavePrfSalt username prfSalt =>
          match getUser (DB s) username with
          | Some user =>
              salts (DB (snd (handle r s))) =
              map (fun x =>
                     if Z.eqb (fst x) (u_id user) then (fst x, Some prfSalt)
                     else x)
                (salts (DB s))
          | None => snd (handle r s) = s
          end
      | _ =>
          exists created,
            salts (DB (snd (handle r s)))
            = (salts (DB s) ++ map (fun i => (i, None)) created)%list
      end) /\
  (forall rs : list Request,
      forallb (fun r => negb (is_save_prf_salt r)) rs = true ->
      exists created,
        salts (DB (run rs s))
        = (salts (DB s) ++ map (fun i => (i, None)) created)%list).
Proof.
  split; [intros r; apply handle_salts|].
  intros rs. revert s.
  induction rs as [|r rs IH]; intros s Hall; simpl.
  - exists []. rewrite app_nil_r. reflexivity.
  - simpl in Hall. apply andb_true_iff in Hall as [Hr Hrs].
    destruct (IH (snd (handle r s)) Hrs) as [later Hlater].
    pose proof (handle_salts r s) as Hstep.
    destruct r; try discriminate;
      destruct Hstep as [first Hfirst];
      exists (first ++ later)%list;
      rewrite Hlater, Hfirst, map_app, app_assoc; reflexivity.
Qed.

(** C1 on a run without /save-prf-salt: carol begins a registration, bob
    signs in and stores a blob. Alice's and bob's salts are as they
    were and carol's is unset. *)
Lemma prf_salt_written_only_by_save_prf_salt_witness :
  let rs :=
    [GenerateRegistrationOptions "carol" "reg-1";
     GenerateAuthenticationOptions "bob" "auth-1";
     VerifyAuthentication "bob" (mkAuthResponse "cred-bob" "auth-1" None);
     StoreBlob "bob" "3q2+7w==" (Some "bm9uY2U");
     GetPrfSalt "alice"] in
  salts (DB (@run (challenge_verifier 6) demo_platform rs demo_server))
  = [(1, Some "c2FsdC1vbmU"); (2, None); (3, None)].
Proof.
  cbv zeta.
  destruct (@prf_salt_written_only_by_save_prf_salt (challenge_verifier 6)
              demo_platform demo_server) as [_ Hrun].
  match goal with
  | |- salts (DB (run ?rs _)) = _ =>
      destruct (Hrun rs eq_refl) as [created Hcreated]
  end.
  rewrite Hcreated.
  assert (Hlen : created = [3]).
  { apply (f_equal (map fst)) in Hcreated. vm_compute in Hcreated.
    destruct created as [|i [|j created]]; try discriminate.
    injection Hcreated as Hi. rewrite <- Hi. reflexivity. }
  rewrite Hlen. reflexivity.
Defined.

(** C1, as stated, fails: alice's salt is set, and one call of
    /save-prf-salt with another value replaces it. *)
Lemma save_prf_salt_replaces_a_set_salt :
  getUserPrfSalt (DB demo_server) 1 = Some "c2FsdC1vbmU" /\
  fst (save_prf_salt "alice" "c2FsdC10d28" demo_server) = json JSuccess /\
  getUserPrfSalt
    (DB (snd (save_prf_salt "alice" "c2FsdC10d28" demo_server))) 1
  = Some "c2FsdC10d28".
Proof. repeat split. Qed.

(** ** The challenge map *)

Lemma verify_registration_without_challenge `{SimpleWebAuthn}
  username response s :
  challenges s !! username = None ->
  verify_registration username response s
  = (json_status (JError "Challenge not found") 400, s).
Proof. unfold verify_registration. intros ->. reflexivity. Qed.

Lemma verify_authentication_without_challenge `{SimpleWebAuthn}
  username response s :
  challenges s !! username = None ->
  verify_authentication username response s
  = (json_status (JError "Challenge not found") 400, s).
Proof. unfold verify_authentication. intros ->. reflexivity. Qed.

(** What a completion does to the state: nothing unless it answers
    [verified: true], and then the slot of the username is deleted. *)
Lemma verify_registration_challenges `{SimpleWebAuthn} username response s :
  if is_verified (fst (verify_registration username response s))
  then challenges (snd (verify_registration username response s))
       = delete username (challenges s)
  else snd (verify_registration username response s) = s.
Proof.
  unfold verify_registration.
  handler_cases; simpl in *; try discriminate; reflexivity.
Qed.

Lemma verify_authentication_challenges `{SimpleWebAuthn}
  username response s :
  if is_verified (fst (verify_authentication username response s))
  then challenges (snd (verify_authentication username response s))
       = delete username (challenges s)
  else snd (verify_authentication username response s) = s.
Proof.
  unfold verify_authentication.
  handler_cases; simpl in *; try discriminate; reflexivity.
Qed.

(** C2, as amended. A pending challenge is bound to a username, not to
    a (username, ceremony) pair: both [generate-*] endpoints store the
    challenge they issue in the one slot of the username, replacing
    what was pending there; both [verify-*] endpoints delete that slot
    when they answer [verified: true] and change nothing otherwise; no
    request touches the slot of another username. *)
Theorem challenges_keyed_by_username_only `{SimpleWebAuthn} `{Platform}
  (r : Request) (s : Server) :
  let resp := fst (handle r s) in
  let s' := snd (handle r s) in
  (forall other : string,
      other <> request_username r ->
      challenges s' !! other = challenges s !! other) /\
  match r with
  | GenerateRegistrationOptions username challenge =>
      challenges s' = <[username := challenge]> (challenges s)
  | GenerateAuthenticationOptions username challenge =>
      if Z.eqb (status resp) 200
      then challenges s' = <[username := challenge]> (challenges s)
      else s' = s
  | VerifyRegistration username _ | VerifyAuthentication username _ =>
      if is_verified resp
      then challenges s' = delete username (challenges s)
      else s' = s
  | _ => challenges s' = challenges s
  end.
Proof.
  assert (Hslot : forall (m m' : gmap string string) u,
             (m' = m \/ (exists c, m' = <[u := c]> m) \/ m' = delete u m) ->
             forall other, other <> u -> m' !! other = m !! other).
  { intros m m' u [-> | [[c ->] | ->]] other Hne; [reflexivity| |].
    - apply lookup_insert_ne; congruence.
    - apply lookup_delete_ne; congruence. }
  destruct r; simpl.
  - assert (Hgo : challenges (snd (generate_registration_options
                                     username challenge s))
                  = <[username := challenge]> (challenges s)).
    { unfold generate_registration_options.
      destruct (getUser (DB s) username) eqn:Hu; simpl; [reflexivity|].
      destruct (createUser_returns _ _ Hu) as (user & db' & ->).
      reflexivity. }
    split; [|exact Hgo].
    apply Hslot. right; left. eauto.
  - pose proof (verify_registration_challenges username response s) as Hv.
    split; [|exact Hv].
    apply Hslot.
    destruct (is_verified _); [right; right; exact Hv | left; congruence].
  - assert (Hgo : if Z.eqb (status (fst (generate_authentication_options
                                           username challenge s))) 200
                  then challenges (snd (generate_authentication_options
                                          username challenge s))
                       = <[username := challenge]> (challenges s)
                  else snd (generate_authentication_options
                              username challenge s) = s).
    { unfold generate_authentication_options.
      handler_cases; simpl in *; try discriminate; reflexivity. }
    split; [|exact Hgo].
    apply Hslot.
    destruct (Z.eqb _ 200); [right; left; eauto | left; congruence].
  - pose proof (verify_authentication_challenges username response s) as Hv.
    split; [|exact Hv].
    apply Hslot.
    destruct (is_verified _); [right; right; exact Hv | left; congruence].
  - assert (Hgo : challenges (snd (store_blob username encryptedBlob nonce s))
                  = challenges s).
    { unfold store_blob. handler_cases; reflexivity. }
    split; [|exact Hgo]. intros; congruence.
  - assert (Hgo : challenges (snd (retrieve_blob username s)) = challenges s).
    { unfold retrieve_blob. handler_cases; reflexivity. }
    split; [|exact Hgo]. intros; congruence.
  - assert (Hgo : challenges (snd (save_prf_salt username prfSalt s))
                  = challenges s).
    { unfold save_prf_salt. handler_cases; reflexivity. }
    split; [|exact Hgo]. intros; congruence.
  - assert (Hgo : challenges (snd (get_prf_salt username s)) = challenges s).
    { unfold get_prf_salt. handler_cases; reflexivity. }
    split; [|exact Hgo]. intros; congruence.
  - assert (Hgo : challenges (snd (check_blob username s)) = challenges s).
    { unfold check_blob. handler_cases; reflexivity. }
    split; [|exact Hgo]. intros; congruence.
Qed.

(** C2, as stated, fails. Bob begins a registration and then an
    authentication: the challenge of the registration is replaced by
    the one of the authentication, so the registration can no longer be
    completed with the challenge it was issued; and had only the
    registration been begun, its challenge is the one
    /verify-authentication expects. The verifier checks the challenge
    only. *)
Lemma begin_authentication_replaces_registration_challenge :
  let s1 := snd (generate_registration_options "bob" "reg-1" demo_server) in
  let s2 := snd (generate_authentication_options "bob" "auth-1" s1) in
  challenges s1 !! "bob" = Some "reg-1" /\
  challenges s2 !! "bob" = Some "auth-1" /\
  fst (@verify_registration (challenge_verifier 6) "bob"
         (mkRegResponse "cred-new" None None "reg-1") s2)
  = json (JVerified false None) /\
  fst (@verify_authentication (challenge_verifier 6) "bob"
         (mkAuthResponse "cred-bob" "reg-1" None) s1)
  = json (JVerified true (Some bob)).
Proof. vm_compute. repeat split. Qed.

(** C3, as amended. A completion that answers [verified: true] deletes
    the pending challenge of the username, after which a further
    completion of either ceremony for that username is refused with
    "Challenge not found"; a completion with any other answer
    ([verified: false] or an error) leaves the whole state, the pending
    challenge included, as it was. *)
Theorem challenge_consumed_only_by_verified_completion `{SimpleWebAuthn}
  (username : string) (s : Server) :
  (forall response,
      let resp := fst (verify_registration username response s) in
      let s' := snd (verify_registration username response s) in
      if is_verified resp
      then challenges s' !! username = None /\
           (forall again, verify_registration username again s'
              = (json_status (JError "Challenge not found") 400, s')) /\
           (forall again, verify_authentication username again s'
              = (json_status (JError "Challenge not found") 400, s'))
      else s' = s) /\
  (forall response,
      let resp := fst (verify_authentication username response s) in
      let s' := snd (verify_authentication username response s) in
      if is_verified resp
      then challenges s' !! username = None /\
           (forall again, verify_registration username again s'
              = (json_status (JError "Challenge not found") 400, s')) /\
           (forall again, verify_authentication username again s'
              = (json_status (JError "Challenge not found") 400, s'))
      else s' = s).
Proof.
  split; intros response; simpl.
  - pose proof (verify_registration_challenges username response s) as Hv.
    destruct (is_verified _); [|exact Hv].
    assert (Hnone : challenges (snd (verify_registration username response s))
                    !! username = None)
      by (rewrite Hv; apply lookup_delete_eq).
    split; [exact Hnone|]. split; intros again.
    + apply verify_registration_without_challenge, Hnone.
    + apply verify_authentication_without_challenge, Hnone.
  - pose proof (verify_authentication_challenges username response s) as Hv.
    destruct (is_verified _); [|exact Hv].
    assert (Hnone : challenges
                      (snd (verify_authentication username response s))
                    !! username = None)
      by (rewrite Hv; apply lookup_delete_eq).
    split; [exact Hnone|]. split; intros again.
    + apply verify_registration_without_challenge, Hnone.
    + apply verify_authentication_without_challenge, Hnone.
Qed.

(** C3, as stated, fails. Bob begins an authentication; a first
    completion is rejected, and the challenge is still pending; a
    second completion uses the same challenge and is verified. *)
Lemma rejected_completion_keeps_challenge :
  let s1 := snd (generate_authentication_options "bob" "auth-1" demo_server) in
  let rejected :=
    @verify_authentication (challenge_verifier 6) "bob"
      (mkAuthResponse "cred-bob" "forged" None) s1 in
  let retried :=
    @verify_authentication (challenge_verifier 6) "bob"
      (mkAuthResponse "cred-bob" "auth-1" None) (snd rejected) in
  fst rejected = json (JVerified false None) /\
  challenges (snd rejected) !! "bob" = Some "auth-1" /\
  fst retried = json (JVerified true (Some bob)).
Proof. vm_compute. repeat split. Qed.

(** ** The signature counter *)

Lemma getPasskeyById_id db credId passkey :
  getPasskeyById db credId = Some passkey -> pk_id passkey = credId.
Proof.
  unfold getPasskeyById. intros Hget.
  destruct (List.find _ (passkeys db)) as [row|] eqn:Hfind; [|discriminate].
  destruct (userById db (internal_user_id row)); [|discriminate].
  injection Hget as <-. simpl.
  apply find_some in Hfind as [_ Heq].
  apply String.eqb_eq, Heq.
Qed.

Lemma getPasskeyById_counter db credId passkey :
  getPasskeyById db credId = Some passkey ->
  stored_counter db credId = Some (pk_counter passkey).
Proof.
  unfold getPasskeyById, stored_counter. intros Hget.
  destruct (List.find _ (passkeys db)) as [row|]; [|discriminate].
  destruct (userById db (internal_user_id row)); [|discriminate].
  injection Hget as <-. reflexivity.
Qed.

Lemma stored_counter_update_eq db credId newCounter :
  is_Some (stored_counter db credId) ->
  stored_counter (updatePasskeyCounter db credId newCounter) credId
  = Some newCounter.
Proof.
  unfold stored_counter, updatePasskeyCounter; simpl.
  induction (passkeys db) as [|row rows IH]; simpl.
  - intros [x Hx]; discriminate.
  - destruct (String.eqb (cred_id row) credId) eqn:Heq; simpl.
    + rewrite Heq. reflexivity.
    + rewrite Heq. exact IH.
Qed.

Lemma stored_counter_update_ne db credId newCounter other :
  other <> credId ->
  stored_counter (updatePasskeyCounter db credId newCounter) other
  = stored_counter db other.
Proof.
  intros Hne. unfold stored_counter, updatePasskeyCounter; simpl.
  induction (passkeys db) as [|row rows IH]; simpl; [reflexivity|].
  destruct (String.eqb (cred_id row) credId) eqn:Heq; simpl.
  - apply String.eqb_eq in Heq.
    destruct (String.eqb (cred_id row) other) eqn:Ho.
    + apply String.eqb_eq in Ho. congruence.
    + exact IH.
  - destruct (String.eqb (cred_id row) other); [reflexivity | exact IH].
Qed.

(** What /verify-authentication does to the counters. *)
Lemma verify_authentication_counter `{SimpleWebAuthn}
  (username : string) (response : AuthenticationResponseJSON) (s : Server) :
  if is_verified (fst (verify_authentication username response s))
  then exists expectedChallenge passkey newCounter,
      challenges s !! username = Some expectedChallenge /\
      getPasskeyById (DB s) (ar_id response) = Some passkey /\
      stored_counter (DB s) (ar_id response) = Some (pk_counter passkey) /\
      verifyAuthenticationResponse response expectedChallenge origin rpID
        (mkCredential (pk_id passkey) (pk_publicKey passkey)
           (pk_counter passkey) (pk_transports passkey))
      = Returned (mkVerifiedAuth true newCounter) /\
      stored_counter (DB (snd (verify_authentication username response s)))
        (ar_id response) = Some newCounter /\
      (forall other, other <> ar_id response ->
         stored_counter (DB (snd (verify_authentication username response s)))
           other
         = stored_counter (DB s) other)
  else snd (verify_authentication username response s) = s /\
       (fst (verify_authentication username response s)
        = json (JVerified false None) \/
        exists e st,
          fst (verify_authentication username response s)
          = json_status (JError e) st /\ (st = 400 \/ st = 404)).
Proof.
  unfold verify_authentication.
  destruct (challenges s !! username) as [expectedChallenge|] eqn:Hch;
    simpl; [|split; [reflexivity | right; eauto]].
  destruct (String.eqb expectedChallenge ""); simpl;
    [split; [reflexivity | right; eauto]|].
  destruct (getUser (DB s) username); simpl;
    [|split; [reflexivity | right; eauto]].
  destruct (getPasskeyById (DB s) (ar_id response)) as [passkey|] eqn:Hpk;
    simpl; [|split; [reflexivity | right; eauto]].
  destruct (verifyAuthenticationResponse _ _ _ _ _)
    as [[verified newCounter]|e] eqn:Hver;
    simpl; [|split; [reflexivity | right; eauto]].
  destruct verified; simpl; [|split; [reflexivity | left; reflexivity]].
  exists expectedChallenge, passkey, newCounter.
  pose proof (getPasskeyById_id _ _ _ Hpk) as Hid.
  pose proof (getPasskeyById_counter _ _ _ Hpk) as Hcnt.
  rewrite Hid.
  repeat split; try assumption.
  - rewrite <- Hid. exact Hver.
  - apply stored_counter_update_eq. rewrite Hcnt. eauto.
  - intros other Hne. apply stored_counter_update_ne, Hne.
Qed.

(** C4, as amended. When /verify-authentication answers
    [verified: true], the verifier was given the stored counter of the
    credential named by the response and returned [verified] with some
    [newCounter]; the stored counter of that credential becomes
    [newCounter], whatever its value, and no other counter changes.
    The endpoint compares no counters itself: the stored counter does
    not go back provided the verifier verifies no counter below the
    stored one. With any other answer ([verified: false], or status
    400 / 404 with the text of the error, which is how an exception of
    the verifier such as a regressed counter comes out) the whole state
    is as before. *)
Theorem verified_authentication_stores_reported_counter `{SimpleWebAuthn}
  (username : string) (response : AuthenticationResponseJSON) (s : Server) :
  let resp := fst (verify_authentication username response s) in
  let s' := snd (verify_authentication username response s) in
  (if is_verified resp
   then exists expectedChallenge passkey newCounter,
       challenges s !! username = Some expectedChallenge /\
       getPasskeyById (DB s) (ar_id response) = Some passkey /\
       stored_counter (DB s) (ar_id response) = Some (pk_counter passkey) /\
       verifyAuthenticationResponse response expectedChallenge origin rpID
         (mkCredential (pk_id passkey) (pk_publicKey passkey)
            (pk_counter passkey) (pk_transports passkey))
       = Returned (mkVerifiedAuth true newCounter) /\
       stored_counter (DB s') (ar_id response) = Some newCounter /\
       (forall other, other <> ar_id response ->
          stored_counter (DB s') other = stored_counter (DB s) other)
   else s' = s /\
        (resp = json (JVerified false None) \/
         exists e st, resp = json_status (JError e) st /\
                      (st = 400 \/ st = 404))) /\
  ((forall resp0 ch o rp cred n,
       verifyAuthenticationResponse resp0 ch o rp cred
       = Returned (mkVerifiedAuth true n) -> wc_counter cred <= n) ->
   forall before after,
     stored_counter (DB s) (ar_id response) = Some before ->
     stored_counter (DB s') (ar_id response) = Some after ->
     before <= after).
Proof.
  cbv zeta.
  pose proof (verify_authentication_counter username response s) as Hspec.
  split; [exact Hspec|].
  intros Hlib before after Hb Ha.
  destruct (is_verified _).
  - destruct Hspec as (ch & pk & n & _ & _ & Hold & Hver & Hnew & _).
    apply Hlib in Hver. simpl in Hver.
    rewrite Hb in Hold. rewrite Ha in Hnew.
    injection Hold as ->. injection Hnew as ->. exact Hver.
  - destruct Hspec as [Hs _]. rewrite Hs in Ha. rewrite Hb in Ha.
    injection Ha as ->. lia.
Qed.

(** C4, as stated, fails. The endpoint stores whatever counter a
    verified response reports: with a verifier that checks the challenge
    only, bob's credential goes from 5 to 3 and the answer is
    [verified: true]. With a verifier that applies the library's counter
    rule, the regressed counter comes out of the catch-all path, status
    400 with the text of the exception, as a wrong challenge does:
    there is no error of its own for it. *)
Lemma regressed_counter_has_no_error_of_its_own :
  let s1 := snd (generate_authentication_options "bob" "auth-1" demo_server) in
  let lenient :=
    @verify_authentication (challenge_verifier 3) "bob"
      (mkAuthResponse "cred-bob" "auth-1" None) s1 in
  let strict :=
    @verify_authentication (counter_verifier 3) "bob"
      (mkAuthResponse "cred-bob" "auth-1" None) s1 in
  let forged :=
    @verify_authentication (counter_verifier 6) "bob"
      (mkAuthResponse "cred-bob" "forged" None) s1 in
  stored_counter (DB s1) "cred-bob" = Some 5 /\
  fst lenient = json (JVerified true (Some bob)) /\
  stored_counter (DB (snd lenient)) "cred-bob" = Some 3 /\
  fst strict
  = json_status
      (JError "Error: Response counter value 3 was lower than expected 5")
      400 /\
  snd strict = s1 /\
  fst forged
  = json_status
      (JError "Error: Unexpected authentication response challenge") 400.
Proof. vm_compute. repeat split. Qed.

(** ** The blob read endpoints *)



(** ** Whose credential /verify-authentication accepts *)

(** C10. /verify-authentication finds the credential by the id in the
    response and never compares its owner with the user named in the
    request. Whenever a challenge is pending for the username, the user
    exists, the credential exists and the verifier verifies, the answer
    is [verified: true] with the record of the credential's owner, the
    counter of that credential is updated, and the challenge deleted is
    the one of the username of the request. *)
Theorem authentication_ignores_credential_owner `{SimpleWebAuthn}
  (username : string) (response : AuthenticationResponseJSON) (s : Server)
  (expectedChallenge : string) (user : User) (passkey : Passkey)
  (verification : VerifiedAuthenticationResponse)
  (Hpending : challenges s !! username = Some expectedChallenge)
  (Hnonempty : expectedChallenge <> "")
  (Huser : getUser (DB s) username = Some user)
  (Hpasskey : getPasskeyById (DB s) (ar_id response) = Some passkey)
  (Hverifier :
     verifyAuthenticationResponse response expectedChallenge origin rpID
       (mkCredential (pk_id passkey) (pk_publicKey passkey)
          (pk_counter passkey) (pk_transports passkey))
     = Returned verification)
  (Hverified : va_verified verification = true) :
  verify_authentication username response s
  = (json (JVerified true (Some (pk_user passkey))),
     mkServer
       (updatePasskeyCounter (DB s) (ar_id response)
          (va_newCounter verification))
       (R2_BUCKET s)
       (delete username (challenges s))).
Proof.
  unfold verify_authentication.
  rewrite Hpending.
  apply String.eqb_neq in Hnonempty. rewrite Hnonempty.
  rewrite Huser, Hpasskey, Hverifier, Hverified.
  rewrite (getPasskeyById_id _ _ _ Hpasskey). reflexivity.
Qed.

(** C10 on the store of alice and bob: alice's pending challenge is
    answered with bob's credential. The answer names bob, bob's counter
    moves from 5 to 6, and alice's challenge is gone. *)
Lemma authentication_ignores_credential_owner_witness :
  let s1 :=
    snd (generate_authentication_options "alice" "auth-1" demo_server) in
  let done :=
    @verify_authentication (challenge_verifier 6) "alice"
      (mkAuthResponse "cred-bob" "auth-1" None) s1 in
  getUser (DB s1) "alice" = Some alice /\
  fst done = json (JVerified true (Some bob)) /\
  stored_counter (DB (snd done)) "cred-bob" = Some 6 /\
  challenges (snd done) !! "alice" = None.
Proof.
  set (s1 := snd (generate_authentication_options "alice" "auth-1"
                    demo_server)).
  simpl.
  rewrite (@authentication_ignores_credential_owner (challenge_verifier 6)
             "alice" (mkAuthResponse "cred-bob" "auth-1" None) s1
             "auth-1" alice
             (mkPasskey "cred-bob" [] bob None 5 singleDevice false
                (Some ["internal"; "hybrid"]))
             (mkVerifiedAuth true 6));
    [ | reflexivity | discriminate | reflexivity | reflexivity
      | reflexivity | reflexivity ].
  repeat split.
Defined.

(** ** The theorems on runs of the store of alice and bob *)

(** C2 on a run: alice has a registration pending when bob begins an
    authentication. Bob's challenge goes to bob's slot and alice's slot
    is as it was. *)
Lemma challenges_keyed_by_username_only_witness :
  let s1 := snd (generate_registration_options "alice" "reg-1" demo_server) in
  let s2 :=
    snd (@handle (challenge_verifier 6) demo_platform
           (GenerateAuthenticationOptions "bob" "auth-1") s1) in
  challenges s2 !! "alice" = Some "reg-1" /\
  challenges s2 = <["bob" := "auth-1"]> (challenges s1).
Proof.
  cbv zeta.
  set (s1 := snd (generate_registration_options "alice" "reg-1" demo_server)).
  destruct (@challenges_keyed_by_username_only (challenge_verifier 6)
              demo_platform (GenerateAuthenticationOptions "bob" "auth-1") s1)
    as [Hother Hslot].
  split.
  - rewrite Hother; [reflexivity | discriminate].
  - exact Hslot.
Defined.

(** C3 on a run: bob's authentication is verified; his slot is empty
    afterwards and the same response, sent again, is refused. *)
Lemma challenge_consumed_only_by_verified_completion_witness :
  let s1 := snd (generate_authentication_options "bob" "auth-1" demo_server) in
  let response := mkAuthResponse "cred-bob" "auth-1" None in
  let done := @verify_authentication (challenge_verifier 6) "bob" response s1 in
  fst done = json (JVerified true (Some bob)) /\
  challenges (snd done) !! "bob" = None /\
  @verify_authentication (challenge_verifier 6) "bob" response (snd done)
  = (json_status (JError "Challenge not found") 400, snd done).
Proof.
  cbv zeta.
  set (s1 := snd (generate_authentication_options "bob" "auth-1" demo_server)).
  set (response := mkAuthResponse "cred-bob" "auth-1" None).
  destruct (@challenge_consumed_only_by_verified_completion
              (challenge_verifier 6) "bob" s1) as [_ Hauth].
  specialize (Hauth response). cbv zeta in Hauth.
  assert (Hdone : fst (@verify_authentication (challenge_verifier 6) "bob"
                         response s1) = json (JVerified true (Some bob)))
    by (vm_compute; reflexivity).
  rewrite Hdone in Hauth. cbn [is_verified body json] in Hauth.
  destruct Hauth as (Hnone & _ & Hagain).
  split; [exact Hdone|]. split; [exact Hnone | apply Hagain].
Defined.

(** The verifier with the library's counter rule, reporting 6, never
    verifies a counter below the stored one. *)
Lemma counter_verifier_checks resp0 ch o rp cred n :
  @verifyAuthenticationResponse (counter_verifier 6) resp0 ch o rp cred
  = Returned (mkVerifiedAuth true n) -> wc_counter cred <= n.
Proof.
  simpl. destruct (String.eqb (ar_payload resp0) ch); [|discriminate].
  destruct (Z.leb 6 (wc_counter cred)) eqn:Hle; simpl.
  - discriminate.
  - intros Hret. injection Hret as <-.
    apply Z.leb_gt in Hle. lia.
Qed.

(** C4 on a run, with the verifier that applies the library's counter
    rule: bob's counter goes from 5 to the reported 6, alice's counter
    is untouched, and the counter did not go back. *)
Lemma verified_authentication_stores_reported_counter_witness :
  let s1 := snd (generate_authentication_options "bob" "auth-1" demo_server) in
  let response := mkAuthResponse "cred-bob" "auth-1" None in
  let done := @verify_authentication (counter_verifier 6) "bob" response s1 in
  stored_counter (DB s1) "cred-bob" = Some 5 /\
  stored_counter (DB (snd done)) "cred-bob" = Some 6 /\
  stored_counter (DB (snd done)) "cred-alice" = Some 0 /\
  5 <= 6.
Proof.
  cbv zeta.
  set (s1 := snd (generate_authentication_options "bob" "auth-1" demo_server)).
  set (response := mkAuthResponse "cred-bob" "auth-1" None).
  destruct (@verified_authentication_stores_reported_counter
              (counter_verifier 6) "bob" response s1) as [Hspec Hmono].
  assert (Hdone : fst (@verify_authentication (counter_verifier 6) "bob"
                         response s1) = json (JVerified true (Some bob)))
    by (vm_compute; reflexivity).
  rewrite Hdone in Hspec. cbn [is_verified body json] in Hspec.
  destruct Hspec as (ch & pk & n & Hch & Hpk & _ & Hver & Hnew & Hother).
  assert (Hch' : ch = "auth-1")
    by (vm_compute in Hch; injection Hch as Hch; symmetry; exact Hch).
  assert (Hpk' : pk = mkPasskey "cred-bob" [] bob None 5 singleDevice false
                        (Some ["internal"; "hybrid"]))
    by (vm_compute in Hpk; injection Hpk as Hpk; symmetry; exact Hpk).
  subst ch pk.
  assert (Hn : n = 6)
    by (vm_compute in Hver; injection Hver as Hver; symmetry; exact Hver).
  subst n.
  assert (Hbefore : stored_counter (DB s1) "cred-bob" = Some 5)
    by reflexivity.
  split; [exact Hbefore|]. split; [exact Hnew|].
  split; [rewrite Hother; [reflexivity | discriminate]|].
  exact (Hmono counter_verifier_checks 5 6 Hbefore Hnew).
Defined.

(** * The primitives on published vectors *)

(** SHA-256 of "abc" (FIPS 180-4, appendix). *)
Example sha256_abc :
  SHA256.hash (charCodes "abc")
  = be_bytes 32
      0xba7816bf8f01cfea414140de5dae2223b00361a396177a9cb410ff61f20015ad.
Proof. vm_compute. reflexivity. Qed.

(** SHA-256 of a message that fills more than one block. *)
Example sha256_two_blocks :
  SHA256.hash
    (charCodes "abcdbcdecdefdefgefghfghighijhijkijkljklmklmnlmnomnopnopq")
  = be_bytes 32
      0x248d6a61d20638b8e5c026930c3e6039a33ce45964ff2167f6ecedd419db06c1.
Proof. vm_compute. reflexivity. Qed.

(** HKDF-SHA-256 with empty salt and info (RFC 5869, test case 3). *)
Example hkdf_rfc5869_case3 :
  hkdf_sha256 [] (repeat x0b 22) [] 42
  = Some (be_bytes 42
            0x8da4e775a563c18f715f802a063c5a31b8a11f5c5ee1879ec3454e5f3c738d2d9d201395faa4b61a96c8).
Proof. vm_compute. reflexivity. Qed.

(** HKDF-SHA-256 with salt and info (RFC 5869, test case 1). *)
Example hkdf_rfc5869_case1 :
  hkdf_sha256 (be_bytes 13 0x000102030405060708090a0b0c) (repeat x0b 22)
    (be_bytes 10 0xf0f1f2f3f4f5f6f7f8f9) 42
  = Some (be_bytes 42
            0x3cb25f25faacd57a90434f64d0362f2a2d2d0a90cf1a5a4c5db02d56ecc4c5bf34007208d5b887185865).
Proof. vm_compute. reflexivity. Qed.

(** AES-256 on one block (FIPS 197, appendix C.3). *)
Example aes256_fips197 :
  AES.cipher
    (AES.key_schedule
       (be_bytes 32
          0x000102030405060708090a0b0c0d0e0f101112131415161718191a1b1c1d1e1f))
    0x00112233445566778899aabbccddeeff
  = 0x8ea2b7ca516745bfeafc49904b496089%N.
Proof. vm_compute. reflexivity. Qed.

(** AES-256-GCM, zero key and nonce, one zero block (GCM specification,
    test case 14): ciphertext, then tag. *)
Example gcm_case14 :
  GCM.seal (repeat x00 32) (repeat x00 12) (repeat x00 16)
  = be_bytes 32
      0xcea7403d4d606b6e074ec5d3baf39d18d0d1c8a799996bf0265b98b5d48ab919.
Proof. vm_compute. reflexivity. Qed.

(** AES-256-GCM, four blocks (GCM specification, test case 15). *)
Example gcm_case15 :
  GCM.seal
    (be_bytes 32
       0xfeffe9928665731c6d6a8f9467308308feffe9928665731c6d6a8f9467308308)
    (be_bytes 12 0xcafebabefacedbaddecaf888)
    (be_bytes 64
       0xd9313225f88406e5a55909c5aff5269a86a7a9531534f7da2e4c303d8a318a721c3c0c95956809532fcf0e2449a6b525b16aedf5aa0de657ba637b391aafd255)
  = be_bytes 80
      0x522dc1f099567d07f47f37a32a84427d643a8cdcbfe5c0c97598a2bd2555d1aa8cb08e48590dbb3da7b08b1056828838c5f61e6393ba7a0abcc9f662898015adb094dac5d93471bdec1a502270e3cc6c.
Proof. vm_compute. reflexivity. Qed.

(** A wrong nonce or a flipped octet fails authentication. *)
Example gcm_rejects_tampering :
  GCM.open (repeat x00 32) (repeat x01 12)
    (GCM.seal (repeat x00 32) (repeat x00 12) [x68; x69]) = None /\
  GCM.open (repeat x00 32) (repeat x00 12)
    (x00 :: tl (GCM.seal (repeat x00 32) (repeat x00 12) [x68; x69])) = None.
Proof. vm_compute. split; reflexivity. Qed.

(** Base64 on the vectors of RFC 4648, and the forgiving decoder. *)
Example base64_rfc4648 :
  btoa "foobar" = "Zm9vYmFy" /\ btoa "fooba" = "Zm9vYmE=" /\
  btoa "foob" = "Zm9vYg==" /\
  atob "Zm9vYg==" = Returned "foob" /\ atob "Zm9vYg" = Returned "foob" /\
  atob " Zm9v Yg== " = Returned "foob" /\
  atob "Zm9vYg=" = Thrown invalid_character_error /\
  atob "Zm9vY" = Thrown invalid_character_error /\
  @uint8ArrayToBase64Url demo_platform [xfb; xff] = Returned "-_8" /\
  base64UrlToUint8Array "-_8" = Returned [xfb; xff].
Proof. vm_compute. repeat split. Qed.

(** * Properties of the key derivation *)

Lemma be_bytes_length len n : length (be_bytes len n) = len.
Proof. unfold be_bytes. rewrite length_map, length_seq. reflexivity. Qed.

Lemma sha256_length msg : length (SHA256.hash msg) = 32%nat.
Proof.
  unfold SHA256.hash, SHA256.digest.
  rewrite !length_app, !be_bytes_length. reflexivity.
Qed.

Lemma hmac_sha256_length key msg : length (hmac_sha256 key msg) = 32%nat.
Proof. unfold hmac_sha256. apply sha256_length. Qed.

(** One block of HKDF output is what a 256-bit key needs. *)
Lemma hkdf_sha256_32 salt ikm info :
  hkdf_sha256 salt ikm info 32
  = Some (hmac_sha256 (hkdf_extract salt ikm) (info ++ [x01])).
Proof.
  unfold hkdf_sha256, hkdf_expand.
  change ((32 + 31) / 32)%nat with 1%nat.
  change (255 <? 1)%nat with false.
  cbv beta iota.
  unfold hkdf_blocks.
  rewrite app_nil_r.
  change (byte_of_N 1) with x01.
  change ([] ++ info ++ [x01])%list with (info ++ [x01])%list.
  rewrite firstn_all2; [reflexivity|].
  rewrite hmac_sha256_length. lia.
Qed.

(** The key [deriveEncryptionKey] returns, for inputs of any length. *)
Lemma deriveEncryptionKey_value prfOutput salt :
  deriveEncryptionKey prfOutput salt
  = Returned
      (mkCryptoKey "AES-GCM" 256 false ["encrypt"; "decrypt"]
         (hmac_sha256 (hkdf_extract (default (repeat x00 32) salt) prfOutput)
            [x01])).
Proof.
  unfold deriveEncryptionKey.
  change (subtle.importKey "raw" prfOutput "HKDF" false ["deriveKey"])
    with (Returned (mkCryptoKey "HKDF" 0 false ["deriveKey"] prfOutput)).
  cbv beta iota.
  unfold subtle.deriveKey.
  cbn [hp_name hp_hash hp_salt hp_info ap_name ap_length key_algorithm
       key_material].
  rewrite hkdf_sha256_32.
  reflexivity.
Qed.

(** C5. [deriveEncryptionKey] is a function of its two inputs alone: for
    every PRF output and salt it returns the AES-GCM key of 256 bits
    whose material is the first HKDF-SHA-256 output block for that salt
    and that input keying material with empty info. It reads no state,
    no clock and no random source, so two calls on the same pair, at any
    time and in any process, return the same key, bit for bit. Leaving
    the salt out is the same as passing thirty-two zero octets. *)
Theorem deriveEncryptionKey_deterministic (prfOutput salt : list byte) :
  exists material : list byte,
    hkdf_sha256 salt prfOutput [] 32 = Some material /\
    length material = 32%nat /\
    deriveEncryptionKey prfOutput (Some salt)
    = Returned (mkCryptoKey "AES-GCM" 256 false ["encrypt"; "decrypt"]
                  material) /\
    (forall first second : CryptoKey,
        deriveEncryptionKey prfOutput (Some salt) = Returned first ->
        deriveEncryptionKey prfOutput (Some salt) = Returned second ->
        key_material first = key_material second) /\
    deriveEncryptionKey prfOutput None
    = deriveEncryptionKey prfOutput (Some (repeat x00 32)).
Proof.
  exists (hmac_sha256 (hkdf_extract salt prfOutput) [x01]).
  split; [apply (hkdf_sha256_32 salt prfOutput [])|].
  split; [apply hmac_sha256_length|].
  split; [apply deriveEncryptionKey_value|].
  split; [|reflexivity].
  intros first second H1 H2. congruence.
Qed.

(** C7, as amended. [deriveEncryptionKey] checks no length and has no
    failure mode: for a PRF output and a salt of any length, thirty-two
    octets or not, and without a salt, it returns a non-extractable
    AES-GCM key of 256 bits for encryption and decryption. *)
Theorem deriveEncryptionKey_never_fails (prfOutput : list byte)
  (salt : option (list byte)) :
  exists key : CryptoKey,
    deriveEncryptionKey prfOutput salt = Returned key /\
    key_algorithm key = "AES-GCM" /\
    key_length key = 256 /\
    key_extractable key = false /\
    key_usages key = ["encrypt"; "decrypt"] /\
    length (key_material key) = 32%nat.
Proof.
  eexists. split; [apply deriveEncryptionKey_value|].
  cbn [key_algorithm key_length key_extractable key_usages key_material].
  repeat split.
Qed.

(** C7, as stated, fails: a PRF output of sixteen octets and a salt of
    one octet are not refused; the derivation returns a key. So does
    an empty PRF output. *)
Lemma deriveEncryptionKey_accepts_malformed_lengths :
  length (repeat x01 16) <> 32%nat /\
  deriveEncryptionKey (repeat x01 16) (Some [x02])
  = Returned
      (mkCryptoKey "AES-GCM" 256 false ["encrypt"; "decrypt"]
         (be_bytes 32
            0xf0f209fac2780a40c092eef4016ca2ca707476d877d6627b90987d946402f0bd)) /\
  (exists key, deriveEncryptionKey [] None = Returned key).
Proof.
  split; [vm_compute; discriminate|].
  split; [vm_compute; reflexivity|].
  eexists. apply deriveEncryptionKey_value.
Qed.

(** * Base64 round trips *)

#[local] Ltac Zify.zify_post_hook ::= Z.to_euclidean_division_equations.

Lemma list_ind3 {A} (P : list A -> Prop) :
  P [] -> (forall a, P [a]) -> (forall a b, P [a; b]) ->
  (forall a b c l, P l -> P (a :: b :: c :: l)) ->
  forall l, P l.
Proof.
  intros H0 H1 H2 H3. fix IH 1.
  intros [|a [|b [|c l]]];
    [exact H0 | apply H1 | apply H2 | apply H3, IH].
Qed.

(** A boolean property checked on 0 .. n-1 holds below n. *)
Lemma forall_below (P : N -> bool) (n : nat) :
  forallb P (map N.of_nat (seq 0 n)) = true ->
  forall v, (v < N.of_nat n)%N -> P v = true.
Proof.
  intros Hall v Hv.
  rewrite forallb_forall in Hall. apply Hall.
  apply in_map_iff. exists (N.to_nat v). split; [apply N2Nat.id|].
  apply in_seq. lia.
Qed.

Lemma b64_value_char v : (v < 64)%N -> b64_value (b64_char v) = Some v.
Proof.
  intros Hv.
  pose proof (forall_below
                (fun v => match b64_value (b64_char v) with
                          | Some u => N.eqb u v
                          | None => false
                          end) 64 eq_refl v Hv) as Hc.
  simpl in Hc.
  destruct (b64_value (b64_char v)); [|discriminate].
  apply N.eqb_eq in Hc. congruence.
Qed.

Lemma b64_char_not_whitespace v :
  (v < 64)%N -> is_ascii_whitespace (b64_char v) = false.
Proof.
  intros Hv.
  pose proof (forall_below
                (fun v => negb (is_ascii_whitespace (b64_char v)))
                64 eq_refl v Hv) as Hc.
  simpl in Hc. apply negb_true_iff in Hc. exact Hc.
Qed.

(** No character of the alphabet is [=], [-] or [_]. *)
Lemma b64_char_not_special v :
  (v < 64)%N ->
  Ascii.eqb (b64_char v) "=" = false /\
  Ascii.eqb (b64_char v) "-" = false /\
  Ascii.eqb (b64_char v) "_" = false.
Proof.
  intros Hv.
  pose proof (forall_below
                (fun v => negb (Ascii.eqb (b64_char v) "=")
                          && negb (Ascii.eqb (b64_char v) "-")
                          && negb (Ascii.eqb (b64_char v) "_"))
                64 eq_refl v Hv) as Hc.
  simpl in Hc.
  apply andb_true_iff in Hc as [Hc H3].
  apply andb_true_iff in Hc as [H1 H2].
  apply negb_true_iff in H1, H2, H3. auto.
Qed.

Lemma sextets_below octets :
  Forall (fun x => (x < 256)%N) octets ->
  Forall (fun v => (v < 64)%N) (sextets octets).
Proof.
  induction octets as [| a | a b | a b c l IH] using list_ind3;
    intros Hall; simpl.
  - constructor.
  - inversion_clear Hall. repeat constructor; lia.
  - inversion_clear Hall as [|? ? Ha Hb]. inversion_clear Hb.
    repeat constructor; lia.
  - inversion_clear Hall as [|? ? Ha Hb].
    inversion_clear Hb as [|? ? Hb' Hc]. inversion_clear Hc as [|? ? Hc' Hl].
    repeat (constructor; [lia|]). apply IH, Hl.
Qed.

Lemma atob_octets_sextets octets :
  Forall (fun x => (x < 256)%N) octets ->
  atob_octets (sextets octets) = octets.
Proof.
  induction octets as [| a | a b | a b c l IH] using list_ind3;
    intros Hall; simpl.
  - reflexivity.
  - inversion_clear Hall. f_equal. lia.
  - inversion_clear Hall as [|? ? Ha Hb]. inversion_clear Hb.
    f_equal; [lia|]. f_equal. lia.
  - inversion_clear Hall as [|? ? Ha Hb].
    inversion_clear Hb as [|? ? Hb' Hc]. inversion_clear Hc as [|? ? Hc' Hl].
    rewrite (IH Hl).
    f_equal; [lia|]. f_equal; [lia|]. f_equal. lia.
Qed.

(** The number of sextets, by the length of the input modulo three. *)
Lemma sextets_length (octets : list N) :
  exists q : nat,
    (length (sextets octets) = 4 * q /\ length octets mod 3 = 0)%nat \/
    (length (sextets octets) = 4 * q + 2 /\ length octets mod 3 = 1)%nat \/
    (length (sextets octets) = 4 * q + 3 /\ length octets mod 3 = 2)%nat.
Proof.
  induction octets as [| a | a b | a b c l IH] using list_ind3.
  - exists 0%nat. left. split; reflexivity.
  - exists 0%nat. right; left. split; reflexivity.
  - exists 0%nat. right; right. split; reflexivity.
  - destruct IH as [q IH]. exists (S q).
    cbn [sextets length].
    replace (S (S (S (length l))) mod 3)%nat with (length l mod 3)%nat by lia.
    lia.
Qed.

Lemma b64_values_chars vs :
  Forall (fun v => (v < 64)%N) vs ->
  b64_values (map b64_char vs) = Some vs.
Proof.
  induction 1 as [|v vs Hv _ IH]; simpl; [reflexivity|].
  rewrite (b64_value_char v Hv), IH. reflexivity.
Qed.

Lemma filter_all {A} (p : A -> bool) (l : list A) :
  Forall (fun x => p x = true) l -> List.filter p l = l.
Proof.
  induction 1 as [|x l Hx _ IH]; simpl; [reflexivity|].
  rewrite Hx, IH. reflexivity.
Qed.

(** The characters of the body of an encoding are not white space and
    not [=]. *)
Lemma body_chars vs :
  Forall (fun v => (v < 64)%N) vs ->
  Forall (fun c => negb (is_ascii_whitespace c) = true
                   /\ Ascii.eqb c "=" = false) (map b64_char vs).
Proof.
  induction 1 as [|v vs Hv _ IH]; simpl; constructor; [|exact IH].
  rewrite (b64_char_not_whitespace v Hv).
  split; [reflexivity | apply (b64_char_not_special v Hv)].
Qed.

(** Dropping the padding of a body followed by at most two [=]. *)
Lemma strip_padding_body (body : list ascii) (k : nat) :
  Forall (fun c => Ascii.eqb c "=" = false) body ->
  (k <= 2)%nat ->
  ((length body + k) mod 4 = 0)%nat ->
  strip_padding (body ++ repeat "="%char k) = body.
Proof.
  intros Hbody Hk Hlen. unfold strip_padding.
  rewrite length_app, repeat_length, Hlen. simpl.
  rewrite rev_app_distr, rev_repeat.
  assert (Hrev : Forall (fun c => Ascii.eqb c "=" = false) (rev body))
    by (apply Forall_rev, Hbody).
  destruct k as [|[|[|k]]]; [| | |lia]; simpl.
  - rewrite app_nil_r.
    destruct (rev body) as [|c1 [|c2 r]] eqn:Hr; [reflexivity| |];
      inversion_clear Hrev as [|? ? Hc1 _]; rewrite Hc1; reflexivity.
  - destruct (rev body) as [|c2 r] eqn:Hr.
    + apply (f_equal (@rev ascii)) in Hr. rewrite rev_involutive in Hr.
      subst body. reflexivity.
    + inversion_clear Hrev as [|? ? Hc2 _]. rewrite Hc2.
      change (rev r ++ [c2])%list with (rev (c2 :: r)).
      rewrite <- Hr, rev_involutive. reflexivity.
  - apply rev_involutive.
Qed.

(** [atob] undoes [btoa]. *)
Lemma atob_btoa (s : string) : atob (btoa s) = Returned s.
Proof.
  unfold atob, btoa.
  set (octets := map N_of_ascii (list_ascii_of_string s)).
  rewrite list_ascii_of_string_of_list_ascii.
  assert (Hoct : Forall (fun x => (x < 256)%N) octets).
  { unfold octets. apply List.Forall_forall. intros x Hx.
    apply in_map_iff in Hx as (c & <- & _). apply N_ascii_bounded. }
  pose proof (sextets_below octets Hoct) as Hsext.
  pose proof (body_chars _ Hsext) as Hbody.
  destruct (sextets_length octets) as [q Hq].
  assert (Hk : ((3 - length octets mod 3) mod 3 <= 2)%nat) by lia.
  assert (Hlen : ((length (map b64_char (sextets octets))
                   + (3 - length octets mod 3) mod 3) mod 4 = 0)%nat).
  { rewrite length_map. lia. }
  assert (Hnot1 : (length (map b64_char (sextets octets)) mod 4 =? 1)%nat
                  = false).
  { rewrite length_map. apply Nat.eqb_neq. lia. }
  rewrite filter_all.
  2:{ apply Forall_app. split.
      - eapply Forall_impl; [exact Hbody|]. intros c [Hc _]. exact Hc.
      - unfold padding. apply List.Forall_forall. intros c Hc.
        apply repeat_spec in Hc. subst c. reflexivity. }
  unfold padding.
  rewrite strip_padding_body; [| |exact Hk|exact Hlen].
  2:{ eapply Forall_impl; [exact Hbody|]. intros c [_ Hc]. exact Hc. }
  rewrite Hnot1, (b64_values_chars _ Hsext), (atob_octets_sextets _ Hoct).
  unfold octets. rewrite map_map.
  rewrite (map_ext _ (fun c => c)) by (intros c; apply ascii_N_embedding).
  rewrite map_id. rewrite string_of_list_ascii_of_string. reflexivity.
Qed.

Lemma chars_app (s1 s2 : string) :
  list_ascii_of_string (s1 ++ s2)
  = (list_ascii_of_string s1 ++ list_ascii_of_string s2)%list.
Proof. induction s1 as [|c s1 IH]; simpl; [reflexivity | now rewrite IH]. Qed.

Lemma length_chars (s : string) :
  String.length s = length (list_ascii_of_string s).
Proof. induction s as [|c s IH]; simpl; [reflexivity | now rewrite IH]. Qed.

Lemma chars_injective (s1 s2 : string) :
  list_ascii_of_string s1 = list_ascii_of_string s2 -> s1 = s2.
Proof.
  intros Heq.
  rewrite <- (string_of_list_ascii_of_string s1),
          <- (string_of_list_ascii_of_string s2), Heq.
  reflexivity.
Qed.

Lemma five_replacements (l : list ascii) :
  flat_map (replacement "_" "/")
    (flat_map (replacement "-" "+")
       (flat_map (replacement "=" "")
          (flat_map (replacement "/" "_")
             (flat_map (replacement "+" "-") l))))
  = flat_map there_and_back l.
Proof.
  induction l as [|c l IH]; [reflexivity|].
  cbn [flat_map]. rewrite !flat_map_app, IH. reflexivity.
Qed.

Lemma there_and_back_char v :
  (v < 64)%N -> there_and_back (b64_char v) = [b64_char v].
Proof.
  intros Hv.
  pose proof (forall_below
                (fun v => match there_and_back (b64_char v) with
                          | [c] => Ascii.eqb c (b64_char v)
                          | _ => false
                          end) 64 eq_refl v Hv) as Hc.
  simpl in Hc.
  destruct (there_and_back (b64_char v)) as [|c [|]]; try discriminate.
  apply Ascii.eqb_eq in Hc. congruence.
Qed.

Lemma there_and_back_body vs :
  Forall (fun v => (v < 64)%N) vs ->
  flat_map there_and_back (map b64_char vs) = map b64_char vs.
Proof.
  induction 1 as [|v vs Hv _ IH]; simpl; [reflexivity|].
  rewrite (there_and_back_char v Hv), IH. reflexivity.
Qed.

Lemma there_and_back_padding k :
  flat_map there_and_back (repeat "="%char k) = [].
Proof. induction k as [|k IH]; simpl; [reflexivity | exact IH]. Qed.

Lemma chars_btoa (s : string) :
  list_ascii_of_string (btoa s)
  = (map b64_char (sextets (map N_of_ascii (list_ascii_of_string s)))
     ++ padding (length (list_ascii_of_string s)))%list.
Proof.
  unfold btoa. rewrite list_ascii_of_string_of_list_ascii, length_map.
  reflexivity.
Qed.

(** [uint8ArrayToBase64Url] returns the base64url form of an array that
    fits the arguments of a call, and throws for a longer one. *)
Lemma uint8ArrayToBase64Url_cases `{Platform} (array : list byte) :
  (N.of_nat (length array) <= page_max_arguments)%N /\
  uint8ArrayToBase64Url array = Returned (base64url array) \/
  (page_max_arguments < N.of_nat (length array))%N /\
  uint8ArrayToBase64Url array = Thrown range_error.
Proof.
  unfold uint8ArrayToBase64Url.
  destruct (fromCharCodes_cases page_max_arguments array)
    as [[Hfits ->] | [Hlarge ->]]; [left | right]; split;
    solve [assumption | reflexivity].
Qed.

Lemma uint8ArrayToBase64Url_fits `{Platform} (array : list byte) :
  (N.of_nat (length array) <= page_max_arguments)%N ->
  uint8ArrayToBase64Url array = Returned (base64url array).
Proof.
  intros Hfits. unfold uint8ArrayToBase64Url.
  rewrite (fromCharCodes_fits _ _ Hfits). reflexivity.
Qed.

(** What [uint8ArrayToBase64Url] returns is the base64url form. *)
Lemma uint8ArrayToBase64Url_returned `{Platform} (array : list byte)
  (encoded : string) :
  uint8ArrayToBase64Url array = Returned encoded ->
  encoded = base64url array /\
  (N.of_nat (length array) <= page_max_arguments)%N.
Proof.
  destruct (uint8ArrayToBase64Url_cases array) as [[Hfits ->] | [_ ->]];
    [|discriminate].
  intros Heq. injection Heq as <-. split; [reflexivity | exact Hfits].
Qed.

(** [base64UrlToUint8Array] undoes the encoding. *)
Lemma base64UrlToUint8Array_base64url (array : list byte) :
  base64UrlToUint8Array (base64url array) = Returned array.
Proof.
  unfold base64UrlToUint8Array, base64url, base64_to_url.
  set (s := binary_string array).
  set (base64 := replace_all "_" "/" (replace_all "-" "+" _)).
  set (octets := map N_of_ascii (list_ascii_of_string s)).
  assert (Hoct : Forall (fun x => (x < 256)%N) octets).
  { unfold octets. apply List.Forall_forall. intros x Hx.
    apply in_map_iff in Hx as (c & <- & _). apply N_ascii_bounded. }
  pose proof (sextets_below octets Hoct) as Hsext.
  assert (Hbase : list_ascii_of_string base64
                  = map b64_char (sextets octets)).
  { unfold base64, replace_all.
    rewrite !list_ascii_of_string_of_list_ascii.
    rewrite chars_btoa. fold octets.
    rewrite five_replacements.
    rewrite flat_map_app, (there_and_back_body _ Hsext).
    unfold padding. rewrite there_and_back_padding, app_nil_r.
    reflexivity. }
  assert (Hpadded :
            padEnd base64
              (String.length base64 + (4 - String.length base64 mod 4) mod 4)
            = btoa s).
  { apply chars_injective. unfold padEnd.
    rewrite chars_app, list_ascii_of_string_of_list_ascii, chars_btoa.
    fold octets. rewrite length_chars, Hbase. f_equal.
    unfold padding. f_equal.
    rewrite length_map.
    replace (length (list_ascii_of_string s)) with (length octets)
      by (unfold octets; apply length_map).
    destruct (sextets_length octets) as [q Hq]. lia. }
  rewrite Hpadded, atob_btoa.
  unfold s, charCodes, binary_string.
  rewrite list_byte_of_string_of_list_byte. reflexivity.
Qed.

(** * AES-GCM round trip *)

Lemma to_N_below (a : byte) : (Byte.to_N a < 256)%N.
Proof. pose proof (Byte.to_N_bounded a). lia. Qed.

Lemma byte_of_to_N (a : byte) : byte_of_N (Byte.to_N a) = a.
Proof.
  unfold byte_of_N.
  rewrite N.mod_small by apply to_N_below.
  rewrite Byte.of_to_N. reflexivity.
Qed.

Lemma xor_byte_involutive (a b : byte) : xor_byte (xor_byte a b) b = a.
Proof.
  assert (Hall : forall x, (x < 256)%N -> forall y, (y < 256)%N ->
             Byte.eqb (xor_byte (xor_byte (byte_of_N x) (byte_of_N y))
                         (byte_of_N y)) (byte_of_N x) = true).
  { intros x Hx.
    apply (forall_below
             (fun x => forallb
                         (fun y => Byte.eqb
                                     (xor_byte (xor_byte (byte_of_N x)
                                                  (byte_of_N y))
                                        (byte_of_N y)) (byte_of_N x))
                         (map N.of_nat (seq 0 256))) 256) in Hx;
      [|vm_compute; reflexivity].
    intros y Hy.
    exact (forall_below _ 256 Hx y Hy). }
  specialize (Hall (Byte.to_N a) (to_N_below a)
                (Byte.to_N b) (to_N_below b)).
  rewrite !byte_of_to_N in Hall.
  apply Byte.byte_dec_bl in Hall. exact Hall.
Qed.

Lemma xor_bytes_length data pad :
  (length data <= length pad)%nat ->
  length (xor_bytes data pad) = length data.
Proof.
  revert pad. induction data as [|d data IH]; intros [|p pad] Hlen;
    simpl in *; try reflexivity; try lia.
  rewrite IH by lia. reflexivity.
Qed.

Lemma xor_bytes_involutive data pad :
  (length data <= length pad)%nat ->
  xor_bytes (xor_bytes data pad) pad = data.
Proof.
  revert pad. induction data as [|d data IH]; intros [|p pad] Hlen;
    simpl in *; try reflexivity; try lia.
  rewrite xor_byte_involutive, IH by lia. reflexivity.
Qed.

Lemma keystream_length w cb n :
  length (GCM.keystream w cb n) = (16 * n)%nat.
Proof.
  revert cb. induction n as [|n IH]; intros cb; [reflexivity|].
  cbn [GCM.keystream].
  rewrite length_app, be_bytes_length, IH. lia.
Qed.

Lemma gctr_length w icb data :
  length (GCM.gctr w icb data) = length data.
Proof.
  unfold GCM.gctr. apply xor_bytes_length.
  rewrite keystream_length. lia.
Qed.

Lemma gctr_involutive w icb data :
  GCM.gctr w icb (GCM.gctr w icb data) = data.
Proof.
  unfold GCM.gctr at 1. rewrite gctr_length.
  unfold GCM.gctr. apply xor_bytes_involutive.
  rewrite keystream_length. lia.
Qed.

Lemma bytes_eqb_refl (x : list byte) : GCM.bytes_eqb x x = true.
Proof.
  induction x as [|a x IH]; simpl; [reflexivity|].
  rewrite IH, andb_true_r. apply Byte.byte_dec_lb. reflexivity.
Qed.

Lemma tag_length w H J0 ct : length (GCM.tag w H J0 ct) = 16%nat.
Proof. unfold GCM.tag. apply be_bytes_length. Qed.

(** Opening what was sealed under the same key and nonce gives the
    plaintext back. *)
Lemma open_seal (key iv plaintext : list byte) :
  GCM.open key iv (GCM.seal key iv plaintext) = Some plaintext.
Proof.
  unfold GCM.open, GCM.seal.
  set (w := AES.key_schedule key).
  set (H := AES.cipher w 0).
  set (J0 := GCM.j0 H iv).
  set (ct := GCM.gctr w (GCM.inc32 J0) plaintext).
  set (t := GCM.tag w H J0 ct).
  assert (Ht : length t = 16%nat) by apply tag_length.
  assert (Hlen : (length (ct ++ t) - 16)%nat = length ct)
    by (rewrite length_app; lia).
  assert (Hshort : (length (ct ++ t) <? 16)%nat = false)
    by (apply Nat.ltb_ge; rewrite length_app; lia).
  rewrite Hshort, Hlen.
  rewrite take_app_length, drop_app_length.
  fold t. rewrite bytes_eqb_refl.
  unfold ct. rewrite gctr_involutive. reflexivity.
Qed.

(** What [encryptData] and [decryptData] do under a key that
    [deriveEncryptionKey] returned: the initialization vector is
    checked, then the data is sealed or opened. *)
Lemma encryptData_value `{Platform} (material data nonce : list byte) :
  encryptData
    (mkCryptoKey "AES-GCM" 256 false ["encrypt"; "decrypt"] material)
    data nonce
  = if aes_gcm_takes_iv (length nonce)
    then Returned (GCM.seal material nonce data)
    else Thrown "OperationError".
Proof.
  unfold encryptData, subtle.encrypt.
  cbn [gp_name gp_iv key_algorithm key_material].
  change (negb ("AES-GCM" =? "AES-GCM")%string) with false.
  cbv beta iota.
  change (negb (subtle.has_usage _ "encrypt")) with false.
  cbv beta iota.
  destruct (aes_gcm_takes_iv (length nonce)); reflexivity.
Qed.

Lemma decryptData_value `{Platform} (material input nonce : list byte) :
  decryptData
    (mkCryptoKey "AES-GCM" 256 false ["encrypt"; "decrypt"] material)
    input nonce
  = if aes_gcm_takes_iv (length nonce)
    then match GCM.open material nonce input with
         | Some plaintext => Returned plaintext
         | None => Thrown "OperationError"
         end
    else Thrown "OperationError".
Proof.
  unfold decryptData, subtle.decrypt.
  cbn [gp_name gp_iv key_algorithm key_material].
  change (negb ("AES-GCM" =? "AES-GCM")%string) with false.
  cbv beta iota.
  change (negb (subtle.has_usage _ "decrypt")) with false.
  cbv beta iota.
  destruct (aes_gcm_takes_iv (length nonce)); reflexivity.
Qed.

(** [decryptData] undoes [encryptData] for a key that
    [deriveEncryptionKey] returned and an initialization vector the
    platform takes. *)
Lemma decryptData_encryptData `{Platform} prf salt key data nonce :
  deriveEncryptionKey prf salt = Returned key ->
  aes_gcm_takes_iv (length nonce) = true ->
  exists encrypted,
    encryptData key data nonce = Returned encrypted /\
    decryptData key encrypted nonce = Returned data.
Proof.
  rewrite deriveEncryptionKey_value. intros Hkey Hiv.
  injection Hkey as <-.
  rewrite encryptData_value, Hiv.
  eexists. split; [reflexivity|].
  rewrite decryptData_value, Hiv, open_seal. reflexivity.
Qed.

(** * Properties of the client handlers *)

Arguments GCM.seal : simpl never.
Arguments GCM.open : simpl never.
Arguments hmac_sha256 : simpl never.
Arguments SHA256.hash : simpl never.
Arguments btoa : simpl never.
Arguments atob : simpl never.
Arguments uint8ArrayToBase64Url : simpl never.
Arguments base64url : simpl never.
Arguments fromCharCodes : simpl never.
Arguments TextDecoder_decode : simpl never.
Arguments base64UrlToUint8Array : simpl never.
Arguments toString : simpl never.
Arguments getRandomValues : simpl never.

(** ** The salt at authentication *)

Lemma get_prf_salt_state username s : snd (get_prf_salt username s) = s.
Proof. unfold get_prf_salt. destruct (getUser _ _); reflexivity. Qed.

Lemma check_blob_state username s : snd (check_blob username s) = s.
Proof. unfold check_blob. destruct (getUser _ _); reflexivity. Qed.

Lemma generate_authentication_options_salts username challenge s :
  salts (DB (snd (generate_authentication_options username challenge s)))
  = salts (DB s).
Proof.
  unfold generate_authentication_options. handler_cases; reflexivity.
Qed.

Lemma verify_authentication_salts `{SimpleWebAuthn} username response s :
  salts (DB (snd (verify_authentication username response s)))
  = salts (DB s).
Proof. unfold verify_authentication. handler_cases; reflexivity. Qed.

(** [handleAuthenticate] writes no salt: whatever the page, the server,
    the verifier and the browser, the column [prf_salt] is after the
    handler what it was before. *)
Lemma handleAuthenticate_writes_no_salt `{SimpleWebAuthn} `{Browser}
  (challenge : string) (w : App.World) :
  salts (DB (App.server (App.handleAuthenticate challenge w)))
  = salts (DB (App.server w)).
Proof.
  unfold App.handleAuthenticate, App.tryAuthenticate.
  pose proof (get_prf_salt_state (App.username (App.app w))
                (App.server w)) as Hget.
  destruct (get_prf_salt _ _) as [saltResponse s1]. simpl in Hget. subst s1.
  cbn [App.app App.server App.rng App.with_app].
  match goal with
  | |- context [match ?salted with Returned _ => _ | Thrown _ => _ end] =>
      destruct salted as [[currentPrfSalt rng']|e]
  end; [|reflexivity].
  cbn [App.app App.server App.rng].
  pose proof (generate_authentication_options_salts
                (App.username (App.app w)) challenge (App.server w)) as Hgen.
  destruct (generate_authentication_options _ _ _) as [optionsResponse s2].
  simpl in Hgen.
  cbn [App.app App.server App.rng].
  destruct (negb (App.ok optionsResponse)); [exact Hgen|].
  destruct (body optionsResponse); try exact Hgen.
  destruct (startAuthentication _ _) as [authResponse|e]; [|exact Hgen].
  pose proof (verify_authentication_salts (App.username (App.app w))
                authResponse s2) as Hver.
  destruct (verify_authentication _ _ _) as [verificationResponse s3].
  simpl in Hver. rewrite Hgen in Hver.
  cbn [App.app App.server App.rng].
  destruct (is_verified verificationResponse); [|exact Hver].
  destruct (ar_prf_first authResponse); [|exact Hver].
  cbn [App.app App.server App.rng App.with_app].
  pose proof (check_blob_state (App.username (App.app w)) s3) as Hchk.
  destruct (check_blob _ _) as [blobCheckResponse s4].
  simpl in Hchk. subst s4.
  destruct (body blobCheckResponse) as [| | | | | | | |[|]]; exact Hver.
Qed.

(** C8 on the code: bob has a passkey and no stored salt. He signs in,
    logs out and signs in again. The first sign-in succeeds with a salt
    drawn on the page, and nothing is persisted: the stored salt is
    still absent afterwards. The second sign-in draws another salt, so
    the PRF is evaluated on a different salt and its output differs. *)
Lemma first_authentication_salt_is_not_persisted :
  let w1 :=
    @App.handleAuthenticate (challenge_verifier 6) (prf_browser [x2a])
      "auth-1" bob_world in
  let w2 :=
    @App.handleAuthenticate (challenge_verifier 7) (prf_browser [x2a])
      "auth-2" (App.handleLogout w1) in
  getUserPrfSalt (DB demo_server) 2 = None /\
  App.isAuthenticated (App.app w1) = true /\
  App.prfSalt (App.app w1) = Some (map byte_of_N (map N.of_nat (seq 0 32))) /\
  getUserPrfSalt (DB (App.server w1)) 2 = None /\
  App.isAuthenticated (App.app w2) = true /\
  App.prfSalt (App.app w2) = Some (map byte_of_N (map N.of_nat (seq 32 32))) /\
  getUserPrfSalt (DB (App.server w2)) 2 = None /\
  App.prfOutput (App.app w1) <> App.prfOutput (App.app w2).
Proof. vm_compute. repeat split; discriminate. Qed.

(** ** Storing and retrieving the blob *)

Lemma blob_key_nonempty user : String.eqb (blob_key user) "" = false.
Proof. reflexivity. Qed.

Lemma generateNonce_value (rng : Random) :
  generateNonce rng
  = Returned (random_octets 12 rng, mkRandom (tape rng) (drawn rng + 12)).
Proof. reflexivity. Qed.

Lemma generatePrfSalt_value (rng : Random) :
  generatePrfSalt rng
  = Returned (random_octets 32 rng, mkRandom (tape rng) (drawn rng + 32)).
Proof. reflexivity. Qed.

Lemma random_octets_length (n : nat) (rng : Random) :
  length (random_octets n rng) = n.
Proof. unfold random_octets. rewrite length_map, length_seq. reflexivity. Qed.

Lemma seal_length (key iv plaintext : list byte) :
  length (GCM.seal key iv plaintext) = (length plaintext + 16)%nat.
Proof.
  unfold GCM.seal. rewrite length_app, gctr_length, tag_length. reflexivity.
Qed.

Lemma charCodes_binary_string (bytes : list byte) :
  charCodes (binary_string bytes) = bytes.
Proof.
  unfold charCodes, binary_string. apply list_byte_of_string_of_list_byte.
Qed.

(** What /store-blob does for a user that exists, with a blob in
    base64 and a nonce in the body. *)
Lemma store_blob_stores (username : string) (blob : list byte)
  (nonce : string) (s : Server) (user : User) :
  getUser (DB s) username = Some user ->
  store_blob username (btoa (binary_string blob)) (Some nonce) s
  = (json (JStored (blob_key user)),
     mkServer (update_blob_reference (DB s) (u_id user) (blob_key user) nonce)
       (<[blob_key user := blob]> (R2_BUCKET s)) (challenges s)).
Proof.
  intros Hu. unfold store_blob. rewrite Hu, atob_btoa.
  rewrite charCodes_binary_string. reflexivity.
Qed.


(** What [handleEncryptAndStore] leaves when the page holds a PRF
    output, the message is not blank, the user exists, the platform
    takes the 96-bit initialization vector and the ciphertext fits the
    arguments of a call. *)
Lemma handleEncryptAndStore_stores `{Platform} (w : App.World)
  (prf : list byte) (user : User) :
  App.prfOutput (App.app w) = Some prf ->
  getUser (DB (App.server w)) (App.username (App.app w)) = Some user ->
  is_blank (App.userMessage (App.app w)) = false ->
  aes_gcm_takes_iv 12 = true ->
  (N.of_nat (length (TextEncoder_encode (App.userMessage (App.app w))) + 16)
   <= page_max_arguments)%N ->
  let nonce := random_octets 12 (App.rng w) in
  let sealed :=
    GCM.seal (page_key prf) nonce
      (TextEncoder_encode (App.userMessage (App.app w))) in
  let w' := App.handleEncryptAndStore w in
  App.server w'
  = mkServer
      (update_blob_reference (DB (App.server w)) (u_id user) (blob_key user)
         (base64url nonce))
      (<[blob_key user := sealed]> (R2_BUCKET (App.server w)))
      (challenges (App.server w)) /\
  App.prfOutput (App.app w') = Some prf /\
  App.username (App.app w') = App.username (App.app w) /\
  App.hasBlob (App.app w') = true /\
  App.message (App.app w')
  = "Successfully encrypted and stored message in R2!".
Proof.
  intros Hprf Huser Hblank Hiv Hfits. cbv zeta.
  unfold App.handleEncryptAndStore. rewrite Hprf, Hblank.
  unfold App.tryEncryptAndStore.
  cbn [App.app App.server App.rng App.with_app].
  rewrite generateNonce_value.
  rewrite deriveEncryptionKey_value. cbv beta iota.
  rewrite encryptData_value, random_octets_length, Hiv.
  change (hmac_sha256 (hkdf_extract (default (repeat x00 32) None) prf) [x01])
    with (page_key prf).
  rewrite fromCharCodes_fits by (rewrite seal_length; exact Hfits).
  rewrite uint8ArrayToBase64Url_fits
    by (rewrite random_octets_length; lia).
  cbn [App.app App.server App.rng App.with_app].
  rewrite (store_blob_stores _ _ _ _ user Huser).
  cbn [body json App.app App.server App.rng App.with_app].
  repeat split; try reflexivity.
  cbn. exact Hprf.
Qed.

Lemma find_map_same {A} (p : A -> bool) (f : A -> A) (l : list A) :
  (forall x, p (f x) = p x) ->
  List.find p (map f l) = option_map f (List.find p l).
Proof.
  intros Hp. induction l as [|x l IH]; simpl; [reflexivity|].
  rewrite Hp. destruct (p x); [reflexivity | exact IH].
Qed.

(** After the UPDATE of the blob columns a user is found under the same
    name with the same id. *)
Lemma getUser_update_blob_reference db userId blobKey nonce username user :
  getUser db username = Some user ->
  exists user',
    getUser (update_blob_reference db userId blobKey nonce) username
    = Some user' /\ u_id user' = u_id user.
Proof.
  unfold getUser, update_blob_reference. cbn [users]. intros Hfind.
  rewrite find_map_same, Hfind.
  - simpl. eexists. split; [reflexivity|].
    destruct (Z.eqb (u_id user) userId); reflexivity.
  - intros x. destruct (Z.eqb (u_id x) userId); reflexivity.
Qed.

(** A user found by name is in the table, so its id finds a row. *)
Lemma getUser_userById db username user :
  getUser db username = Some user ->
  exists row, userById db (u_id user) = Some row /\ u_id row = u_id user.
Proof.
  unfold getUser, userById. intros Hfind.
  apply find_some in Hfind as [Hin _].
  destruct (List.find _ (users db)) as [row|] eqn:Hrow.
  - exists row. split; [reflexivity|].
    apply find_some in Hrow as [_ Heq]. apply Z.eqb_eq, Heq.
  - exfalso. apply (find_none _ _ Hrow) in Hin.
    rewrite Z.eqb_refl in Hin. discriminate.
Qed.

(** The reference the UPDATE wrote is the one [getUserBlobReference]
    reads. *)
Lemma getUserBlobReference_update_blob_reference db userId blobKey nonce
  row :
  userById db userId = Some row ->
  getUserBlobReference (update_blob_reference db userId blobKey nonce) userId
  = Some (Some blobKey, Some nonce) /\
  exists row',
    userById (update_blob_reference db userId blobKey nonce) userId
    = Some row'.
Proof.
  unfold getUserBlobReference, userById, update_blob_reference.
  cbn [users]. intros Hfind.
  pose proof (find_some _ _ Hfind) as [_ Heq].
  rewrite find_map_same, Hfind.
  - simpl. rewrite Heq. simpl. eauto.
  - intros x. destruct (Z.eqb (u_id x) userId) eqn:Hx; simpl; rewrite Hx;
      reflexivity.
Qed.

(** What [handleRetrieveAndDecrypt] leaves when the page holds the PRF
    output the blob was sealed under, the object fits the arguments of
    a call of the worker, and the platform takes the initialization
    vector. *)
Lemma handleRetrieveAndDecrypt_decrypts `{Platform} (w : App.World)
  (prf : list byte) (user : User) (blobKey : string)
  (nonce data : list byte) :
  App.prfOutput (App.app w) = Some prf ->
  getUser (DB (App.server w)) (App.username (App.app w)) = Some user ->
  getUserBlobReference (DB (App.server w)) (u_id user)
  = Some (Some blobKey, Some (base64url nonce)) ->
  String.eqb blobKey "" = false ->
  R2_BUCKET (App.server w) !! blobKey
  = Some (GCM.seal (page_key prf) nonce data) ->
  aes_gcm_takes_iv (length nonce) = true ->
  (N.of_nat (length data + 16) <= worker_max_arguments)%N ->
  let w' := App.handleRetrieveAndDecrypt w in
  App.decryptedBlob (App.app w') = Some data /\
  App.decryptedMessage (App.app w') = TextDecoder_decode data /\
  App.message (App.app w') = "Successfully decrypted message!" /\
  App.server w' = App.server w.
Proof.
  intros Hprf Huser Href Hkey Hobject Hiv Hfits. cbv zeta.
  unfold App.handleRetrieveAndDecrypt. rewrite Hprf.
  unfold App.tryRetrieveAndDecrypt.
  cbn [App.app App.server App.rng App.with_app].
  unfold retrieve_blob. rewrite Huser, Href, Hkey, Hobject.
  rewrite fromCharCodes_fits by (rewrite seal_length; exact Hfits).
  cbn [App.ok json status body negb andb Z.leb Z.compare Pos.compare
       Pos.compare_cont App.app App.server App.rng App.with_app].
  rewrite atob_btoa.
  rewrite base64UrlToUint8Array_base64url.
  rewrite deriveEncryptionKey_value. cbv beta iota.
  rewrite charCodes_binary_string.
  rewrite decryptData_value, Hiv.
  change (hmac_sha256 (hkdf_extract (default (repeat x00 32) None) prf) [x01])
    with (page_key prf).
  rewrite open_seal.
  repeat split; reflexivity.
Qed.

(** ** What [TextDecoder.decode] makes of what [TextEncoder.encode]
    made *)

Lemma to_N_byte_of_ascii (c : ascii) :
  Byte.to_N (byte_of_ascii c) = N_of_ascii c.
Proof.
  destruct c as [[] [] [] [] [] [] [] []]; reflexivity.
Qed.

Lemma octets_of_text (s : string) :
  map Byte.to_N (TextEncoder_encode s)
  = map N_of_ascii (list_ascii_of_string s).
Proof.
  unfold TextEncoder_encode, charCodes, list_byte_of_string.
  rewrite map_map. apply map_ext. intros c. apply to_N_byte_of_ascii.
Qed.

Lemma length_TextEncoder_encode (s : string) :
  length (TextEncoder_encode s) = String.length s.
Proof.
  unfold TextEncoder_encode, charCodes, list_byte_of_string.
  rewrite length_map. symmetry. apply length_chars.
Qed.

(** Turns the comparisons of octets among the hypotheses into
    inequalities. *)
Ltac octet_bounds :=
  repeat match goal with
         | H : false = true |- _ => discriminate H
         | H : true = false |- _ => discriminate H
         | H : true = true |- _ => clear H
         | H : false = false |- _ => clear H
         | H : (_ || _)%bool = true |- _ =>
             apply orb_true_iff in H; destruct H as [H | H]
         | H : (_ && _)%bool = true |- _ =>
             let H' := fresh H in
             apply andb_true_iff in H; destruct H as [H' H]
         | H : (_ && _)%bool = false |- _ =>
             apply andb_false_iff in H; destruct H as [H | H]
         | H : (_ <=? _)%N = true |- _ => apply N.leb_le in H
         | H : (_ <=? _)%N = false |- _ => apply N.leb_gt in H
         | H : (_ =? _)%N = true |- _ => apply N.eqb_eq in H
         | H : (_ =? _)%N = false |- _ => apply N.eqb_neq in H
         end.

(** The bounds the decoder sets after the first octet of a sequence of
    three hold of the second octet of a well-formed one. *)
Lemma utf8_three_bounds (a b : N) :
  utf8_three a b = true ->
  ((if a =? 0xE0 then 0xA0 else 0x80) <=? b)%N
  && (b <=? (if a =? 0xED then 0x9F else 0xBF))%N = true.
Proof.
  unfold utf8_three, utf8_tail. intros Hab.
  destruct (a =? 0xE0)%N eqn:E0; destruct (a =? 0xED)%N eqn:ED;
    octet_bounds; apply andb_true_iff; split; apply N.leb_le; lia.
Qed.

Lemma utf8_four_bounds (a b : N) :
  utf8_four a b = true ->
  ((0xF0 <=? a) && (a <=? 0xF4))%N = true /\
  ((if a =? 0xF0 then 0x90 else 0x80) <=? b)%N
  && (b <=? (if a =? 0xF4 then 0x8F else 0xBF))%N = true.
Proof.
  unfold utf8_four, utf8_tail. intros Hab.
  destruct (a =? 0xF0)%N eqn:F0; destruct (a =? 0xF4)%N eqn:F4;
    octet_bounds; (split; apply andb_true_iff; split; apply N.leb_le; lia).
Qed.

(** The decoder writes a well-formed text as it reads it. *)
Lemma utf8_decode_well_formed (l : list N) :
  well_formed_utf8 l = true -> utf8_decode utf8_start l = l.
Proof.
  assert (Hlen : forall n l, (length l <= n)%nat ->
             well_formed_utf8 l = true -> utf8_decode utf8_start l = l).
  { clear l. induction n as [|n IH]; intros l Hn Hwf.
    - destruct l; [reflexivity | simpl in Hn; lia].
    - destruct l as [|a r1]; [reflexivity|].
      cbn [well_formed_utf8] in Hwf.
      cbn [utf8_decode utf8_octet utf8_needed utf8_start]. unfold utf8_lead.
      destruct (a <=? 0x7F)%N eqn:Ha1.
      { cbn [app]. f_equal. apply IH; [simpl in Hn; lia | exact Hwf]. }
      destruct r1 as [|b r2]; [discriminate|].
      destruct ((0xC2 <=? a) && (a <=? 0xDF))%N eqn:Ha2.
      { apply andb_true_iff in Hwf as [Hb Hwf].
        cbn [app utf8_decode utf8_octet utf8_needed utf8_lower utf8_upper
             utf8_seen].
        unfold utf8_tail in Hb. rewrite Hb. cbn [rev app].
        f_equal. f_equal. apply IH; [simpl in Hn; lia | exact Hwf]. }
      destruct r2 as [|c r3]; [discriminate|].
      destruct ((0xE0 <=? a) && (a <=? 0xEF))%N eqn:Ha3.
      { apply andb_true_iff in Hwf as [Hwf Hrest].
        apply andb_true_iff in Hwf as [Hab Hc].
        cbn [app utf8_decode utf8_octet utf8_needed utf8_lower utf8_upper
             utf8_seen].
        rewrite (utf8_three_bounds _ _ Hab).
        cbn [app utf8_decode utf8_octet utf8_needed utf8_lower utf8_upper
             utf8_seen].
        unfold utf8_tail in Hc. rewrite Hc. cbn [rev app].
        f_equal. f_equal. f_equal.
        apply IH; [simpl in Hn; lia | exact Hrest]. }
      destruct r3 as [|d r4]; [discriminate|].
      apply andb_true_iff in Hwf as [Hwf Hrest].
      apply andb_true_iff in Hwf as [Hwf Hd].
      apply andb_true_iff in Hwf as [Hab Hc].
      destruct (utf8_four_bounds _ _ Hab) as [Ha4 Hb].
      rewrite Ha4.
      cbn [app utf8_decode utf8_octet utf8_needed utf8_lower utf8_upper
           utf8_seen].
      rewrite Hb.
      cbn [app utf8_decode utf8_octet utf8_needed utf8_lower utf8_upper
           utf8_seen].
      unfold utf8_tail in Hc, Hd. rewrite Hc.
      cbn [app utf8_decode utf8_octet utf8_needed utf8_lower utf8_upper
           utf8_seen].
      rewrite Hd. cbn [rev app].
      f_equal. f_equal. f_equal. f_equal.
      apply IH; [simpl in Hn; lia | exact Hrest]. }
  apply (Hlen (length l) l). lia.
Qed.

Lemma drop_bom_without (l : list N) :
  starts_with_bom l = false -> drop_bom l = l.
Proof.
  unfold starts_with_bom, drop_bom.
  destruct l as [|a [|b [|c rest]]]; try reflexivity.
  intros ->. reflexivity.
Qed.

(** A well-formed text without a byte order mark at its head comes back
    from its UTF-8 form as it was. *)
Lemma TextDecoder_decode_TextEncoder_encode (s : string) :
  plain_text s = true -> TextDecoder_decode (TextEncoder_encode s) = s.
Proof.
  unfold plain_text. intros Hplain.
  apply andb_true_iff in Hplain as [Hwf Hbom].
  apply negb_true_iff in Hbom.
  unfold TextDecoder_decode. rewrite octets_of_text.
  rewrite (utf8_decode_well_formed _ Hwf), (drop_bom_without _ Hbom).
  rewrite map_map.
  rewrite (map_ext _ (fun c => c)) by (intros c; apply ascii_N_embedding).
  rewrite map_id. apply string_of_list_ascii_of_string.
Qed.




(** ** Two stores, then a read, at the endpoints *)

(** After two calls of /store-blob for one user, /retrieve-blob answers
    with the octets and the nonce of the second, when they fit the
    arguments of a call. *)
Lemma store_blob_twice_then_retrieve `{Platform} (username : string)
  (s : Server) (user : User) (blob1 blob2 : list byte)
  (nonce1 nonce2 : string) :
  getUser (DB s) username = Some user ->
  (N.of_nat (length blob2) <= worker_max_arguments)%N ->
  let s1 :=
    snd (store_blob username (btoa (binary_string blob1)) (Some nonce1) s) in
  let s2 :=
    snd (store_blob username (btoa (binary_string blob2)) (Some nonce2) s1) in
  R2_BUCKET s2 = <[blob_key user := blob2]> (R2_BUCKET s) /\
  retrieve_blob username s2
  = (json (JBlob (btoa (binary_string blob2)) (Some nonce2)), s2).
Proof.
  intros Huser Hfits. cbv zeta.
  rewrite (store_blob_stores _ blob1 nonce1 s user Huser). cbn [snd].
  destruct (getUser_update_blob_reference (DB s) (u_id user) (blob_key user)
              nonce1 username user Huser) as (user1 & Huser1 & Hid1).
  assert (Hkey1 : blob_key user1 = blob_key user)
    by (unfold blob_key; rewrite Hid1; reflexivity).
  rewrite (store_blob_stores _ blob2 nonce2 (mkServer _ _ _) user1 Huser1).
  cbn [snd DB R2_BUCKET challenges].
  rewrite Hkey1, Hid1, insert_insert_eq.
  split; [reflexivity|].
  destruct (getUser_update_blob_reference _ (u_id user) (blob_key user)
              nonce2 _ _ Huser1) as (user2 & Huser2 & Hid2).
  destruct (getUser_userById _ _ _ Huser1) as (row1 & Hrow1 & _).
  rewrite Hid1 in Hrow1.
  destruct (getUserBlobReference_update_blob_reference _ (u_id user)
              (blob_key user) nonce2 row1 Hrow1) as [Href2 _].
  unfold retrieve_blob. cbn [DB R2_BUCKET].
  rewrite Huser2, Hid2, Hid1, Href2, blob_key_nonempty, lookup_insert_eq.
  rewrite (fromCharCodes_fits _ _ Hfits). reflexivity.
Qed.

(** ** Registration and the stored salt *)

(** A page that holds no salt draws one at registration and posts it
    after a verified registration, whatever the user's row holds: alice,
    whose salt is set, registers a second passkey from a fresh page, and
    her stored salt is then the one the page drew. *)
Example registration_from_fresh_page_posts_new_salt :
  let w :=
    @App.handleRegister (challenge_verifier 0) (prf_browser [x2a])
      demo_platform "reg-1"
      (App.mkWorld (fresh_page "alice") demo_server counting_random) in
  getUserPrfSalt (DB demo_server) 1 = Some "c2FsdC1vbmU" /\
  has_cred (DB (App.server w)) "cred-new" = true /\
  @uint8ArrayToBase64Url demo_platform
    (map byte_of_N (map N.of_nat (seq 0 32)))
  = Returned "AAECAwQFBgcICQoLDA0ODxAREhMUFRYXGBkaGxwdHh8" /\
  getUserPrfSalt (DB (App.server w)) 1
  = Some "AAECAwQFBgcICQoLDA0ODxAREhMUFRYXGBkaGxwdHh8".
Proof. vm_compute. repeat split. Qed.

(** Blank messages, which [handleEncryptAndStore] refuses: the empty
    one, spaces and line ends, a no-break space (U+00A0). *)
Example blank_messages :
  is_blank "" = true /\
  is_blank (String " " (String "010" (String "009" ""))) = true /\
  is_blank (String "194" (String "160" "")) = true /\
  is_blank " a " = false.
Proof. vm_compute. repeat split. Qed.

(** A blank message is not stored: the server is as it was. *)
Lemma handleEncryptAndStore_refuses_blank `{Platform} (w : App.World) :
  is_blank (App.userMessage (App.app w)) = true ->
  App.server (App.handleEncryptAndStore w) = App.server w.
Proof.
  intros Hblank. unfold App.handleEncryptAndStore.
  destruct (App.prfOutput (App.app w)); [|reflexivity].
  rewrite Hblank. reflexivity.
Qed.

(** * More of the code: the tables *)

(** ** The constraints of the schema *)

Lemma getUser_not_in db username :
  getUser db username = None -> ~ In username (map u_username (users db)).
Proof.
  unfold getUser. intros Hnone Hin.
  apply in_map_iff in Hin as (u & Hname & Hu).
  apply (find_none _ _ Hnone) in Hu. simpl in Hu.
  rewrite Hname, String.eqb_refl in Hu. discriminate.
Qed.

Lemma getUser_in db username user :
  getUser db username = Some user ->
  In user (users db) /\ u_username user = username.
Proof.
  unfold getUser. intros Hfind.
  apply find_some in Hfind as [Hin Heq].
  split; [exact Hin | apply String.eqb_eq, Heq].
Qed.

Lemma fold_max_bound (base : Z) (l : list Z) :
  base <= fold_right Z.max base l /\
  forall x, In x l -> x <= fold_right Z.max base l.
Proof.
  induction l as [|y l [IHb IHl]]; simpl.
  - split; [lia | intros x []].
  - split; [lia|]. intros x [<-|Hx]; [lia|].
    specialize (IHl x Hx). lia.
Qed.

(** The id [createUser] hands out is above every id in use. *)
Lemma next_user_id_above db x :
  In x (map u_id (users db)) -> x < next_user_id db.
Proof.
  intros Hx. unfold next_user_id.
  destruct (fold_max_bound (Z.max 0 (users_seq db)) (map u_id (users db)))
    as [_ Hall].
  specialize (Hall x Hx). lia.
Qed.

Lemma ListNoDup_snoc {A} (l : list A) (x : A) :
  List.NoDup l -> ~ In x l -> List.NoDup (l ++ [x]).
Proof.
  intros Hl Hx. induction Hl as [|y l Hy Hl IH]; simpl.
  - constructor; [intros [] | constructor].
  - constructor.
    + rewrite in_app_iff. intros [Hin | [<- | []]]; [exact (Hy Hin)|].
      apply Hx. left. reflexivity.
    + apply IH. intros Hin. apply Hx. right. exact Hin.
Qed.

Lemma createUser_constraints db username user db' :
  schema_constraints db ->
  createUser db username = Returned (user, db') ->
  schema_constraints db'.
Proof.
  intros (Hids & Hnames & Hcreds & Hfk). unfold createUser.
  destruct (getUser db username) eqn:Hget; [discriminate|].
  intros Hret. injection Hret as <- <-.
  unfold schema_constraints. cbn [users passkeys u_id]. rewrite !map_app.
  cbn [map u_id u_username].
  split; [|split; [|split]].
  - apply ListNoDup_snoc; [exact Hids|].
    intros Hin. apply next_user_id_above in Hin. lia.
  - apply ListNoDup_snoc; [exact Hnames|]. apply getUser_not_in, Hget.
  - exact Hcreds.
  - eapply Forall_impl; [exact Hfk|]. intros r Hr.
    apply in_app_iff. left. exact Hr.
Qed.

Lemma has_cred_not_in db credId :
  has_cred db credId = false -> ~ In credId (map cred_id (passkeys db)).
Proof.
  unfold has_cred. intros Hnone Hin.
  apply in_map_iff in Hin as (r & Hid & Hr).
  assert (Hex : existsb (fun r => String.eqb (cred_id r) credId)
                  (passkeys db) = true).
  { apply existsb_exists. exists r. split; [exact Hr|].
    rewrite Hid. apply String.eqb_refl. }
  congruence.
Qed.

Lemma savePasskey_constraints db passkey db' :
  schema_constraints db ->
  In (u_id (pk_user passkey)) (map u_id (users db)) ->
  savePasskey db passkey = Returned db' ->
  schema_constraints db'.
Proof.
  intros (Hids & Hnames & Hcreds & Hfk) Huser. unfold savePasskey.
  destruct (pk_webAuthnUserID passkey); [|discriminate].
  destruct (has_cred db (pk_id passkey)) eqn:Hcred; [discriminate|].
  destruct (has_user db (u_id (pk_user passkey))); [|discriminate].
  intros Hret. injection Hret as <-.
  unfold schema_constraints. cbn [users passkeys]. rewrite map_app.
  cbn [map cred_id].
  split; [exact Hids|]. split; [exact Hnames|]. split.
  - apply ListNoDup_snoc; [exact Hcreds | apply has_cred_not_in, Hcred].
  - apply Forall_app. split; [exact Hfk|].
    constructor; [exact Huser | constructor].
Qed.

Lemma updatePasskeyCounter_constraints db credId newCounter :
  schema_constraints db ->
  schema_constraints (updatePasskeyCounter db credId newCounter).
Proof.
  intros (Hids & Hnames & Hcreds & Hfk).
  unfold schema_constraints, updatePasskeyCounter. cbn [users passkeys].
  split; [exact Hids|]. split; [exact Hnames|]. split.
  - rewrite map_map.
    rewrite (map_ext _ cred_id); [exact Hcreds|].
    intros r. destruct (String.eqb (cred_id r) credId); reflexivity.
  - apply Forall_map. eapply Forall_impl; [exact Hfk|].
    intros r Hr. destruct (String.eqb (cred_id r) credId); exact Hr.
Qed.

Lemma update_blob_reference_constraints db userId blobKey nonce :
  schema_constraints db ->
  schema_constraints (update_blob_reference db userId blobKey nonce).
Proof.
  intros (Hids & Hnames & Hcreds & Hfk).
  unfold schema_constraints, update_blob_reference. cbn [users passkeys].
  rewrite !map_map.
  rewrite (map_ext (fun u => u_id _) u_id)
    by (intros u; destruct (Z.eqb (u_id u) userId); reflexivity).
  rewrite (map_ext (fun u => u_username _) u_username)
    by (intros u; destruct (Z.eqb (u_id u) userId); reflexivity).
  repeat split; assumption.
Qed.

Lemma saveUserPrfSalt_constraints db userId prfSalt :
  schema_constraints db ->
  schema_constraints (saveUserPrfSalt db userId prfSalt).
Proof.
  intros (Hids & Hnames & Hcreds & Hfk).
  unfold schema_constraints, saveUserPrfSalt. cbn [users passkeys].
  rewrite !map_map.
  rewrite (map_ext (fun u => u_id _) u_id)
    by (intros u; destruct (Z.eqb (u_id u) userId); reflexivity).
  rewrite (map_ext (fun u => u_username _) u_username)
    by (intros u; destruct (Z.eqb (u_id u) userId); reflexivity).
  repeat split; assumption.
Qed.

(** One request keeps the constraints. *)
Lemma handle_constraints `{SimpleWebAuthn} `{Platform} (r : Request)
  (s : Server) :
  schema_constraints (DB s) -> schema_constraints (DB (snd (handle r s))).
Proof.
  intros Hs. destruct r; simpl.
  - unfold generate_registration_options.
    destruct (getUser (DB s) username) eqn:Hu; simpl; [exact Hs|].
    destruct (createUser_returns _ _ Hu) as (user & db' & Hc).
    rewrite Hc. simpl. eapply createUser_constraints; eassumption.
  - unfold verify_registration.
    destruct (challenges s !! username) as [ch|]; [|exact Hs].
    destruct (String.eqb ch ""); [exact Hs|].
    destruct (getUser (DB s) username) as [user|] eqn:Hu; [|exact Hs].
    destruct (verifyRegistrationResponse _ _ _ _) as [[v [info|]]|e];
      try exact Hs; destruct v; try exact Hs.
    cbn [vr_verified vr_registrationInfo].
    match goal with
    | |- context [savePasskey ?d ?p] =>
        destruct (savePasskey d p) as [db'|e] eqn:Hsave; [|exact Hs]
    end.
    simpl. eapply savePasskey_constraints; [exact Hs| |exact Hsave].
    simpl. apply in_map. apply (getUser_in _ _ _ Hu).
  - unfold generate_authentication_options.
    handler_cases; exact Hs.
  - unfold verify_authentication.
    handler_cases; try exact Hs.
    apply updatePasskeyCounter_constraints, Hs.
  - unfold store_blob.
    destruct (getUser (DB s) username); [|exact Hs].
    destruct (atob encryptedBlob); [|exact Hs].
    destruct nonce as [nonce|]; [|exact Hs].
    apply update_blob_reference_constraints, Hs.
  - unfold retrieve_blob.
    destruct (getUser (DB s) username); [|exact Hs].
    destruct (getUserBlobReference _ _) as [[[k|] n]|]; try exact Hs.
    destruct (String.eqb k ""); [exact Hs|].
    destruct (R2_BUCKET s !! k); [|exact Hs].
    destruct (fromCharCodes _ _); exact Hs.
  - unfold save_prf_salt. handler_cases; try exact Hs.
    apply saveUserPrfSalt_constraints, Hs.
  - unfold get_prf_salt. handler_cases; exact Hs.
  - unfold check_blob. handler_cases; exact Hs.
Qed.

Lemma run_constraints `{SimpleWebAuthn} `{Platform} (rs : list Request)
  (s : Server) :
  schema_constraints (DB s) -> schema_constraints (DB (run rs s)).
Proof.
  revert s. induction rs as [|r rs IH]; intros s Hs; cbn [run].
  - exact Hs.
  - apply IH, handle_constraints, Hs.
Qed.

(** ** [join] and [split] on the [transports] column *)

Lemma string_app_cons (a : ascii) (t r : string) :
  String a t ++ r = String a (t ++ r).
Proof. reflexivity. Qed.

Lemma rev_app_rev_app (t c d : string) :
  String.rev_app (String.rev_app t c) d = String.rev_app c (t ++ d).
Proof.
  revert c. induction t as [|a t IH]; intros c; [reflexivity|].
  rewrite string_app_cons. simpl. rewrite IH. reflexivity.
Qed.

Lemma string_app_empty (t : string) : t ++ "" = t.
Proof.
  induction t as [|a t IH]; [reflexivity|].
  rewrite string_app_cons, IH. reflexivity.
Qed.

Lemma rev_rev_app (t : string) : String.rev (String.rev_app t "") = t.
Proof.
  unfold String.rev. rewrite rev_app_rev_app. simpl. apply string_app_empty.
Qed.

Lemma comma_free_cons (a : ascii) (t : string) :
  comma_free (String a t) = true ->
  Ascii.eqb a "," = false /\ comma_free t = true.
Proof.
  unfold comma_free. simpl. destruct (Ascii.eqb a ","); simpl.
  - discriminate.
  - intros Ht. split; [reflexivity | exact Ht].
Qed.

(** A field without a comma is read up to its end. *)
Lemma split_comma_go_field (t rest cur : string) :
  comma_free t = true ->
  split_comma_go (t ++ rest) cur
  = split_comma_go rest (String.rev_app t cur).
Proof.
  revert cur. induction t as [|a t IH]; intros cur Hfree.
  - reflexivity.
  - apply comma_free_cons in Hfree as [Ha Ht].
    rewrite string_app_cons. simpl. rewrite Ha. apply IH, Ht.
Qed.

Lemma split_comma_join_comma (ts : list string) :
  ts <> [] -> forallb comma_free ts = true ->
  split_comma (join_comma ts) = ts.
Proof.
  induction ts as [|t ts IH]; intros Hne Hfree; [congruence|].
  simpl in Hfree. apply andb_true_iff in Hfree as [Ht Hts].
  destruct ts as [|t2 ts].
  - simpl. unfold split_comma.
    replace (split_comma_go t "") with (split_comma_go (t ++ "") "")
      by (rewrite string_app_empty; reflexivity).
    rewrite split_comma_go_field by exact Ht. simpl.
    rewrite rev_rev_app. reflexivity.
  - change (join_comma (t :: t2 :: ts))
      with (t ++ String "," (join_comma (t2 :: ts))).
    unfold split_comma. rewrite split_comma_go_field by exact Ht.
    cbn [split_comma_go]. rewrite Ascii.eqb_refl, rev_rev_app.
    f_equal. apply IH; [discriminate | exact Hts].
Qed.

Lemma split_comma_go_length (s cur : string) :
  length (split_comma_go s cur) = S (commas s).
Proof.
  revert cur. induction s as [|c s IH]; intros cur; simpl; [reflexivity|].
  destruct (Ascii.eqb c ","); simpl; rewrite IH; reflexivity.
Qed.

Lemma commas_app (a b : string) :
  commas (a ++ b) = (commas a + commas b)%nat.
Proof.
  induction a as [|c a IH]; [reflexivity|].
  rewrite string_app_cons. simpl. rewrite IH. lia.
Qed.

Lemma comma_free_commas (t : string) :
  comma_free t = false -> (0 < commas t)%nat.
Proof.
  unfold comma_free. induction t as [|c t IH]; simpl; [discriminate|].
  destruct (Ascii.eqb c ","); simpl; [lia|]. intros Ht.
  specialize (IH Ht). lia.
Qed.

Lemma commas_join_comma (ts : list string) :
  (length ts <= S (commas (join_comma ts)))%nat /\
  (forallb comma_free ts = false ->
   (length ts <= commas (join_comma ts))%nat).
Proof.
  induction ts as [|t ts [IHle IHlt]]; [split; [simpl; lia | discriminate]|].
  destruct ts as [|t2 ts].
  - simpl. split; [lia|]. rewrite andb_true_r. intros Ht.
    apply comma_free_commas in Ht. lia.
  - change (join_comma (t :: t2 :: ts))
      with (t ++ String "," (join_comma (t2 :: ts))).
    rewrite commas_app. cbn [commas]. rewrite Ascii.eqb_refl.
    cbn [length] in *. split; [lia|].
    change (forallb comma_free (t :: t2 :: ts))
      with (comma_free t && forallb comma_free (t2 :: ts)).
    intros Hfree. apply andb_false_iff in Hfree as [Ht | Hts].
    + apply comma_free_commas in Ht. lia.
    + specialize (IHlt Hts). lia.
Qed.

(** What went into the [transports] column comes back as it was exactly
    when [storable_transports] holds. *)
Lemma transports_column_round_trip (o : option (list string)) :
  (if truthy (option_map join_comma o)
   then option_map split_comma (option_map join_comma o) else None) = o
  <-> storable_transports o = true.
Proof.
  destruct o as [ts|]; simpl; [|split; reflexivity].
  destruct (String.eqb (join_comma ts) "") eqn:Hempty; simpl.
  - split; discriminate.
  - split.
    + intros Heq. injection Heq as Heq.
      destruct (forallb comma_free ts) eqn:Hfree; [reflexivity|].
      exfalso. apply (f_equal (@length string)) in Heq.
      unfold split_comma in Heq. rewrite split_comma_go_length in Heq.
      destruct (commas_join_comma ts) as [_ Hlt]. specialize (Hlt Hfree).
      lia.
    + intros Hfree. f_equal. apply split_comma_join_comma; [|exact Hfree].
      intros ->. discriminate.
Qed.

(** ** Rows and the objects built from them *)

Lemma userById_has_user db userId user :
  userById db userId = Some user -> has_user db userId = true.
Proof.
  unfold userById, has_user. intros Hfind.
  apply find_some in Hfind as [Hin Heq].
  apply existsb_exists. exists user. split; assumption.
Qed.

Lemma getUser_has_user db username user :
  getUser db username = Some user -> has_user db (u_id user) = true.
Proof.
  unfold getUser, has_user. intros Hfind.
  apply find_some in Hfind as [Hin _].
  apply existsb_exists. exists user. split; [exact Hin | apply Z.eqb_refl].
Qed.

Lemma userById_in db user :
  List.NoDup (map u_id (users db)) -> In user (users db) ->
  userById db (u_id user) = Some user.
Proof.
  unfold userById. induction (users db) as [|u l IH]; intros Hnd Hin.
  - destruct Hin.
  - simpl in Hnd. inversion Hnd as [|? ? Hu Hl]; subst.
    simpl. destruct (Z.eqb (u_id u) (u_id user)) eqn:Heq.
    + destruct Hin as [-> | Hin]; [reflexivity|].
      exfalso. apply Hu. apply Z.eqb_eq in Heq. rewrite Heq.
      apply in_map, Hin.
    + destruct Hin as [-> | Hin]; [rewrite Z.eqb_refl in Heq; discriminate|].
      apply IH; assumption.
Qed.

(** Under the constraints of the schema, the row found by name is the
    row found by its id. *)
Lemma getUser_row db username user :
  schema_constraints db -> getUser db username = Some user ->
  userById db (u_id user) = Some user.
Proof.
  intros (Hids & _) Hget. apply userById_in; [exact Hids|].
  apply (getUser_in _ _ _ Hget).
Qed.

Lemma find_snoc_new {A} (p : A -> bool) (l : list A) (x : A) :
  List.find p l = None -> p x = true -> List.find p (l ++ [x]) = Some x.
Proof.
  induction l as [|y l IH]; simpl; intros Hnone Hx.
  - rewrite Hx. reflexivity.
  - destruct (p y); [discriminate|]. apply IH; assumption.
Qed.

Lemma find_snoc_other {A} (p : A -> bool) (l : list A) (x : A) :
  p x = false -> List.find p (l ++ [x]) = List.find p l.
Proof.
  intros Hx. induction l as [|y l IH]; simpl.
  - rewrite Hx. reflexivity.
  - destruct (p y); [reflexivity | exact IH].
Qed.

Lemma has_cred_find db credId :
  has_cred db credId = false ->
  List.find (fun r => String.eqb (cred_id r) credId) (passkeys db) = None.
Proof.
  unfold has_cred. induction (passkeys db) as [|r l IH]; simpl.
  - reflexivity.
  - destruct (String.eqb (cred_id r) credId); simpl; [discriminate|exact IH].
Qed.

(** X2. A passkey that [savePasskey] stored is what [getPasskeyById]
    returns under its id, field by field, with two exceptions:
    [webAuthnUserID] comes back undefined (the row is read under the
    name [webauthn_user_id], the column is [webAuthn_user_id]), and the
    transports come back as they were exactly when they are absent, or
    are a list whose joined form is not empty and whose members have no
    comma. Every other id answers as before. *)
Theorem savePasskey_then_getPasskeyById (db db' : D1Database)
  (passkey : Passkey) :
  savePasskey db passkey = Returned db' ->
  userById db (u_id (pk_user passkey)) = Some (pk_user passkey) ->
  (exists got,
      getPasskeyById db' (pk_id passkey) = Some got /\
      pk_id got = pk_id passkey /\
      pk_publicKey got = pk_publicKey passkey /\
      pk_user got = pk_user passkey /\
      pk_counter got = pk_counter passkey /\
      pk_deviceType got = pk_deviceType passkey /\
      pk_backedUp got = pk_backedUp passkey /\
      pk_webAuthnUserID got = None /\
      (pk_transports got = pk_transports passkey
       <-> storable_transports (pk_transports passkey) = true)) /\
  (forall credId, credId <> pk_id passkey ->
                  getPasskeyById db' credId = getPasskeyById db credId).
Proof.
  unfold savePasskey. intros Hsave Huser.
  destruct (pk_webAuthnUserID passkey) as [handle|]; [|discriminate].
  destruct (has_cred db (pk_id passkey)) eqn:Hcred; [discriminate|].
  rewrite (userById_has_user _ _ _ Huser) in Hsave. cbn [negb] in Hsave.
  injection Hsave as <-. split.
  - unfold getPasskeyById. cbn [passkeys].
    rewrite (find_snoc_new _ _ _ (has_cred_find _ _ Hcred))
      by (cbn [cred_id]; apply String.eqb_refl).
    cbn [internal_user_id]. unfold userById in *. cbn [users].
    rewrite Huser. eexists. split; [reflexivity|].
    unfold passkey_of_row.
    cbn [pk_id pk_publicKey pk_user pk_counter pk_deviceType pk_backedUp
         pk_webAuthnUserID pk_transports cred_id cred_public_key counter
         backup_eligible backup_status transports].
    repeat (split; [reflexivity|]).
    split; [destruct (pk_deviceType passkey); reflexivity|].
    repeat (split; [reflexivity|]).
    exact (transports_column_round_trip (pk_transports passkey)).
  - intros credId Hother. unfold getPasskeyById. cbn [passkeys].
    rewrite find_snoc_other.
    + reflexivity.
    + cbn [cred_id]. apply String.eqb_neq. congruence.
Qed.

(** X2 on the demo tables: bob stores a passkey with two transports. *)
Lemma savePasskey_then_getPasskeyById_witness :
  let passkey :=
    mkPasskey "new-key" [] bob (Some "2") 0 multiDevice true
      (Some ["internal"; "hybrid"]) in
  exists db',
    savePasskey demo_db passkey = Returned db' /\
    (exists got,
        getPasskeyById db' "new-key" = Some got /\
        pk_deviceType got = multiDevice /\
        pk_webAuthnUserID got = None /\
        (pk_transports got = Some ["internal"; "hybrid"]
         <-> storable_transports (Some ["internal"; "hybrid"]) = true)).
Proof.
  cbv zeta. eexists. split; [reflexivity|].
  destruct (savePasskey_then_getPasskeyById demo_db _
              (mkPasskey "new-key" [] bob (Some "2") 0 multiDevice true
                 (Some ["internal"; "hybrid"]))
              eq_refl eq_refl)
    as [(got & Hget & _ & _ & _ & _ & Hdev & _ & Hid & Htr) _].
  exists got. repeat split; try assumption; apply Htr; assumption.
Defined.

(** ** [getPasskey] and [getUserPasskeys] *)

Lemma find_head_filter {A} (p : A -> bool) (l : list A) :
  List.find p l = head (List.filter p l).
Proof.
  induction l as [|x l IH]; simpl; [reflexivity|].
  destruct (p x); [reflexivity | exact IH].
Qed.

(** X3. [getPasskey] returns the first of the passkeys
    [getUserPasskeys] lists for a user whose row is the object passed
    in, and returns nothing exactly when no row of [passkeys] belongs
    to the user. Every passkey [getUserPasskeys] lists carries the
    user's row and belongs to the user. *)
Theorem getPasskey_first_of_getUserPasskeys (db : D1Database) (user : User) :
  userById db (u_id user) = Some user ->
  getPasskey db user = head (getUserPasskeys db (u_id user)) /\
  (getPasskey db user = None <->
   Forall (fun r => internal_user_id r <> u_id user) (passkeys db)) /\
  Forall (fun p => pk_user p = user /\
                   exists r, In r (passkeys db) /\
                             internal_user_id r = u_id user /\
                             cred_id r = pk_id p)
    (getUserPasskeys db (u_id user)).
Proof.
  intros Huser. unfold getPasskey, getUserPasskeys. rewrite Huser.
  split; [|split].
  - rewrite find_head_filter.
    destruct (List.filter _ (passkeys db)); reflexivity.
  - split.
    + intros Hnone.
      destruct (List.find _ (passkeys db)) eqn:Hfind; [discriminate|].
      apply List.Forall_forall. intros r Hr.
      apply (find_none _ _ Hfind) in Hr. simpl in Hr.
      apply Z.eqb_neq, Hr.
    + intros Hall.
      destruct (List.find _ (passkeys db)) as [r|] eqn:Hfind; [|reflexivity].
      apply find_some in Hfind as [Hin Heq].
      rewrite List.Forall_forall in Hall. specialize (Hall r Hin).
      apply Z.eqb_eq in Heq. contradiction.
  - apply List.Forall_forall. intros p Hp.
    apply in_map_iff in Hp as (r & <- & Hr).
    apply filter_In in Hr as [Hin Heq].
    split; [reflexivity|]. exists r. repeat split.
    + exact Hin.
    + apply Z.eqb_eq, Heq.
Qed.

(** X3 on the demo tables, for bob. *)
Lemma getPasskey_first_of_getUserPasskeys_witness :
  getPasskey demo_db bob = head (getUserPasskeys demo_db (u_id bob)) /\
  (getPasskey demo_db bob = None <->
   Forall (fun r => internal_user_id r <> u_id bob) (passkeys demo_db)) /\
  Forall (fun p => pk_user p = bob /\
                   exists r, In r (passkeys demo_db) /\
                             internal_user_id r = u_id bob /\
                             cred_id r = pk_id p)
    (getUserPasskeys demo_db (u_id bob)).
Proof.
  apply (getPasskey_first_of_getUserPasskeys demo_db bob). reflexivity.
Defined.

(** * More of the code: the endpoints *)

(** ** Rows after an UPDATE of [users] *)

Lemma getUser_saveUserPrfSalt db userId prfSalt username :
  getUser (saveUserPrfSalt db userId prfSalt) username
  = option_map
      (fun u => if Z.eqb (u_id u) userId
                then mkUser (u_id u) (u_username u) (Some prfSalt)
                       (u_encrypted_blob_key u) (u_blob_nonce u)
                else u)
      (getUser db username).
Proof.
  unfold getUser, saveUserPrfSalt. cbn [users]. apply find_map_same.
  intros u. destruct (Z.eqb (u_id u) userId); reflexivity.
Qed.

Lemma userById_saveUserPrfSalt db userId prfSalt i :
  userById (saveUserPrfSalt db userId prfSalt) i
  = option_map
      (fun u => if Z.eqb (u_id u) userId
                then mkUser (u_id u) (u_username u) (Some prfSalt)
                       (u_encrypted_blob_key u) (u_blob_nonce u)
                else u)
      (userById db i).
Proof.
  unfold userById, saveUserPrfSalt. cbn [users]. apply find_map_same.
  intros u. destruct (Z.eqb (u_id u) userId); reflexivity.
Qed.

Lemma getUser_update_blob_reference_row db userId blobKey nonce username :
  getUser (update_blob_reference db userId blobKey nonce) username
  = option_map
      (fun u => if Z.eqb (u_id u) userId
                then mkUser (u_id u) (u_username u) (u_prf_salt u)
                       (Some blobKey) (Some nonce)
                else u)
      (getUser db username).
Proof.
  unfold getUser, update_blob_reference. cbn [users]. apply find_map_same.
  intros u. destruct (Z.eqb (u_id u) userId); reflexivity.
Qed.

Lemma userById_update_blob_reference db userId blobKey nonce i :
  userById (update_blob_reference db userId blobKey nonce) i
  = option_map
      (fun u => if Z.eqb (u_id u) userId
                then mkUser (u_id u) (u_username u) (u_prf_salt u)
                       (Some blobKey) (Some nonce)
                else u)
      (userById db i).
Proof.
  unfold userById, update_blob_reference. cbn [users]. apply find_map_same.
  intros u. destruct (Z.eqb (u_id u) userId); reflexivity.
Qed.

Lemma userById_id db i row : userById db i = Some row -> u_id row = i.
Proof.
  unfold userById. intros Hfind. apply find_some in Hfind as [_ Heq].
  apply Z.eqb_eq, Heq.
Qed.

(** Two names that are not the same name are rows with two ids. *)
Lemma distinct_names_distinct_ids db a b ua ub :
  schema_constraints db ->
  getUser db a = Some ua -> getUser db b = Some ub -> a <> b ->
  u_id ua <> u_id ub.
Proof.
  intros Hsc Ha Hb Hne Hid.
  pose proof (getUser_row _ _ _ Hsc Ha) as Hra.
  pose proof (getUser_row _ _ _ Hsc Hb) as Hrb.
  rewrite Hid, Hrb in Hra. injection Hra as ->.
  apply getUser_in in Ha as [_ Hna]. apply getUser_in in Hb as [_ Hnb].
  congruence.
Qed.

(** ** /generate-registration-options and the [users] table *)


(** ** /save-prf-salt and /get-prf-salt *)

(** X5. The salt posted to /save-prf-salt for a user that exists is
    what /get-prf-salt then answers for that user, except that the
    empty string is answered as [null]; and under the constraints of
    the schema the answer for every other name is what it was. *)
Theorem save_prf_salt_then_get_prf_salt (username prfSalt : string)
  (s : Server) (user : User) :
  getUser (DB s) username = Some user ->
  let s' := snd (save_prf_salt username prfSalt s) in
  fst (save_prf_salt username prfSalt s) = json JSuccess /\
  fst (get_prf_salt username s')
  = json (JPrfSalt (if String.eqb prfSalt "" then None else Some prfSalt)) /\
  (schema_constraints (DB s) ->
   forall other, other <> username ->
                 fst (get_prf_salt other s') = fst (get_prf_salt other s)).
Proof.
  intros Hu. cbv zeta. unfold save_prf_salt. rewrite Hu. cbn [fst snd].
  split; [reflexivity|]. split.
  - unfold get_prf_salt. cbn [DB].
    rewrite getUser_saveUserPrfSalt, Hu. cbn [option_map].
    rewrite Z.eqb_refl. cbn [fst u_id].
    unfold getUserPrfSalt. rewrite userById_saveUserPrfSalt.
    destruct (getUser_userById _ _ _ Hu) as (row & Hrow & Hid).
    rewrite Hrow. cbn [option_map]. rewrite Hid, Z.eqb_refl.
    cbn [u_prf_salt truthy].
    destruct (String.eqb prfSalt ""); reflexivity.
  - intros Hsc other Hother. unfold get_prf_salt. cbn [DB].
    rewrite getUser_saveUserPrfSalt.
    destruct (getUser (DB s) other) as [o|] eqn:Ho; [|reflexivity].
    pose proof (distinct_names_distinct_ids _ _ _ _ _ Hsc Ho Hu Hother)
      as Hid.
    cbn [option_map]. apply Z.eqb_neq in Hid. rewrite Hid. cbn [fst].
    unfold getUserPrfSalt. rewrite userById_saveUserPrfSalt.
    rewrite (getUser_row _ _ _ Hsc Ho). cbn [option_map]. rewrite Hid.
    reflexivity.
Qed.

Lemma demo_db_constraints : schema_constraints demo_db.
Proof.
  unfold schema_constraints, demo_db. cbn [users passkeys map u_id u_username
    cred_id internal_user_id alice bob].
  split; [|split; [|split]].
  - repeat (constructor; [simpl; intuition discriminate|]). constructor.
  - repeat (constructor; [simpl; intuition discriminate|]). constructor.
  - repeat (constructor; [simpl; intuition discriminate|]). constructor.
  - repeat (apply List.Forall_cons; [simpl; auto|]). apply List.Forall_nil.
Qed.

(** X5 on the demo tables: bob, who has no salt, posts one. *)
Lemma save_prf_salt_then_get_prf_salt_witness :
  let s' := snd (save_prf_salt "bob" "c2FsdC10d28" demo_server) in
  fst (get_prf_salt "bob" demo_server) = json (JPrfSalt None) /\
  fst (get_prf_salt "bob" s') = json (JPrfSalt (Some "c2FsdC10d28")) /\
  fst (get_prf_salt "alice" s') = fst (get_prf_salt "alice" demo_server).
Proof.
  cbv zeta.
  destruct (save_prf_salt_then_get_prf_salt "bob" "c2FsdC10d28" demo_server
              bob eq_refl) as (_ & Hget & Hother).
  split; [reflexivity|]. split; [exact Hget|].
  apply (Hother demo_db_constraints). discriminate.
Defined.

(** ** /store-blob, /retrieve-blob and /check-blob *)



(** ** What a request touches *)

Lemma savePasskey_users db passkey db' :
  savePasskey db passkey = Returned db' ->
  users db' = users db /\ users_seq db' = users_seq db /\
  exists row, passkeys db' = (passkeys db ++ [row])%list.
Proof.
  unfold savePasskey. destruct (pk_webAuthnUserID passkey); [|discriminate].
  destruct (has_cred db (pk_id passkey)); [discriminate|].
  destruct (has_user db (u_id (pk_user passkey))); [|discriminate].
  intros Hret. injection Hret as <-. cbn [users users_seq passkeys]. eauto.
Qed.

Lemma verify_registration_footprint `{SimpleWebAuthn} username response s :
  let r := verify_registration username response s in
  (status (fst r) <> 200 -> snd r = s) /\
  R2_BUCKET (snd r) = R2_BUCKET s /\
  users (DB (snd r)) = users (DB s) /\
  users_seq (DB (snd r)) = users_seq (DB s).
Proof.
  cbv zeta. unfold verify_registration.
  destruct (challenges s !! username) as [ch|]; [|repeat split].
  destruct (String.eqb ch ""); [repeat split|].
  destruct (getUser (DB s) username) as [user|]; [|repeat split].
  destruct (verifyRegistrationResponse _ _ _ _) as [[v [info|]]|e];
    try (repeat split; fail); destruct v; try (repeat split; fail).
  cbn [vr_verified vr_registrationInfo].
  match goal with
  | |- context [savePasskey ?d ?p] =>
      destruct (savePasskey d p) as [db'|e] eqn:Hsave; [|repeat split]
  end.
  apply savePasskey_users in Hsave as (Hus & Hseq & _).
  cbn [fst snd json status DB R2_BUCKET].
  repeat split; try assumption. intros Hst. exfalso. apply Hst. reflexivity.
Qed.

(** What /store-blob leaves for a user that exists and a blob that is
    base64. *)
Lemma store_blob_value (username encryptedBlob : string)
  (nonce : option string) (s : Server) (user : User) (binary : string) :
  getUser (DB s) username = Some user ->
  atob encryptedBlob = Returned binary ->
  store_blob username encryptedBlob nonce s
  = match nonce with
    | Some posted =>
        (json (JStored (blob_key user)),
         mkServer
           (update_blob_reference (DB s) (u_id user) (blob_key user) posted)
           (<[blob_key user := charCodes binary]> (R2_BUCKET s))
           (challenges s))
    | None =>
        (json_status (JError d1_type_error) 500,
         mkServer (DB s)
           (<[blob_key user := charCodes binary]> (R2_BUCKET s))
           (challenges s))
    end.
Proof.
  intros Hu Hblob. unfold store_blob. rewrite Hu, Hblob.
  destruct nonce; reflexivity.
Qed.

(** /retrieve-blob and the other reads leave the state as it is. *)
Lemma retrieve_blob_state `{Platform} username s :
  snd (retrieve_blob username s) = s.
Proof.
  unfold retrieve_blob.
  destruct (getUser (DB s) username); [|reflexivity].
  destruct (getUserBlobReference _ _) as [[[k|] n]|]; try reflexivity.
  destruct (String.eqb k ""); [reflexivity|].
  destruct (R2_BUCKET s !! k); [|reflexivity].
  destruct (fromCharCodes _ _); reflexivity.
Qed.

(** What one request can touch. *)
Lemma handle_footprint `{SimpleWebAuthn} `{Platform} (r : Request)
  (s : Server) :
  let s' := snd (handle r s) in
  (status (fst (handle r s)) <> 200 ->
   DB s' = DB s /\ challenges s' = challenges s /\
   (store_without_nonce r = false -> s' = s)) /\
  (writes_bucket r = false -> R2_BUCKET s' = R2_BUCKET s) /\
  (writes_passkeys r = false -> passkeys (DB s') = passkeys (DB s)) /\
  (writes_challenges r = false -> challenges s' = challenges s) /\
  (writes_users r = false -> users (DB s') = users (DB s)) /\
  (writes_bucket r || writes_passkeys r || writes_challenges r
   || writes_users r = false -> s' = s).
Proof.
  cbv zeta.
  destruct r; cbn [handle writes_bucket writes_passkeys writes_challenges
                   writes_users orb store_without_nonce].
  - unfold generate_registration_options, createUser.
    destruct (getUser (DB s) username); cbn [fst snd json status];
      (split; [intros Hst; exfalso; apply Hst; reflexivity|]);
      repeat split; intros; try discriminate; reflexivity.
  - destruct (verify_registration_footprint username response s)
      as (Herr & Hr2 & Hus & _).
    split; [intros Hst; rewrite (Herr Hst); repeat split|].
    repeat split; intros; try discriminate; auto.
  - unfold generate_authentication_options.
    destruct (getUser (DB s) username);
      [|repeat split; intros; reflexivity].
    destruct (length _ =? 0)%nat; [repeat split; intros; reflexivity|].
    cbn [fst snd json status].
    split; [intros Hst; exfalso; apply Hst; reflexivity|].
    repeat split; intros; try discriminate; reflexivity.
  - unfold verify_authentication.
    destruct (challenges s !! username) as [ch|];
      [|repeat split; intros; reflexivity].
    destruct (String.eqb ch ""); [repeat split; intros; reflexivity|].
    destruct (getUser (DB s) username);
      [|repeat split; intros; reflexivity].
    destruct (getPasskeyById (DB s) (ar_id response));
      [|repeat split; intros; reflexivity].
    destruct (verifyAuthenticationResponse _ _ _ _ _) as [v|e];
      [|repeat split; intros; reflexivity].
    destruct (va_verified v); [|repeat split; intros; reflexivity].
    cbn [fst snd json status].
    split; [intros Hst; exfalso; apply Hst; reflexivity|].
    repeat split; intros; try discriminate; reflexivity.
  - unfold store_blob.
    destruct (getUser (DB s) username);
      [|repeat split; intros; reflexivity].
    destruct (atob encryptedBlob); [|repeat split; intros; reflexivity].
    destruct nonce as [posted|];
      cbn [saveUserBlobReference fst snd json json_status status DB challenges].
    + split; [intros Hst; exfalso; apply Hst; reflexivity|].
      repeat split; intros; try discriminate; reflexivity.
    + repeat split; intros; try discriminate; reflexivity.
  - rewrite retrieve_blob_state. repeat split; intros; reflexivity.
  - unfold save_prf_salt.
    destruct (getUser (DB s) username);
      [|repeat split; intros; reflexivity].
    cbn [fst snd json status].
    split; [intros Hst; exfalso; apply Hst; reflexivity|].
    repeat split; intros; try discriminate; reflexivity.
  - unfold get_prf_salt.
    destruct (getUser (DB s) username); repeat split; intros; reflexivity.
  - unfold check_blob.
    destruct (getUser (DB s) username); repeat split; intros; reflexivity.
Qed.

Lemma run_keeps `{SimpleWebAuthn} `{Platform} {A} (writes : Request -> bool)
  (view : Server -> A) (rs : list Request) (s : Server) :
  (forall r s0, writes r = false -> view (snd (handle r s0)) = view s0) ->
  Forall (fun r => writes r = false) rs ->
  view (run rs s) = view s.
Proof.
  intros Hone Hall. revert s.
  induction Hall as [|r rs Hr _ IH]; intros s; cbn [run]; [reflexivity|].
  rewrite IH. apply Hone, Hr.
Qed.



(** ** The blob references *)

Lemma blob_references_sound_same (s s' : Server) :
  users (DB s') = users (DB s) -> R2_BUCKET s' = R2_BUCKET s ->
  blob_references_sound s -> blob_references_sound s'.
Proof.
  unfold blob_references_sound. intros -> ->. exact id.
Qed.

Lemma handle_blob_references `{SimpleWebAuthn} `{Platform} (r : Request)
  (s : Server) :
  blob_references_sound s -> blob_references_sound (snd (handle r s)).
Proof.
  intros Hs.
  destruct (handle_footprint r s) as (_ & Hr2 & _ & _ & Hus & _).
  cbv zeta in *.
  destruct r; cbn [handle writes_bucket writes_users] in *;
    try (apply (blob_references_sound_same s); auto; fail).
  - (* /generate-registration-options *)
    unfold generate_registration_options, createUser in *.
    destruct (getUser (DB s) username); cbn [snd] in *; [exact Hs|].
    unfold blob_references_sound in *. cbn [DB R2_BUCKET users] in *.
    apply Forall_app. split; [exact Hs|].
    constructor; [exact I | constructor].
  - (* /store-blob *)
    unfold store_blob.
    destruct (getUser (DB s) username) as [user|]; [|exact Hs].
    destruct (atob encryptedBlob); [|exact Hs].
    unfold blob_references_sound in *.
    destruct nonce as [posted|];
      cbn [snd DB R2_BUCKET users saveUserBlobReference update_blob_reference].
    + apply Forall_map. eapply Forall_impl; [exact Hs|].
      intros u Hu. cbn beta.
      destruct (Z.eqb (u_id u) (u_id user)) eqn:Hid.
      * cbn [u_encrypted_blob_key]. apply Z.eqb_eq in Hid. split.
        -- unfold blob_key. cbn [u_id]. rewrite Hid. reflexivity.
        -- rewrite lookup_insert_eq. eauto.
      * cbn beta in Hu. revert Hu.
        destruct (u_encrypted_blob_key u) as [k|]; [|exact id].
        intros [Hk Hobj]. split; [exact Hk|].
        apply lookup_insert_is_Some'. right. exact Hobj.
    + eapply Forall_impl; [exact Hs|].
      intros u Hu. cbn beta in *. revert Hu.
      destruct (u_encrypted_blob_key u) as [k|]; [|exact id].
      intros [Hk Hobj]. split; [exact Hk|].
      apply lookup_insert_is_Some'. right. exact Hobj.
  - (* /save-prf-salt *)
    unfold save_prf_salt in *.
    destruct (getUser (DB s) username) as [user|]; [|exact Hs].
    unfold blob_references_sound in *.
    cbn [snd DB R2_BUCKET users saveUserPrfSalt] in *.
    apply Forall_map. eapply Forall_impl; [exact Hs|].
    intros u Hu. cbn beta.
    destruct (Z.eqb (u_id u) (u_id user)); exact Hu.
Qed.

(** X8. The blob references stay sound: in every state the worker
    reaches from empty tables and an empty bucket, and after every
    request served from a state where this holds, a user's
    [encrypted_blob_key] is either NULL or the key made from the id of
    that very user, and the bucket holds an object under it. *)
Theorem blob_references_sound_invariant `{SimpleWebAuthn} `{Platform} :
  blob_references_sound empty_server /\
  (forall (s : Server) (rs : list Request),
      blob_references_sound s -> blob_references_sound (run rs s)) /\
  (forall rs : list Request, blob_references_sound (run rs empty_server)).
Proof.
  assert (Hempty : blob_references_sound empty_server) by constructor.
  assert (Hrun : forall (s : Server) (rs : list Request),
             blob_references_sound s -> blob_references_sound (run rs s)).
  { intros s rs. revert s. induction rs as [|r rs IH]; intros s Hs; simpl.
    - exact Hs.
    - apply IH, handle_blob_references, Hs. }
  split; [exact Hempty|]. split; [exact Hrun|].
  intros rs. apply Hrun, Hempty.
Qed.

Lemma string_app_inv_tail (a b t : string) : a ++ t = b ++ t -> a = b.
Proof.
  intros Heq. apply chars_injective.
  apply (f_equal list_ascii_of_string) in Heq.
  rewrite !chars_app in Heq. exact (app_inv_tail _ _ _ Heq).
Qed.

(** Two users with one blob key have one id. *)
Lemma blob_key_injective (a b : User) :
  blob_key a = blob_key b -> u_id a = u_id b.
Proof.
  unfold blob_key, toString. intros Heq.
  apply (String.app_inj "user-") in Heq.
  apply string_app_inv_tail in Heq.
  exact (pretty_Z_inj _ _ Heq).
Qed.

(** What /retrieve-blob answers for a user depends on the row of the
    user and on the object under the key in that row. *)
Lemma retrieve_blob_same `{Platform} (username : string) (s s' : Server)
  (user : User) :
  getUser (DB s') username = Some user ->
  getUser (DB s) username = Some user ->
  getUserBlobReference (DB s') (u_id user)
  = getUserBlobReference (DB s) (u_id user) ->
  (forall k, u_encrypted_blob_key user = Some k ->
             R2_BUCKET s' !! k = R2_BUCKET s !! k) ->
  (forall k n, getUserBlobReference (DB s) (u_id user) = Some (Some k, n) ->
               u_encrypted_blob_key user = Some k) ->
  fst (retrieve_blob username s') = fst (retrieve_blob username s).
Proof.
  intros Hu' Hu Href Hbucket Hkey. unfold retrieve_blob.
  rewrite Hu', Hu, Href.
  destruct (getUserBlobReference (DB s) (u_id user)) as [[[k|] n]|] eqn:Hr;
    try reflexivity.
  destruct (String.eqb k ""); [reflexivity|].
  rewrite (Hbucket k (Hkey k n eq_refl)).
  destruct (R2_BUCKET s !! k); [|reflexivity].
  destruct (fromCharCodes _ _); reflexivity.
Qed.

(** /store-blob for one user leaves the other users' blobs alone. *)
Lemma store_blob_other_user `{Platform} (username other encryptedBlob
  : string) (nonce : option string) (s : Server) :
  schema_constraints (DB s) -> blob_references_sound s ->
  other <> username ->
  let s' := snd (store_blob username encryptedBlob nonce s) in
  fst (retrieve_blob other s') = fst (retrieve_blob other s) /\
  fst (check_blob other s') = fst (check_blob other s) /\
  fst (get_prf_salt other s') = fst (get_prf_salt other s).
Proof.
  intros Hsc Hsound Hother. cbv zeta.
  destruct (getUser (DB s) username) as [user|] eqn:Hu.
  2:{ unfold store_blob. rewrite Hu. repeat split. }
  destruct (atob encryptedBlob) as [binary|e] eqn:Hblob.
  2:{ unfold store_blob. rewrite Hu, Hblob. repeat split. }
  rewrite (store_blob_value _ _ nonce _ _ _ Hu Hblob).
  destruct (getUser (DB s) other) as [o|] eqn:Ho.
  2:{ unfold retrieve_blob, check_blob, get_prf_salt.
      destruct nonce; cbn [snd DB];
        rewrite ?getUser_update_blob_reference_row, Ho; repeat split. }
  pose proof (distinct_names_distinct_ids _ _ _ _ _ Hsc Ho Hu Hother) as Hid.
  pose proof (getUser_row _ _ _ Hsc Ho) as Hrow.
  assert (Hne : forall k, u_encrypted_blob_key o = Some k ->
                          blob_key user <> k).
  { intros k Hk. unfold blob_references_sound in Hsound.
    rewrite List.Forall_forall in Hsound.
    apply getUser_in in Ho as [Hin _]. specialize (Hsound o Hin).
    rewrite Hk in Hsound. destruct Hsound as [-> _].
    intros Heq. apply blob_key_injective in Heq. congruence. }
  apply Z.eqb_neq in Hid.
  assert (Ho' : forall posted,
             getUser (update_blob_reference (DB s) (u_id user)
                        (blob_key user) posted) other = Some o).
  { intros posted. rewrite getUser_update_blob_reference_row, Ho.
    cbn [option_map]. rewrite Hid. reflexivity. }
  assert (Hrow' : forall posted,
             userById (update_blob_reference (DB s) (u_id user)
                         (blob_key user) posted) (u_id o) = Some o).
  { intros posted. rewrite userById_update_blob_reference, Hrow.
    cbn [option_map]. rewrite Hid. reflexivity. }
  assert (Hkey : forall k n,
             getUserBlobReference (DB s) (u_id o) = Some (Some k, n) ->
             u_encrypted_blob_key o = Some k).
  { intros k n. unfold getUserBlobReference. rewrite Hrow.
    intros Heq. injection Heq as Hk _. exact Hk. }
  destruct nonce as [posted|]; cbn [snd].
  - split; [|split].
    + apply (retrieve_blob_same other s _ o); cbn [DB R2_BUCKET].
      * apply Ho'.
      * exact Ho.
      * unfold getUserBlobReference. rewrite Hrow', Hrow. reflexivity.
      * intros k Hk. apply lookup_insert_ne, Hne, Hk.
      * exact Hkey.
    + unfold check_blob, getUserBlobReference. cbn [DB].
      rewrite Ho', Ho, Hrow', Hrow. reflexivity.
    + unfold get_prf_salt, getUserPrfSalt. cbn [DB].
      rewrite Ho', Ho, Hrow', Hrow. reflexivity.
  - split; [|split].
    + apply (retrieve_blob_same other s _ o); cbn [DB R2_BUCKET].
      * exact Ho.
      * exact Ho.
      * reflexivity.
      * intros k Hk. apply lookup_insert_ne, Hne, Hk.
      * exact Hkey.
    + unfold check_blob. cbn [DB]. rewrite Ho. reflexivity.
    + unfold get_prf_salt. cbn [DB]. rewrite Ho.
      destruct (getUserPrfSalt (DB s) (u_id o)); reflexivity.
Qed.

Lemma demo_server_references : blob_references_sound demo_server.
Proof. repeat constructor. Qed.

(** X9. With sound blob references /check-blob and /retrieve-blob
    agree on whether there is a blob: /check-blob says [hasBlob: true]
    exactly when /retrieve-blob does not answer 404, and then the
    bucket holds an object under the key of that user ("Blob not found
    in storage" is never the answer). /retrieve-blob answers 200 with
    the base64 of that object when the object has no more octets than
    a call of the worker takes arguments, and 500 with the RangeError
    when it has more: for such an object the two endpoints disagree on
    whether the blob can be had. *)
Theorem check_blob_agrees_with_retrieve_blob `{Platform} (username : string)
  (s : Server) :
  blob_references_sound s ->
  (fst (check_blob username s) = json (JHasBlob true)
   <-> status (fst (retrieve_blob username s)) <> 404) /\
  (fst (check_blob username s) = json (JHasBlob true) ->
   exists user object nonce,
     getUser (DB s) username = Some user /\
     R2_BUCKET s !! blob_key user = Some object /\
     fst (retrieve_blob username s)
     = (if (worker_max_arguments <? N.of_nat (length object))%N
        then json_status (JError range_error) 500
        else json (JBlob (btoa (binary_string object)) nonce))).
Proof.
  intros Hsound. unfold check_blob, retrieve_blob.
  destruct (getUser (DB s) username) as [user|] eqn:Hu.
  2:{ cbn [fst json json_status status].
      split; [split|]; intros Hf; try discriminate.
      exfalso. apply Hf. reflexivity. }
  unfold getUserBlobReference.
  destruct (userById (DB s) (u_id user)) as [row|] eqn:Hrow.
  2:{ cbn [fst json json_status status truthy].
      split; [split|]; intros Hf; try discriminate.
      exfalso. apply Hf. reflexivity. }
  pose proof (userById_id _ _ _ Hrow) as Hid.
  unfold blob_references_sound in Hsound.
  rewrite List.Forall_forall in Hsound.
  unfold userById in Hrow. apply find_some in Hrow as [Hin _].
  specialize (Hsound row Hin).
  destruct (u_encrypted_blob_key row) as [k|].
  2:{ cbn [fst json json_status status truthy].
      split; [split|]; intros Hf; try discriminate.
      exfalso. apply Hf. reflexivity. }
  destruct Hsound as [Hk [object Hobj]].
  assert (Hkey : k = blob_key user)
    by (rewrite Hk; unfold blob_key; rewrite Hid; reflexivity).
  subst k. rewrite Hkey in *. cbn [truthy].
  rewrite blob_key_nonempty, Hobj. cbn [negb fst json status].
  unfold fromCharCodes.
  split.
  - split; [|reflexivity]. intros _.
    destruct (worker_max_arguments <? N.of_nat (length object))%N;
      cbn [fst json json_status status]; discriminate.
  - intros _. exists user, object, (u_blob_nonce row).
    split; [reflexivity|]. split; [exact Hobj|].
    destruct (worker_max_arguments <? N.of_nat (length object))%N;
      reflexivity.
Qed.

(** X9 on the demo tables after bob stored a blob. *)
Lemma check_blob_agrees_with_retrieve_blob_witness :
  let s := snd (store_blob "bob" "aGVsbG8=" (Some "bm9uY2U") demo_server) in
  (fst (check_blob "bob" s) = json (JHasBlob true)
   <-> status (fst (@retrieve_blob demo_platform "bob" s)) <> 404) /\
  (fst (check_blob "alice" s) = json (JHasBlob true)
   <-> status (fst (@retrieve_blob demo_platform "alice" s)) <> 404) /\
  status (fst (@retrieve_blob demo_platform "bob" s)) = 200 /\
  status (fst (@retrieve_blob demo_platform "alice" s)) = 404.
Proof.
  cbv zeta.
  assert (Hsound : blob_references_sound
                     (snd (store_blob "bob" "aGVsbG8=" (Some "bm9uY2U")
                             demo_server))).
  { apply (@handle_blob_references (challenge_verifier 0) demo_platform
             (StoreBlob "bob" "aGVsbG8=" (Some "bm9uY2U")) demo_server).
    exact demo_server_references. }
  split; [|split].
  - apply (@check_blob_agrees_with_retrieve_blob demo_platform "bob" _
             Hsound).
  - apply (@check_blob_agrees_with_retrieve_blob demo_platform "alice" _
             Hsound).
  - split; reflexivity.
Defined.

(** ** Nothing is deleted *)

Lemma verify_registration_passkeys `{SimpleWebAuthn} username response s :
  exists added,
    passkeys (DB (snd (verify_registration username response s)))
    = (passkeys (DB s) ++ added)%list.
Proof.
  assert (Hsame : exists added : list PasskeyRow,
             passkeys (DB s) = (passkeys (DB s) ++ added)%list)
    by (exists []; rewrite app_nil_r; reflexivity).
  unfold verify_registration.
  destruct (challenges s !! username) as [ch|]; [|exact Hsame].
  destruct (String.eqb ch ""); [exact Hsame|].
  destruct (getUser (DB s) username) as [user|]; [|exact Hsame].
  destruct (verifyRegistrationResponse _ _ _ _) as [[v [info|]]|e];
    try exact Hsame; destruct v; try exact Hsame.
  cbn [vr_verified vr_registrationInfo].
  match goal with
  | |- context [savePasskey ?d ?p] =>
      destruct (savePasskey d p) as [db'|e] eqn:Hsave; [|exact Hsame]
  end.
  apply savePasskey_users in Hsave as (_ & _ & row & Hrow).
  exists [row]. exact Hrow.
Qed.

Lemma handle_keeps `{SimpleWebAuthn} `{Platform} (r : Request)
  (s : Server) :
  (exists added,
      map identity (users (DB (snd (handle r s))))
      = (map identity (users (DB s)) ++ added)%list) /\
  (exists added,
      map binding (passkeys (DB (snd (handle r s))))
      = (map binding (passkeys (DB s)) ++ added)%list) /\
  (forall k, is_Some (R2_BUCKET s !! k) ->
             is_Some (R2_BUCKET (snd (handle r s)) !! k)).
Proof.
  destruct (handle_footprint r s) as (_ & Hr2 & Hpk & _ & Hus & _).
  cbv zeta in *.
  assert (Hnone : forall {A} (l l' : list A),
             l' = l -> exists added, l' = (l ++ added)%list)
    by (intros A l l' ->; exists []; rewrite app_nil_r; reflexivity).
  destruct r; cbn [handle writes_bucket writes_passkeys writes_users] in *.
  - (* /generate-registration-options *)
    split; [|split].
    + unfold generate_registration_options, createUser.
      destruct (getUser (DB s) username); cbn [snd DB users].
      * apply Hnone. reflexivity.
      * rewrite map_app. eauto.
    + apply Hnone. rewrite Hpk by reflexivity. reflexivity.
    + rewrite Hr2 by reflexivity. exact (fun _ Hk => Hk).
  - (* /verify-registration *)
    split; [|split].
    + apply Hnone. rewrite Hus by reflexivity. reflexivity.
    + destruct (verify_registration_passkeys username response s)
        as (added & ->).
      rewrite map_app. eauto.
    + rewrite Hr2 by reflexivity. exact (fun _ Hk => Hk).
  - (* /generate-authentication-options *)
    split; [|split].
    + apply Hnone. rewrite Hus by reflexivity. reflexivity.
    + apply Hnone. rewrite Hpk by reflexivity. reflexivity.
    + rewrite Hr2 by reflexivity. exact (fun _ Hk => Hk).
  - (* /verify-authentication *)
    split; [|split].
    + apply Hnone. rewrite Hus by reflexivity. reflexivity.
    + apply Hnone. unfold verify_authentication.
      destruct (challenges s !! username) as [ch|]; [|reflexivity].
      destruct (String.eqb ch ""); [reflexivity|].
      destruct (getUser (DB s) username); [|reflexivity].
      destruct (getPasskeyById (DB s) (ar_id response)); [|reflexivity].
      destruct (verifyAuthenticationResponse _ _ _ _ _) as [v|e];
        [|reflexivity].
      destruct (va_verified v); [|reflexivity].
      cbn [snd DB updatePasskeyCounter passkeys]. rewrite map_map.
      apply map_ext. intros row.
      destruct (String.eqb (cred_id row) _); reflexivity.
    + rewrite Hr2 by reflexivity. exact (fun _ Hk => Hk).
  - (* /store-blob *)
    unfold store_blob in *.
    destruct (getUser (DB s) username) as [user|];
      [|repeat split; try (apply Hnone; reflexivity); exact (fun _ Hk => Hk)].
    destruct (atob encryptedBlob);
      [|repeat split; try (apply Hnone; reflexivity); exact (fun _ Hk => Hk)].
    destruct nonce as [posted|];
      cbn [snd DB R2_BUCKET saveUserBlobReference update_blob_reference
           users passkeys].
    + split; [|split].
      * apply Hnone. rewrite map_map. apply map_ext. intros u.
        destruct (Z.eqb (u_id u) (u_id user)); reflexivity.
      * apply Hnone. reflexivity.
      * intros k Hk. apply lookup_insert_is_Some'. right. exact Hk.
    + split; [|split].
      * apply Hnone. reflexivity.
      * apply Hnone. reflexivity.
      * intros k Hk. apply lookup_insert_is_Some'. right. exact Hk.
  - (* /retrieve-blob *)
    split; [|split].
    + apply Hnone. rewrite Hus by reflexivity. reflexivity.
    + apply Hnone. rewrite Hpk by reflexivity. reflexivity.
    + rewrite Hr2 by reflexivity. exact (fun _ Hk => Hk).
  - (* /save-prf-salt *)
    split; [|split].
    + apply Hnone. unfold save_prf_salt.
      destruct (getUser (DB s) username) as [user|]; [|reflexivity].
      cbn [snd DB saveUserPrfSalt users]. rewrite map_map.
      apply map_ext. intros u.
      destruct (Z.eqb (u_id u) (u_id user)); reflexivity.
    + apply Hnone. rewrite Hpk by reflexivity. reflexivity.
    + rewrite Hr2 by reflexivity. exact (fun _ Hk => Hk).
  - (* /get-prf-salt *)
    split; [|split].
    + apply Hnone. rewrite Hus by reflexivity. reflexivity.
    + apply Hnone. rewrite Hpk by reflexivity. reflexivity.
    + rewrite Hr2 by reflexivity. exact (fun _ Hk => Hk).
  - (* /check-blob *)
    split; [|split].
    + apply Hnone. rewrite Hus by reflexivity. reflexivity.
    + apply Hnone. rewrite Hpk by reflexivity. reflexivity.
    + rewrite Hr2 by reflexivity. exact (fun _ Hk => Hk).
Qed.

(** Through a run the identities of the users and the bindings of the
    passkeys are extended at the end, and the keys of the bucket
    stay. *)
Lemma run_only_adds `{SimpleWebAuthn} `{Platform} (rs : list Request)
  (s : Server) :
  (exists added,
      map identity (users (DB (run rs s)))
      = (map identity (users (DB s)) ++ added)%list) /\
  (exists added,
      map binding (passkeys (DB (run rs s)))
      = (map binding (passkeys (DB s)) ++ added)%list) /\
  (forall k, is_Some (R2_BUCKET s !! k) ->
             is_Some (R2_BUCKET (run rs s) !! k)).
Proof.
  revert s. induction rs as [|r rs IH]; intros s; cbn [run].
  - split; [|split].
    + exists []. rewrite app_nil_r. reflexivity.
    + exists []. rewrite app_nil_r. reflexivity.
    + exact (fun _ Hk => Hk).
  - destruct (handle_keeps r s) as ((u1 & Hu1) & (p1 & Hp1) & Hb1).
    destruct (IH (snd (handle r s))) as ((u2 & Hu2) & (p2 & Hp2) & Hb2).
    split; [|split].
    + exists (u1 ++ u2)%list. rewrite Hu2, Hu1, app_assoc. reflexivity.
    + exists (p1 ++ p2)%list. rewrite Hp2, Hp1, app_assoc. reflexivity.
    + intros k Hk. apply Hb2, Hb1, Hk.
Qed.

(** The first row with a given view, in a list whose views are
    extended at the end. *)
Lemma find_extended {A B} (view : A -> B) (p : B -> bool)
  (l l' : list A) (added : list B) (x : A) :
  map view l' = (map view l ++ added)%list ->
  List.find (fun y => p (view y)) l = Some x ->
  exists x', List.find (fun y => p (view y)) l' = Some x' /\
             view x' = view x.
Proof.
  revert l'. induction l as [|y l IH]; intros l' Hmap Hfind;
    [discriminate|].
  destruct l' as [|y' l']; [discriminate|].
  cbn [map app] in Hmap. injection Hmap as Hy Hrest.
  cbn [List.find] in *. rewrite Hy.
  destruct (p (view y)).
  - injection Hfind as <-. exists y'. split; [reflexivity | exact Hy].
  - apply IH; assumption.
Qed.

Lemma getUser_extended db db' added username user :
  map identity (users db') = (map identity (users db) ++ added)%list ->
  getUser db username = Some user ->
  exists user', getUser db' username = Some user' /\
                u_id user' = u_id user /\
                u_username user' = u_username user.
Proof.
  intros Hmap Hget. unfold getUser in *.
  destruct (find_extended identity (fun v => String.eqb (snd v) username)
              _ _ _ _ Hmap Hget) as (user' & Hfind & Hview).
  exists user'. split; [exact Hfind|].
  unfold identity in Hview. injection Hview as Hid Hname. auto.
Qed.

Lemma userById_extended db db' added userId user :
  map identity (users db') = (map identity (users db) ++ added)%list ->
  userById db userId = Some user ->
  exists user', userById db' userId = Some user' /\
                u_id user' = u_id user /\
                u_username user' = u_username user.
Proof.
  intros Hmap Hget. unfold userById in *.
  destruct (find_extended identity (fun v => Z.eqb (fst v) userId)
              _ _ _ _ Hmap Hget) as (user' & Hfind & Hview).
  exists user'. split; [exact Hfind|].
  unfold identity in Hview. injection Hview as Hid Hname. auto.
Qed.

(** X10. No request deletes or re-binds anything. Through every run of
    requests a user that was found by name is still found, with the
    same id; a passkey that was found by its credential id is still
    found, with the same public key and for a user with the same id and
    name; and every key of the bucket that held an object still holds
    one. *)
Theorem nothing_is_deleted `{SimpleWebAuthn} `{Platform}
  (rs : list Request) (s : Server) :
  (forall username user,
      getUser (DB s) username = Some user ->
      exists user', getUser (DB (run rs s)) username = Some user' /\
                    u_id user' = u_id user) /\
  (forall credId passkey,
      getPasskeyById (DB s) credId = Some passkey ->
      exists passkey',
        getPasskeyById (DB (run rs s)) credId = Some passkey' /\
        pk_publicKey passkey' = pk_publicKey passkey /\
        u_id (pk_user passkey') = u_id (pk_user passkey) /\
        u_username (pk_user passkey') = u_username (pk_user passkey)) /\
  (forall k, is_Some (R2_BUCKET s !! k) ->
             is_Some (R2_BUCKET (run rs s) !! k)).
Proof.
  destruct (run_only_adds rs s) as ((au & Hus) & (ap & Hpk) & Hbucket).
  split; [|split; [|exact Hbucket]].
  - intros username user Hget.
    destruct (getUser_extended _ _ _ _ _ Hus Hget) as (user' & Hget' & Hid & _).
    eauto.
  - intros credId passkey. unfold getPasskeyById.
    destruct (List.find _ (passkeys (DB s))) as [row|] eqn:Hrow;
      [|discriminate].
    destruct (userById (DB s) (internal_user_id row)) as [user|] eqn:Huser;
      [|discriminate].
    intros Hget. injection Hget as <-.
    destruct (find_extended binding
                (fun v => String.eqb (fst (fst v)) credId)
                _ _ _ _ Hpk Hrow) as (row' & Hrow' & Hview).
    change (List.find (fun y => String.eqb (fst (fst (binding y))) credId)
              (passkeys (DB (run rs s))))
      with (List.find (fun r => String.eqb (cred_id r) credId)
              (passkeys (DB (run rs s)))) in Hrow'.
    rewrite Hrow'. unfold binding in Hview.
    injection Hview as Hcred Huid Hkey. rewrite Huid.
    destruct (userById_extended _ _ _ _ _ Hus Huser)
      as (user' & Huser' & Hid & Hname).
    rewrite Huser'. eexists. split; [reflexivity|].
    cbn [passkey_of_row pk_publicKey pk_user]. auto.
Qed.

(** ** A stored blob stays *)

(** What /retrieve-blob and /check-blob answer depends on the columns
    of [blob_view] and on the bucket. *)
Lemma blob_answers_extended `{Platform} (s s' : Server) added username
  user :
  map blob_view (users (DB s'))
  = (map blob_view (users (DB s)) ++ added)%list ->
  R2_BUCKET s' = R2_BUCKET s ->
  getUser (DB s) username = Some user ->
  fst (retrieve_blob username s') = fst (retrieve_blob username s) /\
  fst (check_blob username s') = fst (check_blob username s) /\
  exists user', getUser (DB s') username = Some user' /\
                u_id user' = u_id user.
Proof.
  intros Hmap Hbucket Hu.
  destruct (getUser_userById _ _ _ Hu) as (row & Hrow & _).
  pose proof Hu as Hu0. pose proof Hrow as Hrow0.
  unfold getUser in Hu. unfold userById in Hrow.
  destruct (find_extended blob_view
              (fun v => String.eqb (snd (fst (fst v))) username)
              _ _ _ _ Hmap Hu) as (user' & Hu' & Hview).
  destruct (find_extended blob_view
              (fun v => Z.eqb (fst (fst (fst v))) (u_id user))
              _ _ _ _ Hmap Hrow) as (row' & Hrow' & Hrview).
  unfold blob_view in Hview, Hrview.
  injection Hview as Hid _ _ _. injection Hrview as _ _ Hkey Hnonce.
  assert (Hu'' : getUser (DB s') username = Some user') by exact Hu'.
  assert (Href : getUserBlobReference (DB s') (u_id user')
                 = getUserBlobReference (DB s) (u_id user)).
  { unfold getUserBlobReference. rewrite Hid, Hrow0.
    unfold userById.
    change (List.find (fun u => Z.eqb (u_id u) (u_id user)) (users (DB s')))
      with (List.find
              (fun y => Z.eqb (fst (fst (fst (blob_view y)))) (u_id user))
              (users (DB s'))).
    rewrite Hrow', Hkey, Hnonce. reflexivity. }
  split; [|split].
  - unfold retrieve_blob. rewrite Hu'', Hu0, Href, Hbucket.
    destruct (getUserBlobReference (DB s) (u_id user)) as [[[k|] n]|];
      try reflexivity.
    destruct (String.eqb k ""); [reflexivity|].
    destruct (R2_BUCKET s !! k); [|reflexivity].
    destruct (fromCharCodes _ _); reflexivity.
  - unfold check_blob. rewrite Hu'', Hu0, Href. reflexivity.
  - exists user'. split; [exact Hu'' | exact Hid].
Qed.

Lemma handle_keeps_blob `{SimpleWebAuthn} `{Platform} (r : Request)
  (s : Server) (username : string) (user : User) :
  schema_constraints (DB s) -> blob_references_sound s ->
  getUser (DB s) username = Some user ->
  stores_blob_for username r = false ->
  fst (retrieve_blob username (snd (handle r s)))
  = fst (retrieve_blob username s) /\
  fst (check_blob username (snd (handle r s)))
  = fst (check_blob username s) /\
  exists user', getUser (DB (snd (handle r s))) username = Some user' /\
                u_id user' = u_id user.
Proof.
  intros Hsc Hsound Hu Hr.
  destruct (handle_footprint r s) as (_ & Hr2 & _ & _ & Hus & _).
  cbv zeta in *.
  destruct r;
    cbn [handle writes_bucket writes_users stores_blob_for] in *;
    try (apply (blob_answers_extended s _ []); auto;
         rewrite app_nil_r, Hus by reflexivity; reflexivity).
  - (* /generate-registration-options *)
    unfold generate_registration_options, createUser in *.
    destruct (getUser (DB s) username0); cbn [snd] in *.
    + apply (blob_answers_extended s _ []); auto.
      rewrite app_nil_r. reflexivity.
    + eapply (blob_answers_extended s _ [_]); auto.
      cbn [DB users]. rewrite map_app. reflexivity.
  - (* /store-blob for another user *)
    apply String.eqb_neq in Hr.
    assert (Hother : username <> username0) by congruence.
    destruct (store_blob_other_user username0 username encryptedBlob nonce s
                Hsc Hsound Hother) as (Hget & Hcheck & _).
    split; [exact Hget|]. split; [exact Hcheck|].
    unfold store_blob.
    destruct (getUser (DB s) username0) as [owner|] eqn:Ho; [|eauto].
    destruct (atob encryptedBlob); [|eauto].
    destruct nonce as [posted|]; cbn [saveUserBlobReference snd DB];
      [|eauto].
    rewrite getUser_update_blob_reference_row, Hu.
    cbn [option_map]. eexists. split; [reflexivity|].
    destruct (Z.eqb (u_id user) (u_id owner)); reflexivity.
  - (* /save-prf-salt *)
    apply (blob_answers_extended s _ []); auto.
    rewrite app_nil_r. unfold save_prf_salt.
    destruct (getUser (DB s) username0) as [owner|]; [|reflexivity].
    cbn [snd DB users saveUserPrfSalt]. rewrite map_map.
    apply map_ext. intros u.
    destruct (Z.eqb (u_id u) (u_id owner)); reflexivity.
Qed.

(** X11. A stored blob stays as it is until its owner stores another.
    In a state that meets the constraints of the schema and has sound
    blob references, and for a user that exists: through every run of
    requests none of which is a /store-blob for that user, whatever the
    other users register, sign in with, store or save, /retrieve-blob
    and /check-blob answer for that user what they answered before the
    run. *)
Theorem stored_blob_stays_as_it_is `{SimpleWebAuthn} `{Platform}
  (rs : list Request) (s : Server) (username : string) (user : User) :
  schema_constraints (DB s) -> blob_references_sound s ->
  getUser (DB s) username = Some user ->
  Forall (fun r => stores_blob_for username r = false) rs ->
  fst (retrieve_blob username (run rs s)) = fst (retrieve_blob username s) /\
  fst (check_blob username (run rs s)) = fst (check_blob username s).
Proof.
  intros Hsc Hsound Hu Hall. revert s user Hsc Hsound Hu.
  induction Hall as [|r rs Hr _ IH]; intros s user Hsc Hsound Hu; cbn [run].
  - split; reflexivity.
  - destruct (handle_keeps_blob r s username user Hsc Hsound Hu Hr)
      as (Hget & Hcheck & user' & Hu' & _).
    destruct (IH (snd (handle r s)) user'
                (handle_constraints r s Hsc)
                (handle_blob_references r s Hsound) Hu') as [Hget' Hcheck'].
    split; congruence.
Qed.

(** X11 on the demo tables: bob stores a blob; then alice stores one,
    carol registers, and bob saves a salt and signs in. Bob's blob is
    served as before. *)
Lemma stored_blob_stays_as_it_is_witness :
  let s := snd (store_blob "bob" "aGVsbG8=" (Some "bm9uY2U") demo_server) in
  let rs :=
    [StoreBlob "alice" "d29ybGQ=" (Some "bm9uY2U");
     GenerateRegistrationOptions "carol" "c-1";
     SavePrfSalt "bob" "c2FsdA";
     GenerateAuthenticationOptions "bob" "c-2";
     VerifyAuthentication "bob" (mkAuthResponse "cred-bob" "c-2" None)] in
  fst (@retrieve_blob demo_platform "bob"
         (@run (challenge_verifier 0) demo_platform rs s))
  = json (JBlob "aGVsbG8=" (Some "bm9uY2U")) /\
  R2_BUCKET (@run (challenge_verifier 0) demo_platform rs s) <> R2_BUCKET s.
Proof.
  cbv zeta. split.
  - destruct (@stored_blob_stays_as_it_is (challenge_verifier 0)
                demo_platform
                [StoreBlob "alice" "d29ybGQ=" (Some "bm9uY2U");
                 GenerateRegistrationOptions "carol" "c-1";
                 SavePrfSalt "bob" "c2FsdA";
                 GenerateAuthenticationOptions "bob" "c-2";
                 VerifyAuthentication "bob"
                   (mkAuthResponse "cred-bob" "c-2" None)]
                (snd (store_blob "bob" "aGVsbG8=" (Some "bm9uY2U")
                        demo_server))
                "bob"
                (mkUser 2 "bob" None (Some "user-2-blob") (Some "bm9uY2U")))
      as [Hget _].
    + apply (@handle_constraints (challenge_verifier 0) demo_platform
               (StoreBlob "bob" "aGVsbG8=" (Some "bm9uY2U")) demo_server).
      exact demo_db_constraints.
    + apply (@handle_blob_references (challenge_verifier 0) demo_platform
               (StoreBlob "bob" "aGVsbG8=" (Some "bm9uY2U")) demo_server).
      exact demo_server_references.
    + reflexivity.
    + repeat constructor.
    + rewrite Hget. reflexivity.
  - intros Heq. apply (f_equal (fun m => m !! "user-1-blob")) in Heq.
    vm_compute in Heq. discriminate.
Defined.

(** ** A verified registration *)

Lemma getUserPasskeys_ids db user :
  userById db (u_id user) = Some user ->
  map cd_id (map descriptor_of (getUserPasskeys db (u_id user)))
  = map cred_id
      (List.filter (fun r => Z.eqb (internal_user_id r) (u_id user))
         (passkeys db)).
Proof.
  intros Hrow. unfold getUserPasskeys. rewrite Hrow.
  rewrite !map_map. reflexivity.
Qed.

(** X12. What /verify-registration does with a response the verifier
    accepts, for a user that exists and a pending challenge. A
    credential id that is in [passkeys] already, whoever owns it, is
    refused with 400 and the message of the UNIQUE constraint, and the
    state, the pending challenge included, stays as it was. A new
    credential id is answered with [verified: true], the challenge is
    consumed, the passkey is found under its id with the user's row,
    and the id is from then on among the credentials the user is asked
    to sign in with and among those excluded from a further
    registration. *)
Theorem verified_registration_outcome `{SimpleWebAuthn}
  (username expectedChallenge c : string)
  (response : RegistrationResponseJSON) (info : RegistrationInfo)
  (user : User) (s : Server) :
  schema_constraints (DB s) ->
  challenges s !! username = Some expectedChallenge ->
  expectedChallenge <> "" ->
  getUser (DB s) username = Some user ->
  verifyRegistrationResponse response expectedChallenge origin rpID
  = Returned (mkVerifiedReg true (Some info)) ->
  let credId := wc_id (ri_credential info) in
  let s' := snd (verify_registration username response s) in
  if has_cred (DB s) credId then
    verify_registration username response s
    = (json_status (JError d1_unique_cred_id) 400, s)
  else
    fst (verify_registration username response s)
    = json (JVerified true None) /\
    challenges s' !! username = None /\
    option_map pk_user (getPasskeyById (DB s') credId) = Some user /\
    (exists options,
        fst (generate_authentication_options username c s')
        = json (JRequestOptions options) /\
        In credId (map cd_id (ao_allowCredentials (qo_opts options)))) /\
    (exists options,
        fst (generate_registration_options username c s')
        = json (JCreationOptions options) /\
        In credId (map cd_id (ro_excludeCredentials (co_opts options)))).
Proof.
  intros Hsc Hch Hne Hu Hver. cbv zeta.
  unfold verify_registration. rewrite Hch.
  apply String.eqb_neq in Hne. rewrite Hne, Hu, Hver.
  cbn [vr_verified vr_registrationInfo]. unfold savePasskey.
  cbn [pk_webAuthnUserID pk_id pk_publicKey pk_user pk_counter pk_deviceType
       pk_backedUp pk_transports].
  destruct (has_cred (DB s) (wc_id (ri_credential info))) eqn:Hcred;
    [reflexivity|].
  rewrite (getUser_has_user _ _ _ Hu). cbn [negb].
  cbn [fst snd DB challenges].
  set (row := mkPasskeyRow _ _ _ _ _ _ _ _).
  set (db' := mkD1 _ _ _).
  pose proof (getUser_row _ _ _ Hsc Hu) as Hrow.
  assert (Hrow' : userById db' (u_id user) = Some user) by exact Hrow.
  assert (Hu' : getUser db' username = Some user) by exact Hu.
  assert (Hin : In (wc_id (ri_credential info))
                  (map cd_id
                     (map descriptor_of (getUserPasskeys db' (u_id user))))).
  { rewrite (getUserPasskeys_ids _ _ Hrow'). unfold db'. cbn [passkeys].
    rewrite List.filter_app, map_app. apply in_app_iff. right.
    unfold row. cbn [List.filter internal_user_id]. rewrite Z.eqb_refl.
    left. reflexivity. }
  split; [reflexivity|]. split; [apply lookup_delete_eq|]. split; [|split].
  - unfold getPasskeyById, db'. cbn [passkeys].
    rewrite (find_snoc_new _ _ _ (has_cred_find _ _ Hcred))
      by (cbn [cred_id row]; apply String.eqb_refl).
    unfold row. cbn [internal_user_id pk_user].
    match goal with
    | |- context [userById ?d (u_id user)] =>
        change (userById d (u_id user)) with (userById (DB s) (u_id user))
    end.
    rewrite Hrow. reflexivity.
  - unfold generate_authentication_options. cbn [DB]. rewrite Hu'.
    destruct (getUserPasskeys db' (u_id user)) as [|p ps] eqn:Hps;
      [destruct Hin|].
    cbn [length Nat.eqb fst]. eexists. split; [reflexivity|].
    cbn [qo_opts ao_allowCredentials]. exact Hin.
  - unfold generate_registration_options. cbn [DB]. rewrite Hu'.
    cbn [fst]. eexists. split; [reflexivity|].
    cbn [co_opts ro_excludeCredentials]. exact Hin.
Qed.

(** X12 on the demo tables: bob asks for registration options and
    registers the new credential [cred-new]; posted for alice's pending
    registration, the same credential is then refused. *)
Lemma verified_registration_outcome_witness :
  let s0 :=
    @run (challenge_verifier 0) demo_platform
      [GenerateRegistrationOptions "bob" "c-1";
       GenerateRegistrationOptions "alice" "c-2"] demo_server in
  let response := mkRegResponse "cred-new" None (Some ["internal"]) "c-1" in
  let s1 := snd (@verify_registration (challenge_verifier 0) "bob" response
                   s0) in
  (fst (@verify_registration (challenge_verifier 0) "bob" response s0)
   = json (JVerified true None) /\
   challenges s1 !! "bob" = None /\
   option_map pk_user (getPasskeyById (DB s1) "cred-new") = Some bob /\
   (exists options,
       fst (generate_authentication_options "bob" "c-3" s1)
       = json (JRequestOptions options) /\
       In "cred-new" (map cd_id (ao_allowCredentials (qo_opts options)))) /\
   (exists options,
       fst (generate_registration_options "bob" "c-3" s1)
       = json (JCreationOptions options) /\
       In "cred-new" (map cd_id (ro_excludeCredentials (co_opts options)))))
  /\
  @verify_registration (challenge_verifier 0) "alice"
    (mkRegResponse "cred-new" None (Some ["internal"]) "c-2") s1
  = (json_status (JError d1_unique_cred_id) 400, s1).
Proof.
  cbv zeta. split.
  - apply (@verified_registration_outcome (challenge_verifier 0)
             "bob" "c-1" "c-3"
             (mkRegResponse "cred-new" None (Some ["internal"]) "c-1")
             (mkRegistrationInfo
                (mkCredential "cred-new" [] 0 (Some ["internal"]))
                singleDevice false)
             bob
             (@run (challenge_verifier 0) demo_platform
                [GenerateRegistrationOptions "bob" "c-1";
                 GenerateRegistrationOptions "alice" "c-2"] demo_server)).
    + exact demo_db_constraints.
    + reflexivity.
    + discriminate.
    + reflexivity.
    + reflexivity.
  - apply (@verified_registration_outcome (challenge_verifier 0)
             "alice" "c-2" "c-3"
             (mkRegResponse "cred-new" None (Some ["internal"]) "c-2")
             (mkRegistrationInfo
                (mkCredential "cred-new" [] 0 (Some ["internal"]))
                singleDevice false)
             alice
             (snd (@verify_registration (challenge_verifier 0) "bob"
                     (mkRegResponse "cred-new" None (Some ["internal"])
                        "c-1")
                     (@run (challenge_verifier 0) demo_platform
                        [GenerateRegistrationOptions "bob" "c-1";
                         GenerateRegistrationOptions "alice" "c-2"]
                        demo_server)))).
    + apply (@handle_constraints (challenge_verifier 0) demo_platform
               (VerifyRegistration "bob"
                  (mkRegResponse "cred-new" None (Some ["internal"]) "c-1"))).
      exact demo_db_constraints.
    + reflexivity.
    + discriminate.
    + reflexivity.
    + reflexivity.
Defined.

(** * More of the code: encodings and encryption *)

(** ** [btoa] and [atob] *)

Lemma sextets_count (octets : list N) :
  length (sextets octets) = ((4 * length octets + 2) / 3)%nat.
Proof.
  induction octets as [| a | a b | a b c l IH] using list_ind3;
    try reflexivity.
  cbn [sextets length]. rewrite IH. lia.
Qed.

Lemma b64_values_foreign (c : ascii) (l : list ascii) :
  In c l -> b64_value c = None -> b64_values l = None.
Proof.
  intros Hin Hc. induction l as [|d l IH]; [destruct Hin|].
  cbn [b64_values]. destruct Hin as [-> | Hin].
  - rewrite Hc. reflexivity.
  - rewrite (IH Hin). destruct (b64_value d); reflexivity.
Qed.

(** A character that is not [=] stays when the padding is dropped. *)
Lemma strip_padding_keeps (c : ascii) (l : list ascii) :
  In c l -> Ascii.eqb c "=" = false -> In c (strip_padding l).
Proof.
  intros Hin Hc. unfold strip_padding.
  destruct (length l mod 4 =? 0)%nat; [|exact Hin].
  destruct (rev l) as [|c1 [|c2 r]] eqn:Hrev; [exact Hin| |].
  - destruct (Ascii.eqb c1 "=") eqn:Hc1; [|exact Hin].
    apply in_rev in Hin. rewrite Hrev in Hin.
    destruct Hin as [<- | []]. congruence.
  - destruct (Ascii.eqb c1 "=") eqn:Hc1; [|exact Hin].
    apply in_rev in Hin. rewrite Hrev in Hin.
    destruct Hin as [<- | Hin]; [congruence|].
    destruct (Ascii.eqb c2 "=") eqn:Hc2.
    + destruct Hin as [<- | Hin]; [congruence|].
      apply in_rev in Hin. exact Hin.
    + apply in_rev. rewrite rev_involutive. exact Hin.
Qed.

Lemma atob_foreign (s : string) (c : ascii) :
  In c (list_ascii_of_string s) ->
  is_ascii_whitespace c = false -> Ascii.eqb c "=" = false ->
  b64_value c = None ->
  atob s = Thrown invalid_character_error.
Proof.
  intros Hin Hws Heq Hval. unfold atob.
  set (l := List.filter _ (list_ascii_of_string s)).
  assert (Hl : In c (strip_padding l)).
  { apply strip_padding_keeps; [|exact Heq]. unfold l.
    apply filter_In. split; [exact Hin|]. rewrite Hws. reflexivity. }
  destruct (length (strip_padding l) mod 4 =? 1)%nat; [reflexivity|].
  rewrite (b64_values_foreign c _ Hl Hval). reflexivity.
Qed.

(** X13. [atob] undoes [btoa]: every binary string comes back from its
    base64 form, so [btoa] maps two strings to one form only when they
    are the same; the form has four characters for every three octets
    begun, and is made of the sixty-four characters of the alphabet and
    of [=]. *)
Theorem btoa_then_atob (s : string) :
  atob (btoa s) = Returned s /\
  String.length (btoa s) = (4 * ((String.length s + 2) / 3))%nat /\
  Forall (fun c => is_Some (b64_value c) \/ c = "="%char)
    (list_ascii_of_string (btoa s)) /\
  (forall t, btoa s = btoa t -> s = t).
Proof.
  split; [apply atob_btoa|]. split; [|split].
  - rewrite length_chars, chars_btoa, length_app, length_map, sextets_count.
    unfold padding. rewrite repeat_length, length_map, <- length_chars.
    lia.
  - rewrite chars_btoa. apply Forall_app. split.
    + assert (Hoct : Forall (fun x => (x < 256)%N)
                       (map N_of_ascii (list_ascii_of_string s))).
      { apply List.Forall_forall. intros x Hx.
        apply in_map_iff in Hx as (c & <- & _). apply N_ascii_bounded. }
      apply sextets_below in Hoct.
      apply Forall_map. eapply Forall_impl; [exact Hoct|].
      intros v Hv. left. cbn beta. rewrite (b64_value_char v Hv). eauto.
    + apply List.Forall_forall. intros c Hc.
      apply repeat_spec in Hc. right. exact Hc.
  - intros t Heq. pose proof (atob_btoa s) as Hs.
    rewrite Heq, atob_btoa in Hs. injection Hs as Hs. symmetry. exact Hs.
Qed.

(** X14. /store-blob stores nothing when the posted blob has a
    character that is neither of the base64 alphabet, nor [=], nor
    ASCII white space: the answer is 500 with the error of [atob], and
    the tables and the bucket are what they were. *)
Theorem store_blob_rejects_foreign_characters (username encryptedBlob
  : string) (nonce : option string) (s : Server) (user : User) (c : ascii) :
  getUser (DB s) username = Some user ->
  In c (list_ascii_of_string encryptedBlob) ->
  is_ascii_whitespace c = false -> Ascii.eqb c "=" = false ->
  b64_value c = None ->
  store_blob username encryptedBlob nonce s
  = (json_status (JError invalid_character_error) 500, s).
Proof.
  intros Hu Hin Hws Heq Hval. unfold store_blob.
  rewrite Hu, (atob_foreign _ c Hin Hws Heq Hval). reflexivity.
Qed.

(** X14 on the demo tables: a blob in base64url, not base64. *)
Lemma store_blob_rejects_foreign_characters_witness :
  store_blob "bob" "aGk-" (Some "bm9uY2U") demo_server
  = (json_status (JError invalid_character_error) 500, demo_server).
Proof.
  apply (store_blob_rejects_foreign_characters "bob" "aGk-" (Some "bm9uY2U")
           demo_server bob "-"%char); try reflexivity.
  simpl. auto.
Defined.

(** ** base64url *)

Lemma three_replacements (l : list ascii) :
  flat_map (replacement "=" "")
    (flat_map (replacement "/" "_") (flat_map (replacement "+" "-") l))
  = flat_map to_url l.
Proof.
  induction l as [|c l IH]; [reflexivity|].
  cbn [flat_map]. rewrite !flat_map_app, IH. reflexivity.
Qed.

Lemma to_url_char v :
  (v < 64)%N ->
  exists c, to_url (b64_char v) = [c] /\ url_safe c = true.
Proof.
  intros Hv.
  pose proof (forall_below
                (fun v => match to_url (b64_char v) with
                          | [c] => url_safe c
                          | _ => false
                          end) 64 eq_refl v Hv) as Hc.
  simpl in Hc.
  destruct (to_url (b64_char v)) as [|c [|]]; try discriminate.
  exists c. split; [reflexivity | exact Hc].
Qed.

Lemma to_url_body vs :
  Forall (fun v => (v < 64)%N) vs ->
  length (flat_map to_url (map b64_char vs)) = length vs /\
  Forall (fun c => url_safe c = true) (flat_map to_url (map b64_char vs)).
Proof.
  induction 1 as [|v vs Hv _ [IHlen IHall]]; [split; constructor|].
  cbn [map flat_map]. destruct (to_url_char v Hv) as (c & -> & Hc).
  cbn [app length]. split; [rewrite IHlen; reflexivity|].
  constructor; assumption.
Qed.

Lemma to_url_padding k : flat_map to_url (repeat "="%char k) = [].
Proof. induction k as [|k IH]; simpl; [reflexivity | exact IH]. Qed.

Lemma chars_base64url (array : list byte) :
  list_ascii_of_string (base64url array)
  = flat_map to_url
      (map b64_char
         (sextets
            (map N_of_ascii (list_ascii_of_string (binary_string array))))).
Proof.
  unfold base64url, base64_to_url, replace_all.
  rewrite !list_ascii_of_string_of_list_ascii.
  rewrite three_replacements, chars_btoa, flat_map_app.
  unfold padding. rewrite to_url_padding, app_nil_r. reflexivity.
Qed.

Lemma length_binary_string (array : list byte) :
  length (list_ascii_of_string (binary_string array)) = length array.
Proof.
  unfold binary_string.
  rewrite <- (list_byte_of_string_of_list_byte array) at 2.
  unfold list_byte_of_string. rewrite length_map. reflexivity.
Qed.

(** The base64url form has the characters of the URL alphabet only,
    one for every six bits begun. *)
Lemma base64url_shape (array : list byte) :
  Forall (fun c => url_safe c = true) (list_ascii_of_string (base64url array))
  /\ String.length (base64url array) = ((4 * length array + 2) / 3)%nat.
Proof.
  assert (Hoct : Forall (fun x => (x < 256)%N)
                   (map N_of_ascii
                      (list_ascii_of_string (binary_string array)))).
  { apply List.Forall_forall. intros x Hx.
    apply in_map_iff in Hx as (c & <- & _). apply N_ascii_bounded. }
  destruct (to_url_body _ (sextets_below _ Hoct)) as [Hlen Hsafe].
  split.
  - rewrite chars_base64url. exact Hsafe.
  - rewrite length_chars, chars_base64url, Hlen, sextets_count.
    rewrite length_map, length_binary_string. reflexivity.
Qed.

(** X15. [uint8ArrayToBase64Url] returns for an array of no more
    octets than a call of the page's engine takes arguments, and throws
    the RangeError of the spread for a longer one. What it returns,
    [base64UrlToUint8Array] turns back into the array, so two arrays
    with one encoding are one array; the encoding is made of letters,
    digits, [-] and [_] only, with no padding, and has one character
    for every six bits begun. *)
Theorem uint8ArrayToBase64Url_round_trip `{Platform} (array : list byte) :
  ((N.of_nat (length array) <= page_max_arguments)%N ->
   exists encoded,
     uint8ArrayToBase64Url array = Returned encoded /\
     base64UrlToUint8Array encoded = Returned array /\
     Forall (fun c => url_safe c = true) (list_ascii_of_string encoded) /\
     String.length encoded = ((4 * length array + 2) / 3)%nat) /\
  ((page_max_arguments < N.of_nat (length array))%N ->
   uint8ArrayToBase64Url array = Thrown range_error) /\
  (forall other encoded,
      uint8ArrayToBase64Url array = Returned encoded ->
      uint8ArrayToBase64Url other = Returned encoded ->
      array = other).
Proof.
  split; [|split].
  - intros Hfits. exists (base64url array).
    destruct (base64url_shape array) as [Hsafe Hlen].
    split; [apply uint8ArrayToBase64Url_fits, Hfits|].
    split; [apply base64UrlToUint8Array_base64url|].
    split; assumption.
  - intros Hlarge.
    destruct (uint8ArrayToBase64Url_cases array) as [[Hfits _] | [_ ->]];
      [|reflexivity].
    apply N.le_ngt in Hfits. contradiction.
  - intros other encoded Ha Ho.
    apply uint8ArrayToBase64Url_returned in Ha as [-> _].
    apply uint8ArrayToBase64Url_returned in Ho as [Ho _].
    pose proof (base64UrlToUint8Array_base64url array) as Hback.
    rewrite Ho, base64UrlToUint8Array_base64url in Hback.
    injection Hback as Hback. symmetry. exact Hback.
Qed.

(** X15 for an array of two octets, whose base64 form has [+] and [/]. *)
Lemma uint8ArrayToBase64Url_round_trip_witness :
  exists encoded,
    @uint8ArrayToBase64Url demo_platform [xfb; xff] = Returned encoded /\
    base64UrlToUint8Array encoded = Returned [xfb; xff] /\
    Forall (fun c => url_safe c = true) (list_ascii_of_string encoded) /\
    String.length encoded = 3%nat.
Proof.
  destruct (@uint8ArrayToBase64Url_round_trip demo_platform [xfb; xff])
    as [Hfits _].
  apply Hfits. vm_compute. discriminate.
Defined.

(** ** Salts and nonces *)



(** ** [encryptData] and [decryptData] *)

Lemma bytes_eqb_eq (x y : list byte) : GCM.bytes_eqb x y = true -> x = y.
Proof.
  revert y. induction x as [|a x IH]; intros [|b y]; simpl;
    try discriminate; [reflexivity|].
  intros Heq. apply andb_true_iff in Heq as [Hab Hxy].
  apply Byte.byte_dec_bl in Hab. rewrite Hab, (IH y Hxy). reflexivity.
Qed.

(** X17. Under a key of [deriveEncryptionKey] and a nonce of a length
    the platform's AES-GCM takes, [encryptData] returns as many octets
    as the data has, followed by a tag of sixteen, and [decryptData]
    with the same key and nonce returns the data. It throws an
    OperationError for the same octets followed by any other tag, and
    for every input shorter than a tag. With a nonce of a length the
    platform refuses, both throw an OperationError whatever the
    input. *)
Theorem encryptData_then_decryptData `{Platform} (prf : list byte)
  (salt : option (list byte)) (key : CryptoKey) (data nonce : list byte) :
  deriveEncryptionKey prf salt = Returned key ->
  (aes_gcm_takes_iv (length nonce) = true ->
   exists sealed tag,
     encryptData key data nonce = Returned (sealed ++ tag)%list /\
     length sealed = length data /\
     length tag = 16%nat /\
     decryptData key (sealed ++ tag)%list nonce = Returned data /\
     (forall other,
         length other = 16%nat -> other <> tag ->
         decryptData key (sealed ++ other)%list nonce
         = Thrown "OperationError") /\
     (forall short,
         (length short < 16)%nat ->
         decryptData key short nonce = Thrown "OperationError")) /\
  (aes_gcm_takes_iv (length nonce) = false ->
   encryptData key data nonce = Thrown "OperationError" /\
   (forall input, decryptData key input nonce = Thrown "OperationError")).
Proof.
  rewrite deriveEncryptionKey_value. intros Hkey. injection Hkey as <-.
  set (material := hmac_sha256 _ _).
  split.
  2:{ intros Hiv. split; [|intros input].
      - rewrite encryptData_value, Hiv. reflexivity.
      - rewrite decryptData_value, Hiv. reflexivity. }
  intros Hiv.
  set (w := AES.key_schedule material).
  set (H0 := AES.cipher w 0).
  set (J0 := GCM.j0 H0 nonce).
  set (ct := GCM.gctr w (GCM.inc32 J0) data).
  exists ct, (GCM.tag w H0 J0 ct).
  assert (Hdec : forall input,
             decryptData
               (mkCryptoKey "AES-GCM" 256 false ["encrypt"; "decrypt"]
                  material) input nonce
             = match GCM.open material nonce input with
               | Some plaintext => Returned plaintext
               | None => Thrown "OperationError"
               end).
  { intros input. rewrite decryptData_value, Hiv. reflexivity. }
  split; [rewrite encryptData_value, Hiv; reflexivity|].
  split; [apply gctr_length|].
  split; [apply tag_length|]. split; [|split].
  - rewrite Hdec.
    change (ct ++ GCM.tag w H0 J0 ct)%list
      with (GCM.seal material nonce data).
    rewrite open_seal. reflexivity.
  - intros other Hlen Hne. rewrite Hdec. unfold GCM.open.
    rewrite length_app, Hlen.
    replace (length ct + 16 <? 16)%nat with false
      by (symmetry; apply Nat.ltb_ge; lia).
    replace (length ct + 16 - 16)%nat with (length ct) by lia.
    rewrite take_app_length, drop_app_length.
    fold w H0 J0.
    destruct (GCM.bytes_eqb other (GCM.tag w H0 J0 ct)) eqn:Heq;
      [|reflexivity].
    apply bytes_eqb_eq in Heq. contradiction.
  - intros short Hshort. rewrite Hdec. unfold GCM.open.
    apply Nat.ltb_lt in Hshort. rewrite Hshort. reflexivity.
Qed.

(** X17 for the key derived from a PRF output of one octet: a nonce of
    twelve octets, and one of eight, which the platform of the examples
    refuses. *)
Lemma encryptData_then_decryptData_witness :
  exists key sealed tag,
    deriveEncryptionKey [x2a] None = Returned key /\
    @encryptData demo_platform key (charCodes "hello") (repeat x00 12)
    = Returned (sealed ++ tag)%list /\
    length sealed = 5%nat /\
    length tag = 16%nat /\
    @decryptData demo_platform key (sealed ++ tag)%list (repeat x00 12)
    = Returned (charCodes "hello") /\
    @encryptData demo_platform key (charCodes "hello") (repeat x00 8)
    = Thrown "OperationError".
Proof.
  eexists.
  destruct (@encryptData_then_decryptData demo_platform [x2a] None _
              (charCodes "hello") (repeat x00 12)
              (deriveEncryptionKey_value [x2a] None))
    as [Htaken _].
  destruct (Htaken eq_refl)
    as (sealed & tag & Henc & Hlen & Htag & Hdec & _).
  destruct (@encryptData_then_decryptData demo_platform [x2a] None _
              (charCodes "hello") (repeat x00 8)
              (deriveEncryptionKey_value [x2a] None))
    as [_ Hrefused].
  destruct (Hrefused eq_refl) as [Hthrown _].
  exists sealed, tag. split; [apply deriveEncryptionKey_value|].
  repeat split; assumption.
Defined.

(** * More of the code: the handlers of the page *)

(** ** Sign-in with a stored salt *)

Lemma getUserPrfSalt_truthy db userId stored :
  getUserPrfSalt db userId = Some stored -> String.eqb stored "" = false.
Proof.
  unfold getUserPrfSalt. destruct (userById db userId) as [u|]; [|discriminate].
  destruct (u_prf_salt u) as [x|]; cbn [truthy]; [|discriminate].
  destruct (String.eqb x "") eqn:Hx; cbn [negb]; [discriminate|].
  intros Heq. injection Heq as <-. exact Hx.
Qed.

(** What [handleAuthenticate] does for a user whose salt is stored: it
    asks the authenticator with the stored salt and draws nothing; and
    when the server verifies the answer of the authenticator, the page
    is signed in and holds the PRF result of that answer. *)
Lemma handleAuthenticate_with_stored_salt `{SimpleWebAuthn} `{Browser}
  (challenge : string) (w : App.World) (user : User) (stored : string)
  (salt : list byte) :
  getUser (DB (App.server w)) (App.username (App.app w)) = Some user ->
  getUserPrfSalt (DB (App.server w)) (u_id user) = Some stored ->
  base64UrlToUint8Array stored = Returned salt ->
  let name := App.username (App.app w) in
  let w' := App.handleAuthenticate challenge w in
  App.rng w' = App.rng w /\
  App.prfSalt (App.app w') = Some salt /\
  App.username (App.app w') = name /\
  (forall options response,
      fst (generate_authentication_options name challenge (App.server w))
      = json (JRequestOptions options) ->
      startAuthentication options salt = Returned response ->
      is_verified
        (fst (verify_authentication name response
                (snd (generate_authentication_options name challenge
                        (App.server w))))) = true ->
      App.server w'
      = snd (verify_authentication name response
               (snd (generate_authentication_options name challenge
                       (App.server w)))) /\
      App.isAuthenticated (App.app w') = true /\
      forall prf,
        ar_prf_first response = Some prf ->
        App.prfOutput (App.app w') = Some prf /\
        (fst (check_blob name (App.server w')) = json (JHasBlob true) ->
         App.hasBlob (App.app w') = true)).
Proof.
  intros Hu Hsalt Hdecode. cbv zeta.
  remember (App.handleAuthenticate challenge w) as w' eqn:Hw'.
  unfold App.handleAuthenticate, App.tryAuthenticate in Hw'.
  cbn [App.app App.server App.rng App.with_app] in Hw'.
  unfold get_prf_salt in Hw'. rewrite Hu in Hw'. cbn [body json] in Hw'.
  rewrite Hsalt, (getUserPrfSalt_truthy _ _ _ Hsalt) in Hw'.
  rewrite Hdecode in Hw'.
  cbn [App.app App.server App.rng App.with_app] in Hw'.
  destruct (generate_authentication_options _ _ _)
    as [optionsResponse s2] eqn:Hgen.
  try rewrite Hgen in Hw'.
  cbn [fst snd App.app App.server App.rng] in *.
  assert (Hsame : forall options response,
             optionsResponse = json (JRequestOptions options) ->
             startAuthentication options salt = Returned response ->
             body optionsResponse = JRequestOptions options /\
             App.ok optionsResponse = true).
  { intros opts resp -> _. split; reflexivity. }
  destruct (negb (App.ok optionsResponse)) eqn:Hok; try rewrite Hok in Hw'.
  { subst w'. cbn. split; [reflexivity|]. split; [reflexivity|].
    split; [reflexivity|]. intros opts resp Hopt Hresp Hv.
    destruct (Hsame _ _ Hopt Hresp) as [_ Hok']. rewrite Hok' in Hok.
    discriminate Hok. }
  destruct (body optionsResponse) as [| |options'| | | | | |] eqn:Hbody;
    try rewrite Hbody in Hw';
    try (subst w'; cbn; split; [reflexivity|]; split; [reflexivity|];
         split; [reflexivity|]; intros opts resp Hopt Hresp Hv;
         destruct (Hsame _ _ Hopt Hresp) as [Hb _]; discriminate Hb).
  destruct (startAuthentication options' salt) as [authResponse|e] eqn:Hstart;
    try rewrite Hstart in Hw'.
  2:{ subst w'. cbn. split; [reflexivity|]. split; [reflexivity|].
      split; [reflexivity|]. intros opts resp Hopt Hresp Hv.
      destruct (Hsame _ _ Hopt Hresp) as [Hb _]. injection Hb as <-.
      congruence. }
  destruct (verify_authentication (App.username (App.app w)) authResponse s2)
    as [verificationResponse s3] eqn:Hver.
  try rewrite Hver in Hw'. cbn [App.app App.server App.rng] in Hw'.
  assert (Hresponse : forall options response,
             optionsResponse = json (JRequestOptions options) ->
             startAuthentication options salt = Returned response ->
             response = authResponse).
  { intros opts resp Hopt Hresp.
    destruct (Hsame _ _ Hopt Hresp) as [Hb _]. injection Hb as <-.
    congruence. }
  destruct (is_verified verificationResponse) eqn:Hverified;
    try rewrite Hverified in Hw'.
  2:{ subst w'. cbn. split; [reflexivity|]. split; [reflexivity|].
      split; [reflexivity|]. intros opts resp Hopt Hresp Hv.
      rewrite (Hresponse _ _ Hopt Hresp), Hver in Hv. cbn [fst] in Hv.
      congruence. }
  destruct (ar_prf_first authResponse) as [prfResult|] eqn:Hprf;
    try rewrite Hprf in Hw'.
  2:{ subst w'. cbn. split; [reflexivity|]. split; [reflexivity|].
      split; [reflexivity|]. intros opts resp Hopt Hresp Hv.
      rewrite (Hresponse _ _ Hopt Hresp), Hver. cbn [snd].
      split; [reflexivity|]. split; [reflexivity|].
      intros prf Hp. congruence. }
  cbn [App.app App.server App.rng App.with_app] in Hw'.
  pose proof (check_blob_state (App.username (App.app w)) s3) as Hchk.
  destruct (check_blob (App.username (App.app w)) s3)
    as [blobCheckResponse s4] eqn:Hcheck.
  cbn [snd] in Hchk. subst s4. try rewrite Hcheck in Hw'.
  cbn [App.app App.server App.rng App.with_app] in Hw'.
  destruct (body blobCheckResponse) as [| | | | | | | |[|]] eqn:Hblob;
    try rewrite Hblob in Hw'; subst w'; cbn; (split; [reflexivity|]); (split; [reflexivity|]);
    (split; [reflexivity|]); intros opts resp Hopt Hresp Hv;
    rewrite (Hresponse _ _ Hopt Hresp), Hver; cbn [snd];
    (split; [reflexivity|]); (split; [reflexivity|]);
    intros prf Hp; (split; [congruence|]);
    try reflexivity;
    intros Hhas; rewrite Hcheck in Hhas; cbn [fst] in Hhas;
    rewrite Hhas in Hblob; discriminate Hblob.
Qed.

(** The requests [handleAuthenticate] leaves at the worker, as far as
    they write: none of them writes to [users] or to the bucket. *)
Lemma handleAuthenticate_requests `{SimpleWebAuthn} `{Browser} `{Platform}
  (challenge : string) (w : App.World) :
  exists rs,
    App.server (App.handleAuthenticate challenge w) = run rs (App.server w) /\
    Forall (fun r => writes_users r = false) rs /\
    Forall (fun r => writes_bucket r = false) rs.
Proof.
  unfold App.handleAuthenticate, App.tryAuthenticate.
  pose proof (get_prf_salt_state (App.username (App.app w))
                (App.server w)) as Hget.
  destruct (get_prf_salt _ _) as [saltResponse s1]. simpl in Hget. subst s1.
  cbn [App.app App.server App.rng App.with_app].
  match goal with
  | |- context [match ?salted with Returned _ => _ | Thrown _ => _ end] =>
      destruct salted as [[currentPrfSalt rng']|e]
  end; [|exists []; repeat split; constructor].
  cbn [App.app App.server App.rng].
  set (r1 := GenerateAuthenticationOptions (App.username (App.app w))
               challenge).
  change (generate_authentication_options (App.username (App.app w))
            challenge (App.server w)) with (handle r1 (App.server w)).
  assert (Hfirst : exists rs,
             snd (handle r1 (App.server w)) = run rs (App.server w) /\
             Forall (fun r => writes_users r = false) rs /\
             Forall (fun r => writes_bucket r = false) rs).
  { exists [r1]. repeat split; repeat constructor. }
  destruct (handle r1 (App.server w)) as [optionsResponse s2].
  cbn [snd] in Hfirst. cbn [App.app App.server App.rng].
  destruct (negb (App.ok optionsResponse)); [exact Hfirst|].
  destruct (body optionsResponse); try exact Hfirst.
  destruct (startAuthentication _ _) as [authResponse|e]; [|exact Hfirst].
  set (r2 := VerifyAuthentication (App.username (App.app w)) authResponse).
  change (verify_authentication (App.username (App.app w)) authResponse s2)
    with (handle r2 s2).
  assert (Hsecond : exists rs,
             snd (handle r2 s2) = run rs (App.server w) /\
             Forall (fun r => writes_users r = false) rs /\
             Forall (fun r => writes_bucket r = false) rs).
  { destruct Hfirst as (rs & Hrs & Hu & Hb). exists (rs ++ [r2])%list.
    split; [|split].
    - clear Hu Hb. revert Hrs. generalize (App.server w).
      induction rs as [|r rs IH]; intros s0 Hrs; cbn [run app].
      + cbn [run] in Hrs. rewrite Hrs. reflexivity.
      + apply IH. exact Hrs.
    - apply Forall_app. split; [exact Hu | repeat constructor].
    - apply Forall_app. split; [exact Hb | repeat constructor]. }
  destruct (handle r2 s2) as [verificationResponse s3].
  cbn [snd] in Hsecond. cbn [App.app App.server App.rng].
  destruct (is_verified verificationResponse); [|exact Hsecond].
  destruct (ar_prf_first authResponse); [|exact Hsecond].
  cbn [App.app App.server App.rng App.with_app].
  pose proof (check_blob_state (App.username (App.app w)) s3) as Hchk.
  destruct (check_blob _ _) as [blobCheckResponse s4].
  simpl in Hchk. subst s4.
  destruct (body blobCheckResponse) as [| | | | | | | |[|]]; exact Hsecond.
Qed.

Lemma handleAuthenticate_keeps_users `{SimpleWebAuthn} `{Browser}
  `{Platform} (challenge : string) (w : App.World) :
  users (DB (App.server (App.handleAuthenticate challenge w)))
  = users (DB (App.server w)) /\
  R2_BUCKET (App.server (App.handleAuthenticate challenge w))
  = R2_BUCKET (App.server w) /\
  (schema_constraints (DB (App.server w)) ->
   schema_constraints
     (DB (App.server (App.handleAuthenticate challenge w)))).
Proof.
  destruct (handleAuthenticate_requests challenge w) as (rs & -> & Hu & Hb).
  split; [|split].
  - apply (run_keeps writes_users (fun s0 => users (DB s0))); [|exact Hu].
    intros r s0. apply (handle_footprint r s0).
  - apply (run_keeps writes_bucket R2_BUCKET); [|exact Hb].
    intros r s0. apply (handle_footprint r s0).
  - apply run_constraints.
Qed.

Lemma getUserPrfSalt_salts db db' userId :
  salts db' = salts db -> getUserPrfSalt db' userId = getUserPrfSalt db userId.
Proof.
  unfold salts, getUserPrfSalt, userById.
  generalize (users db') (users db). clear db db'.
  induction l as [|u l IH]; intros [|v l'] Heq; try discriminate;
    [reflexivity|].
  cbn [map] in Heq. injection Heq as Hid Hsalt Hrest.
  cbn [List.find]. rewrite Hid.
  destruct (Z.eqb (u_id v) userId).
  - rewrite Hsalt. reflexivity.
  - apply IH, Hrest.
Qed.

(** Rows appended to [users] do not change the salt read for an id
    that had a row. *)
Lemma getUserPrfSalt_salts_extended db db' extra userId stored :
  salts db' = (salts db ++ extra)%list ->
  getUserPrfSalt db userId = Some stored ->
  getUserPrfSalt db' userId = Some stored.
Proof.
  unfold salts, getUserPrfSalt, userById.
  generalize (users db') (users db). clear db db'.
  intros l' l. revert l'.
  induction l as [|u l IH]; intros [|v l'] Heq; try discriminate.
  cbn [map app] in Heq. injection Heq as Hid Hsalt Hrest.
  cbn [List.find]. rewrite Hid.
  destruct (Z.eqb (u_id u) userId).
  - rewrite Hsalt. exact id.
  - apply IH, Hrest.
Qed.

(** A run without /save-prf-salt appends rows without salt and leaves
    the column as it was otherwise. *)
Lemma run_without_save_prf_salt `{SimpleWebAuthn} `{Platform}
  (rs : list Request) (s : Server) :
  forallb (fun r => negb (is_save_prf_salt r)) rs = true ->
  exists created,
    salts (DB (run rs s))
    = (salts (DB s) ++ map (fun i => (i, None)) created)%list.
Proof.
  revert s. induction rs as [|r rs IH]; intros s Hall; simpl.
  - exists []. rewrite app_nil_r. reflexivity.
  - simpl in Hall. apply andb_true_iff in Hall as [Hr Hrs].
    destruct (IH (snd (handle r s)) Hrs) as [later Hlater].
    pose proof (handle_salts r s) as Hstep.
    destruct r; try discriminate;
      destruct Hstep as [first Hfirst];
      exists (first ++ later)%list;
      rewrite Hlater, Hfirst, map_app, app_assoc; reflexivity.
Qed.

(** X18. Sign-in with a stored salt, whatever the verifier, the
    browser, the page and its random source: the page takes the salt
    from the server, draws no octet from its random source, holds after
    the handler the very octets the stored salt decodes to, and leaves
    the stored salt as it was. After any requests served since, none of
    them a /save-prf-salt, a sign-in of the same user from any page
    asks the authenticator with the same salt; a /save-prf-salt in
    between can replace the salt, so nothing is said of a sign-in after
    one. *)
Theorem sign_in_uses_the_stored_salt `{SimpleWebAuthn} `{Browser}
  `{Platform} (challenge : string) (w : App.World) (user : User)
  (stored : string) (salt : list byte) :
  getUser (DB (App.server w)) (App.username (App.app w)) = Some user ->
  getUserPrfSalt (DB (App.server w)) (u_id user) = Some stored ->
  base64UrlToUint8Array stored = Returned salt ->
  let w' := App.handleAuthenticate challenge w in
  App.rng w' = App.rng w /\
  App.prfSalt (App.app w') = Some salt /\
  getUserPrfSalt (DB (App.server w')) (u_id user) = Some stored /\
  (forall (rs : list Request) (challenge2 : string) (page : App.World),
      forallb (fun r => negb (is_save_prf_salt r)) rs = true ->
      App.server page = run rs (App.server w') ->
      App.username (App.app page) = App.username (App.app w) ->
      App.prfSalt (App.app (App.handleAuthenticate challenge2 page))
      = Some salt).
Proof.
  intros Hu Hsalt Hdecode. cbv zeta.
  destruct (handleAuthenticate_with_stored_salt challenge w user stored salt
              Hu Hsalt Hdecode) as (Hrng & Hprf & _ & _).
  pose proof (handleAuthenticate_writes_no_salt challenge w) as Hsalts.
  assert (Hsalt' : getUserPrfSalt
                     (DB (App.server (App.handleAuthenticate challenge w)))
                     (u_id user) = Some stored)
    by (rewrite (getUserPrfSalt_salts _ _ _ Hsalts); exact Hsalt).
  split; [exact Hrng|]. split; [exact Hprf|]. split; [exact Hsalt'|].
  intros rs challenge2 page Hrs Hserver Hname.
  destruct (handleAuthenticate_keeps_users challenge w) as (Husers & _ & _).
  assert (Hu1 : getUser
                  (DB (App.server (App.handleAuthenticate challenge w)))
                  (App.username (App.app w)) = Some user)
    by (unfold getUser; rewrite Husers; exact Hu).
  destruct (run_only_adds rs
              (App.server (App.handleAuthenticate challenge w)))
    as ((added & Hadded) & _ & _).
  destruct (getUser_extended _ _ _ _ _ Hadded Hu1) as (user' & Hu' & Hid & _).
  destruct (run_without_save_prf_salt rs
              (App.server (App.handleAuthenticate challenge w)) Hrs)
    as [created Hcreated].
  pose proof (getUserPrfSalt_salts_extended _ _ _ _ _ Hcreated Hsalt')
    as Hsalt''.
  rewrite <- Hserver in Hu', Hsalt''. rewrite <- Hname in Hu'.
  rewrite <- Hid in Hsalt''.
  destruct (handleAuthenticate_with_stored_salt challenge2 page user' stored
              salt Hu' Hsalt'' Hdecode) as (_ & Hprf2 & _).
  exact Hprf2.
Qed.

(** X18 on the demo tables: alice, whose stored salt encodes the octets
    of [salt-one], signs in from a fresh page; then carol begins a
    registration and bob stores a blob, and alice signs in from another
    page. *)
Lemma sign_in_uses_the_stored_salt_witness :
  let V := challenge_verifier 0 in
  let B := prf_browser [x2a] in
  let w := App.mkWorld (fresh_page "alice") demo_server counting_random in
  let w' := @App.handleAuthenticate V B "auth-1" w in
  let rs :=
    [GenerateRegistrationOptions "carol" "reg-1";
     StoreBlob "bob" "aGVsbG8=" (Some "bm9uY2U")] in
  let page :=
    App.mkWorld (fresh_page "alice")
      (@run V demo_platform rs (App.server w')) (mkRandom (fun _ => x07) 0) in
  App.rng w' = counting_random /\
  App.prfSalt (App.app w') = Some (charCodes "salt-one") /\
  getUserPrfSalt (DB (App.server w')) 1 = Some "c2FsdC1vbmU" /\
  App.prfSalt (App.app (@App.handleAuthenticate V B "auth-2" page))
  = Some (charCodes "salt-one").
Proof.
  cbv zeta.
  destruct (@sign_in_uses_the_stored_salt (challenge_verifier 0)
              (prf_browser [x2a]) demo_platform "auth-1"
              (App.mkWorld (fresh_page "alice") demo_server counting_random)
              alice "c2FsdC1vbmU" (charCodes "salt-one") eq_refl eq_refl
              eq_refl)
    as (Hrng & Hsalt & Hstored & Hlater).
  split; [exact Hrng|]. split; [exact Hsalt|]. split; [exact Hstored|].
  apply (Hlater
           [GenerateRegistrationOptions "carol" "reg-1";
            StoreBlob "bob" "aGVsbG8=" (Some "bm9uY2U")]);
    reflexivity.
Defined.

(** ** A sign-in that succeeds *)

Lemma find_unique_cred (l : list PasskeyRow) (r : PasskeyRow) :
  List.NoDup (map cred_id l) -> In r l ->
  List.find (fun x => String.eqb (cred_id x) (cred_id r)) l = Some r.
Proof.
  induction l as [|y l IH]; intros Hnd Hin; [destruct Hin|].
  cbn [map] in Hnd. inversion Hnd as [|? ? Hy Hl]; subst.
  cbn [List.find]. destruct (String.eqb (cred_id y) (cred_id r)) eqn:Heq.
  - destruct Hin as [-> | Hin]; [reflexivity|].
    exfalso. apply Hy. apply String.eqb_eq in Heq. rewrite Heq.
    apply in_map, Hin.
  - destruct Hin as [-> | Hin];
      [rewrite String.eqb_refl in Heq; discriminate|].
    apply IH; assumption.
Qed.

(** Under the constraints of the schema a passkey listed for a user is
    the passkey found under its id. *)
Lemma getPasskeyById_of_user db user passkey :
  schema_constraints db ->
  userById db (u_id user) = Some user ->
  In passkey (getUserPasskeys db (u_id user)) ->
  getPasskeyById db (pk_id passkey) = Some passkey.
Proof.
  intros (_ & _ & Hcreds & _) Huser. unfold getUserPasskeys.
  rewrite Huser. intros Hin.
  apply in_map_iff in Hin as (row & <- & Hrow).
  apply filter_In in Hrow as [Hrow Hid]. apply Z.eqb_eq in Hid.
  unfold getPasskeyById. cbn [passkey_of_row pk_id].
  rewrite (find_unique_cred _ _ Hcreds Hrow), Hid, Huser. reflexivity.
Qed.

(** A user who has a passkey keeps having one when rows are only
    added. *)
Lemma getUserPasskeys_extended db db' au ap userId :
  map identity (users db') = (map identity (users db) ++ au)%list ->
  map binding (passkeys db') = (map binding (passkeys db) ++ ap)%list ->
  getUserPasskeys db userId <> [] -> getUserPasskeys db' userId <> [].
Proof.
  intros Hus Hpk. unfold getUserPasskeys.
  destruct (userById db userId) as [user|] eqn:Huser; [|congruence].
  destruct (userById_extended _ _ _ _ _ Hus Huser) as (user' & -> & _).
  intros Hne Hnil. apply Hne.
  apply map_eq_nil in Hnil.
  destruct (List.filter _ (passkeys db)) as [|row rest] eqn:Hrows;
    [reflexivity|].
  exfalso.
  assert (Hin : In row (List.filter
                          (fun r => Z.eqb (internal_user_id r) userId)
                          (passkeys db)))
    by (rewrite Hrows; left; reflexivity).
  apply filter_In in Hin as [Hin Hid].
  assert (Hb : In (binding row) (map binding (passkeys db')))
    by (rewrite Hpk; apply in_app_iff; left; apply in_map, Hin).
  apply in_map_iff in Hb as (row' & Hview & Hin').
  assert (Hin2 : In row' (List.filter
                            (fun r => Z.eqb (internal_user_id r) userId)
                            (passkeys db'))).
  { apply filter_In. split; [exact Hin'|].
    unfold binding in Hview. injection Hview as _ Huid _.
    rewrite Huid. exact Hid. }
  rewrite Hnil in Hin2. destruct Hin2.
Qed.

(** With the verifier that checks the challenge and the browser whose
    authenticator holds [secret], the sign-in of a user with a stored
    salt and a passkey succeeds, and the page then holds the PRF of the
    stored salt. *)
Lemma sign_in_succeeds (reported : Z) (secret salt : list byte)
  (challenge : string) (w : App.World) (user : User) :
  schema_constraints (DB (App.server w)) ->
  getUser (DB (App.server w)) (App.username (App.app w)) = Some user ->
  getUserPrfSalt (DB (App.server w)) (u_id user) = Some (base64url salt) ->
  getUserPasskeys (DB (App.server w)) (u_id user) <> [] ->
  challenge <> "" ->
  let w' :=
    @App.handleAuthenticate (challenge_verifier reported)
      (prf_browser secret) challenge w in
  App.isAuthenticated (App.app w') = true /\
  App.prfOutput (App.app w') = Some (authenticator_prf secret salt) /\
  App.username (App.app w') = App.username (App.app w) /\
  App.rng w' = App.rng w /\
  (fst (check_blob (App.username (App.app w)) (App.server w'))
   = json (JHasBlob true) ->
   App.hasBlob (App.app w') = true) /\
  getUserPasskeys (DB (App.server w')) (u_id user) <> [].
Proof.
  intros Hsc Hu Hsalt Hpks Hc. cbv zeta.
  destruct (@handleAuthenticate_with_stored_salt (challenge_verifier reported)
              (prf_browser secret) challenge w user (base64url salt) salt Hu
              Hsalt (base64UrlToUint8Array_base64url salt))
    as (Hrng & _ & Hname & Hpath).
  cbv zeta in Hpath.
  destruct (getUserPasskeys (DB (App.server w)) (u_id user))
    as [|passkey rest] eqn:Hlist; [congruence|].
  set (name := App.username (App.app w)) in *.
  set (options :=
         mkRequestOptions
           (mkAuthOpts rpID (map descriptor_of (passkey :: rest))
              "preferred" true) challenge).
  set (response :=
         mkAuthResponse (pk_id passkey) challenge
           (Some (authenticator_prf secret salt))).
  assert (Hgen : generate_authentication_options name challenge
                   (App.server w)
                 = (json (JRequestOptions options),
                    mkServer (DB (App.server w)) (R2_BUCKET (App.server w))
                      (<[name := challenge]> (challenges (App.server w))))).
  { unfold generate_authentication_options. rewrite Hu, Hlist. reflexivity. }
  assert (Hfound : getPasskeyById (DB (App.server w)) (pk_id passkey)
                   = Some passkey).
  { apply (getPasskeyById_of_user _ user).
    - exact Hsc.
    - apply (getUser_row _ _ _ Hsc Hu).
    - rewrite Hlist. left. reflexivity. }
  assert (Hver : is_verified
                   (fst (@verify_authentication (challenge_verifier reported)
                           name response
                           (snd (generate_authentication_options name
                                   challenge (App.server w))))) = true).
  { rewrite Hgen. cbn [snd]. unfold verify_authentication.
    cbn [challenges DB]. rewrite lookup_insert_eq.
    apply String.eqb_neq in Hc. rewrite Hc, Hu.
    unfold response at 1. cbn [ar_id]. rewrite Hfound.
    cbn [verifyAuthenticationResponse challenge_verifier va_verified
         ar_payload response].
    rewrite String.eqb_refl. reflexivity. }
  destruct (Hpath options response) as (Hserver & Hauth & Hprf).
  - rewrite Hgen. reflexivity.
  - reflexivity.
  - exact Hver.
  - destruct (Hprf (authenticator_prf secret salt) eq_refl) as [Hout Hblob].
    repeat (split; [assumption|]).
    rewrite Hserver.
    destruct (@handle_keeps (challenge_verifier reported) demo_platform
                (VerifyAuthentication name response)
                (snd (generate_authentication_options name challenge
                        (App.server w)))) as ((au & Hus) & (ap & Hpk) & _).
    cbn [handle] in Hus, Hpk. rewrite Hgen in Hus, Hpk |- *.
    cbn [snd DB] in Hus, Hpk |- *.
    apply (getUserPasskeys_extended _ _ _ _ _ Hus Hpk).
    rewrite Hlist. discriminate.
Qed.

(** ** A registration that succeeds *)

Lemma generate_registration_options_value (username challenge : string)
  (s : Server) :
  exists user db1 options,
    generate_registration_options username challenge s
    = (json (JCreationOptions options),
       mkServer db1 (R2_BUCKET s)
         (<[username := challenge]> (challenges s))) /\
    co_challenge options = challenge /\
    getUser db1 username = Some user /\
    passkeys db1 = passkeys (DB s) /\
    (schema_constraints (DB s) -> schema_constraints db1).
Proof.
  unfold generate_registration_options.
  destruct (getUser (DB s) username) as [user|] eqn:Hu.
  - exists user, (DB s). eexists. split; [reflexivity|]. auto.
  - destruct (createUser_returns _ _ Hu) as (user & db1 & Hcreate).
    rewrite Hcreate. exists user, db1. eexists.
    split; [reflexivity|]. split; [reflexivity|].
    pose proof Hcreate as Hc. unfold createUser in Hc. rewrite Hu in Hc.
    injection Hc as <- <-. split; [|split].
    + unfold getUser. cbn [users]. apply find_snoc_new; [exact Hu|].
      apply String.eqb_refl.
    + reflexivity.
    + intros Hsc. exact (createUser_constraints _ _ _ _ Hsc Hcreate).
Qed.

Lemma base64url_nonempty (array : list byte) :
  array <> [] -> String.eqb (base64url array) "" = false.
Proof.
  intros Hne. destruct (base64url_shape array) as [_ Hlen].
  destruct (base64url array) eqn:Hs; [|reflexivity].
  destruct array; [congruence|]. cbn [length String.length] in Hlen.
  lia.
Qed.

(** With the verifier that checks the challenge and the browser that
    registers the credential [cred-new], the registration from a page
    that holds no salt succeeds when [cred-new] is not registered yet:
    afterwards the user exists, the salt the page drew is the stored
    salt, and the user has a passkey. *)
Lemma registration_succeeds `{Platform} (reported : Z) (secret : list byte)
  (challenge : string) (w : App.World) :
  schema_constraints (DB (App.server w)) ->
  has_cred (DB (App.server w)) "cred-new" = false ->
  challenge <> "" ->
  App.prfSalt (App.app w) = None ->
  (32 <= page_max_arguments)%N ->
  let w' :=
    @App.handleRegister (challenge_verifier reported) (prf_browser secret) _
      challenge w in
  exists user,
    getUser (DB (App.server w')) (App.username (App.app w)) = Some user /\
    getUserPrfSalt (DB (App.server w')) (u_id user)
    = Some (base64url (random_octets 32 (App.rng w))) /\
    getUserPasskeys (DB (App.server w')) (u_id user) <> [] /\
    schema_constraints (DB (App.server w')) /\
    App.username (App.app w') = App.username (App.app w).
Proof.
  intros Hsc Hcred Hc Hnone Hpage. cbv zeta.
  remember (@App.handleRegister (challenge_verifier reported)
              (prf_browser secret) _ challenge w) as w' eqn:Hw'.
  unfold App.handleRegister, App.tryRegister in Hw'.
  rewrite Hnone in Hw'.
  cbn [App.app App.server App.rng App.with_app] in Hw'.
  rewrite generatePrfSalt_value in Hw'.
  assert (Hsalt : String.eqb (base64url (random_octets 32 (App.rng w))) ""
                  = false).
  { apply base64url_nonempty.
    intros Hnil. apply (f_equal (@length byte)) in Hnil.
    rewrite random_octets_length in Hnil. discriminate Hnil. }
  assert (Hencoded : uint8ArrayToBase64Url (random_octets 32 (App.rng w))
                     = Returned (base64url (random_octets 32 (App.rng w)))).
  { apply uint8ArrayToBase64Url_fits. rewrite random_octets_length.
    exact Hpage. }
  remember (random_octets 32 (App.rng w)) as salt eqn:Esalt.
  cbn [App.app App.server App.rng App.with_app] in Hw'.
  destruct (generate_registration_options_value
              (App.username (App.app w)) challenge (App.server w))
    as (user & db1 & options & Hgen & Hch & Hu1 & Hpk1 & Hsc1).
  rewrite Hgen in Hw'.
  cbn [App.app App.server App.rng App.with_app App.ok json status body
       negb andb Z.leb Z.compare Pos.compare Pos.compare_cont] in Hw'.
  cbn [startRegistration prf_browser] in Hw'. rewrite Hch in Hw'.
  unfold verify_registration in Hw'.
  cbn [challenges DB R2_BUCKET] in Hw'.
  rewrite lookup_insert_eq in Hw'.
  apply String.eqb_neq in Hc. rewrite Hc, Hu1 in Hw'.
  cbn [verifyRegistrationResponse challenge_verifier rr_payload
       vr_verified vr_registrationInfo] in Hw'.
  rewrite String.eqb_refl in Hw'.
  unfold savePasskey in Hw'.
  cbn [pk_webAuthnUserID pk_id pk_publicKey pk_user pk_counter
       pk_deviceType pk_backedUp pk_transports ri_credential wc_id rr_id
       wc_publicKey wc_counter ri_credentialDeviceType
       ri_credentialBackedUp rr_transports rr_userHandle] in Hw'.
  assert (Hcred1 : has_cred db1 "cred-new" = false)
    by (unfold has_cred in *; rewrite Hpk1; exact Hcred).
  rewrite Hcred1, (getUser_has_user _ _ _ Hu1) in Hw'.
  cbn [negb App.app App.server App.rng App.with_app is_verified body json]
    in Hw'.
  rewrite Hencoded in Hw'.
  set (row := mkPasskeyRow _ _ _ _ _ _ _ _) in Hw'.
  set (db2 := mkD1 (users db1) (users_seq db1) (passkeys db1 ++ [row]))
    in Hw'.
  assert (Hu2 : getUser db2 (App.username (App.app w)) = Some user)
    by exact Hu1.
  unfold save_prf_salt in Hw'. cbn [DB R2_BUCKET challenges] in Hw'.
  rewrite Hu2 in Hw'.
  cbn [App.app App.server App.rng App.with_app] in Hw'.
  subst w'. cbn [App.app App.server App.rng App.with_app DB
                 App.username App.setMessage App.setPrfSalt].
  assert (Hsc2 : schema_constraints db2).
  { apply (savePasskey_constraints db1
             (mkPasskey "cred-new" [] user
                (Some (js_or None (toString (u_id user)))) 0 singleDevice
                false (Some ["internal"]))).
    - apply Hsc1, Hsc.
    - cbn [pk_user]. apply in_map. apply (getUser_in _ _ _ Hu1).
    - unfold savePasskey.
      cbn [pk_webAuthnUserID pk_id pk_publicKey pk_user pk_counter
           pk_deviceType pk_backedUp pk_transports].
      rewrite Hcred1, (getUser_has_user _ _ _ Hu1). reflexivity. }
  pose proof (getUser_row _ _ _ Hsc2 Hu2) as Hrow2.
  exists (mkUser (u_id user) (u_username user)
            (Some (base64url salt))
            (u_encrypted_blob_key user) (u_blob_nonce user)).
  cbn [u_id]. split; [|split; [|split; [|split]]].
  - rewrite getUser_saveUserPrfSalt, Hu2. cbn [option_map].
    rewrite Z.eqb_refl. reflexivity.
  - unfold getUserPrfSalt. rewrite userById_saveUserPrfSalt, Hrow2.
    cbn [option_map]. rewrite Z.eqb_refl. cbn [u_prf_salt truthy].
    rewrite Hsalt. reflexivity.
  - unfold getUserPasskeys. rewrite userById_saveUserPrfSalt, Hrow2.
    cbn [option_map saveUserPrfSalt passkeys db2].
    rewrite List.filter_app. unfold row.
    cbn [List.filter internal_user_id]. rewrite Z.eqb_refl.
    rewrite map_app. intros Hnil. apply app_eq_nil in Hnil as [_ Hnil].
    discriminate Hnil.
  - apply saveUserPrfSalt_constraints, Hsc2.
  - reflexivity.
Qed.

(** ** From one session to the next *)

Lemma getUserPrfSalt_users db db' userId :
  users db' = users db -> getUserPrfSalt db' userId = getUserPrfSalt db userId.
Proof. unfold getUserPrfSalt, userById. intros ->. reflexivity. Qed.

Lemma getUser_users db db' username :
  users db' = users db -> getUser db' username = getUser db username.
Proof. unfold getUser. intros ->. reflexivity. Qed.

Lemma getUserBlobReference_users db db' userId :
  users db' = users db ->
  getUserBlobReference db' userId = getUserBlobReference db userId.
Proof. unfold getUserBlobReference, userById. intros ->. reflexivity. Qed.

(** X19. What is encrypted in one session is decrypted in the next.
    With a verifier that accepts the answers to its own challenges and
    an authenticator that holds one secret: a user registers from a
    fresh page, signs in, and stores a message that is not blank; then
    a fresh page, with another random source, signs the same user in
    and retrieves. The second sign-in gets the same PRF output as the
    first, because both take the salt the registration stored; it is
    told that a blob is stored; and the page shows the message that was
    stored, octet for octet. This is for a message whose UTF-8 form
    does not begin with a byte order mark, which [TextDecoder] would
    drop, on a platform whose AES-GCM takes the nonce of twelve octets,
    and for a ciphertext of no more octets than a call takes arguments
    on the page and in the worker. *)
Theorem message_is_decrypted_in_a_later_session `{Platform} (reported : Z)
  (secret : list byte) (name M c1 c2 c3 : string) (s : Server)
  (rng1 rng2 : Random) :
  schema_constraints (DB s) ->
  has_cred (DB s) "cred-new" = false ->
  c1 <> "" -> c2 <> "" -> c3 <> "" ->
  is_blank M = false ->
  plain_text M = true ->
  aes_gcm_takes_iv 12 = true ->
  (32 <= page_max_arguments)%N ->
  (N.of_nat (length (TextEncoder_encode M) + 16) <= page_max_arguments)%N ->
  (N.of_nat (length (TextEncoder_encode M) + 16) <= worker_max_arguments)%N ->
  let V := challenge_verifier reported in
  let B := prf_browser secret in
  let w1 :=
    @App.handleRegister V B _ c1 (App.mkWorld (fresh_page name) s rng1) in
  let w2 := @App.handleAuthenticate V B c2 w1 in
  let w3 :=
    App.handleEncryptAndStore (App.with_app (App.setUserMessage M) w2) in
  let w4 :=
    @App.handleAuthenticate V B c3
      (App.mkWorld (fresh_page name) (App.server w3) rng2) in
  let w5 := App.handleRetrieveAndDecrypt w4 in
  App.isAuthenticated (App.app w2) = true /\
  (exists salt rng', generatePrfSalt rng1 = Returned (salt, rng') /\
                     App.prfOutput (App.app w2)
                     = Some (authenticator_prf secret salt)) /\
  App.prfOutput (App.app w4) = App.prfOutput (App.app w2) /\
  App.hasBlob (App.app w4) = true /\
  App.decryptedMessage (App.app w5) = M.
Proof.
  intros Hsc Hcred Hc1 Hc2 Hc3 HM Hplain Hiv Hpage32 Hpage Hworker.
  cbv zeta.
  (* registration *)
  destruct (registration_succeeds reported secret c1
              (App.mkWorld (fresh_page name) s rng1) Hsc Hcred Hc1 eq_refl
              Hpage32)
    as (user1 & Hu1 & Hsalt1 & Hpk1 & Hsc1 & Hname1).
  cbn [App.username App.app fresh_page App.rng] in Hu1, Hsalt1, Hname1.
  pose proof (generatePrfSalt_value rng1) as Hdrawn.
  remember (random_octets 32 rng1) as salt eqn:Esalt. clear Esalt.
  remember (@App.handleRegister (challenge_verifier reported)
              (prf_browser secret) _ c1
              (App.mkWorld (fresh_page name) s rng1)) as w1 eqn:E1.
  clear E1.
  (* first sign-in *)
  assert (Hu1' : getUser (DB (App.server w1)) (App.username (App.app w1))
                 = Some user1) by (rewrite Hname1; exact Hu1).
  destruct (sign_in_succeeds reported secret salt c2 w1 user1 Hsc1 Hu1'
              Hsalt1 Hpk1 Hc2)
    as (Hauth2 & Hprf2 & Hname2 & _ & _ & Hpk2).
  destruct (@handleAuthenticate_keeps_users (challenge_verifier reported)
              (prf_browser secret) _ c2 w1) as (Husers2 & _ & Hsc2).
  specialize (Hsc2 Hsc1).
  remember (@App.handleAuthenticate (challenge_verifier reported)
              (prf_browser secret) c2 w1) as w2 eqn:E2.
  clear E2.
  rewrite Hname1 in Hname2.
  assert (Hu2 : getUser (DB (App.server w2)) name = Some user1)
    by (rewrite (getUser_users _ _ _ Husers2); exact Hu1).
  assert (Hsalt2 : getUserPrfSalt (DB (App.server w2)) (u_id user1)
                   = Some (base64url salt))
    by (rewrite (getUserPrfSalt_users _ _ _ Husers2); exact Hsalt1).
  clear Hu1 Hu1' Hsalt1 Hpk1 Hsc1 Hname1 Husers2 w1.
  remember (authenticator_prf secret salt) as prf eqn:Eprf.
  (* the store *)
  remember (App.with_app (App.setUserMessage M) w2) as w2' eqn:E2'.
  assert (Hprf2' : App.prfOutput (App.app w2') = Some prf)
    by (subst w2'; exact Hprf2).
  assert (Hu2' : getUser (DB (App.server w2')) (App.username (App.app w2'))
                 = Some user1)
    by (subst w2'; cbn [App.username App.server App.app App.with_app
                        App.setUserMessage]; rewrite Hname2; exact Hu2).
  assert (HM' : is_blank (App.userMessage (App.app w2')) = false)
    by (subst w2'; exact HM).
  assert (Hpage' : (N.of_nat
                      (length
                         (TextEncoder_encode (App.userMessage (App.app w2')))
                       + 16) <= page_max_arguments)%N)
    by (subst w2'; exact Hpage).
  destruct (handleEncryptAndStore_stores w2' prf user1 Hprf2' Hu2' HM' Hiv
              Hpage')
    as (Hs3 & _).
  assert (Eserver : App.server w2' = App.server w2) by (subst w2'; reflexivity).
  assert (Erng : App.rng w2' = App.rng w2) by (subst w2'; reflexivity).
  assert (Emsg : App.userMessage (App.app w2') = M)
    by (subst w2'; reflexivity).
  rewrite Eserver, Erng, Emsg in Hs3.
  remember (App.handleEncryptAndStore w2') as w3 eqn:E3.
  clear E3 E2' Hprf2' Hu2' HM' Hpage' Eserver Erng Emsg w2'.
  pose proof (random_octets_length 12 (App.rng w2)) as Hnonce.
  remember (random_octets 12 (App.rng w2)) as nonce eqn:Enonce.
  clear Enonce.
  remember (mkUser (u_id user1) (u_username user1) (u_prf_salt user1)
              (Some (blob_key user1))
              (Some (base64url nonce))) as user3 eqn:E3.
  assert (Hid3 : u_id user3 = u_id user1) by (subst user3; reflexivity).
  assert (Hu3 : getUser (DB (App.server w3)) name = Some user3).
  { rewrite Hs3. cbn [DB]. rewrite getUser_update_blob_reference_row, Hu2.
    cbn [option_map]. rewrite Z.eqb_refl. subst user3. reflexivity. }
  assert (Hsc3 : schema_constraints (DB (App.server w3))).
  { rewrite Hs3. cbn [DB]. apply update_blob_reference_constraints, Hsc2. }
  assert (Hsalt3 : getUserPrfSalt (DB (App.server w3)) (u_id user3)
                   = Some (base64url salt)).
  { rewrite Hs3, Hid3. cbn [DB].
    rewrite (getUserPrfSalt_salts _ _ _
               (salts_update_blob_reference _ _ _ _)).
    exact Hsalt2. }
  destruct (getUser_userById _ _ _ Hu2) as (row2 & Hrow2 & _).
  destruct (getUserBlobReference_update_blob_reference
              (DB (App.server w2)) (u_id user1) (blob_key user1)
              (base64url nonce) row2 Hrow2) as [Href3 _].
  assert (Hpk3 : getUserPasskeys (DB (App.server w3)) (u_id user3) <> []).
  { rewrite Hs3, Hid3. cbn [DB].
    apply (getUserPasskeys_extended (DB (App.server w2)) _ [] []);
      [| |exact Hpk2].
    - rewrite app_nil_r. unfold update_blob_reference. cbn [users].
      rewrite map_map. apply map_ext. intros u.
      destruct (Z.eqb (u_id u) (u_id user1)); reflexivity.
    - rewrite app_nil_r. reflexivity. }
  assert (Hobject : R2_BUCKET (App.server w3) !! blob_key user1
                    = Some (GCM.seal (page_key prf) nonce
                              (TextEncoder_encode M)))
    by (rewrite Hs3; cbn [R2_BUCKET]; apply lookup_insert_eq).
  assert (Href3' : getUserBlobReference (DB (App.server w3)) (u_id user3)
                   = Some (Some (blob_key user1),
                           Some (base64url nonce)))
    by (rewrite Hs3, Hid3; exact Href3).
  clear Hs3 Href3 Hrow2 row2 Hu2 Hsalt2 Hsc2 Hpk2 E3.
  (* the second session *)
  remember (App.mkWorld (fresh_page name) (App.server w3) rng2) as page
    eqn:Epage.
  assert (Hpserver : App.server page = App.server w3)
    by (subst page; reflexivity).
  assert (Hpname : App.username (App.app page) = name)
    by (subst page; reflexivity).
  clear Epage.
  rewrite <- Hpserver in Hsc3, Hu3, Hsalt3, Hpk3, Hobject, Href3'.
  rewrite <- Hpname in Hu3.
  destruct (sign_in_succeeds reported secret salt c3 page user3 Hsc3 Hu3
              Hsalt3 Hpk3 Hc3)
    as (_ & Hprf4 & Hname4 & _ & Hblob4 & _).
  rewrite <- Eprf in Hprf4.
  destruct (@handleAuthenticate_keeps_users (challenge_verifier reported)
              (prf_browser secret) _ c3 page) as (Husers4 & Hbucket4 & _).
  remember (@App.handleAuthenticate (challenge_verifier reported)
              (prf_browser secret) c3 page) as w4 eqn:E4.
  clear E4.
  assert (Hu4 : getUser (DB (App.server w4)) (App.username (App.app w4))
                = Some user3)
    by (rewrite Hname4, (getUser_users _ _ _ Husers4); exact Hu3).
  assert (Href4 : getUserBlobReference (DB (App.server w4)) (u_id user3)
                  = Some (Some (blob_key user1),
                          Some (base64url nonce)))
    by (rewrite (getUserBlobReference_users _ _ _ Husers4); exact Href3').
  assert (Hhas : App.hasBlob (App.app w4) = true).
  { apply Hblob4. unfold check_blob. rewrite <- Hname4, Hu4, Href4.
    cbn [fst truthy]. rewrite blob_key_nonempty. reflexivity. }
  assert (Hobject4 : R2_BUCKET (App.server w4) !! blob_key user1
                     = Some (GCM.seal (page_key prf) nonce
                               (TextEncoder_encode M)))
    by (rewrite Hbucket4; exact Hobject).
  assert (Hiv4 : aes_gcm_takes_iv (length nonce) = true)
    by (rewrite Hnonce; exact Hiv).
  destruct (handleRetrieveAndDecrypt_decrypts w4 prf user3 (blob_key user1)
              nonce (TextEncoder_encode M) Hprf4 Hu4 Href4
              (blob_key_nonempty user1) Hobject4 Hiv4 Hworker)
    as (_ & Hmsg & _).
  split; [exact Hauth2|].
  split.
  { exists salt. eexists. split; [exact Hdrawn|].
    rewrite Hprf2, Eprf. reflexivity. }
  split; [rewrite Hprf4, Hprf2; reflexivity|]. split; [exact Hhas|].
  rewrite Hmsg. apply TextDecoder_decode_TextEncoder_encode, Hplain.
Qed.

(** X19 from empty tables. *)
Lemma message_is_decrypted_in_a_later_session_witness :
  let V := challenge_verifier 1 in
  let B := prf_browser [x2a] in
  let w1 :=
    @App.handleRegister V B demo_platform "reg-1"
      (App.mkWorld (fresh_page "carol") empty_server counting_random) in
  let w2 := @App.handleAuthenticate V B "auth-1" w1 in
  let w3 :=
    @App.handleEncryptAndStore demo_platform
      (App.with_app (App.setUserMessage "meet at noon") w2) in
  let w4 :=
    @App.handleAuthenticate V B "auth-2"
      (App.mkWorld (fresh_page "carol") (App.server w3)
         (mkRandom (fun _ => x07) 0)) in
  let w5 := @App.handleRetrieveAndDecrypt demo_platform w4 in
  App.hasBlob (App.app w4) = true /\
  App.decryptedMessage (App.app w5) = "meet at noon".
Proof.
  cbv zeta.
  destruct (@message_is_decrypted_in_a_later_session demo_platform 1 [x2a]
              "carol" "meet at noon" "reg-1" "auth-1" "auth-2" empty_server
              counting_random (mkRandom (fun _ => x07) 0))
    as (_ & _ & _ & Hhas & Hmsg).
  - repeat split; constructor.
  - reflexivity.
  - discriminate.
  - discriminate.
  - discriminate.
  - reflexivity.
  - reflexivity.
  - reflexivity.
  - vm_compute. discriminate.
  - vm_compute. discriminate.
  - vm_compute. discriminate.
  - split; [exact Hhas | exact Hmsg].
Defined.

(** ** Logout *)

(** X20. [handleLogout] puts the page back as it was loaded, the
    username field apart: signed out, with no PRF output, no salt, no
    message, no ciphertext and no plaintext. It contacts nobody and
    draws nothing. On such a page [handleEncryptAndStore] and
    [handleRetrieveAndDecrypt] ask for a sign-in and leave the worker
    and the random source alone, whatever is typed as a message. *)
Theorem handleLogout_forgets `{Platform} (w : App.World) (typed : string) :
  let w' := App.handleLogout w in
  App.app w' = fresh_page (App.username (App.app w)) /\
  App.server w' = App.server w /\
  App.rng w' = App.rng w /\
  (let w'' :=
     App.handleEncryptAndStore (App.with_app (App.setUserMessage typed) w') in
   App.server w'' = App.server w /\ App.rng w'' = App.rng w /\
   App.encryptedMessage (App.app w'') = "" /\
   App.message (App.app w'')
   = "Please authenticate first to get PRF encryption key.") /\
  (let w'' := App.handleRetrieveAndDecrypt w' in
   App.server w'' = App.server w /\ App.rng w'' = App.rng w /\
   App.decryptedMessage (App.app w'') = "" /\
   App.decryptedBlob (App.app w'') = None /\
   App.message (App.app w'')
   = "Please authenticate first to get PRF decryption key.").
Proof.
  cbv zeta. destruct w as [[name msg auth prf has blob um em dm salt] s rng].
  repeat split.
Qed.

(** ** What the status line says *)

(** What [handleEncryptAndStore] says when the platform refuses the
    nonce or the ciphertext does not fit the arguments of a call. *)
Lemma handleEncryptAndStore_throws `{Platform} (w : App.World)
  (prf : list byte) :
  App.prfOutput (App.app w) = Some prf ->
  is_blank (App.userMessage (App.app w)) = false ->
  aes_gcm_takes_iv 12 = false \/
  (page_max_arguments
   < N.of_nat (length (TextEncoder_encode (App.userMessage (App.app w))) + 16))%N
  ->
  exists e,
    App.message (App.app (App.handleEncryptAndStore w))
    = ("Encryption error: " ++ e)%string /\
    App.server (App.handleEncryptAndStore w) = App.server w.
Proof.
  intros Hprf Hblank Hfail.
  unfold App.handleEncryptAndStore. rewrite Hprf, Hblank.
  unfold App.tryEncryptAndStore.
  cbn [App.app App.server App.rng App.with_app].
  rewrite generateNonce_value.
  rewrite deriveEncryptionKey_value. cbv beta iota.
  rewrite encryptData_value, random_octets_length.
  destruct (aes_gcm_takes_iv 12) eqn:Hiv.
  - destruct Hfail as [Hfail | Hlarge]; [discriminate Hfail|].
    rewrite fromCharCodes_large by (rewrite seal_length; exact Hlarge).
    eexists. split; reflexivity.
  - eexists. split; reflexivity.
Qed.

(** X21. When the status line says that the message was encrypted and
    stored, it was: the page holds a PRF output, the message is not
    blank, the user exists, and the bucket holds, under the key of that
    user, what AES-256-GCM makes of the message under the key of the
    page and the nonce the page drew, which opens to the message
    again; the user's row refers to that object and carries the nonce;
    and the page has its blob flag set. *)
Theorem stored_message_is_in_the_bucket `{Platform} (w : App.World) :
  let w' := App.handleEncryptAndStore w in
  App.message (App.app w')
  = "Successfully encrypted and stored message in R2!" ->
  exists prf user nonce rng' encoded,
    let plaintext := TextEncoder_encode (App.userMessage (App.app w)) in
    App.prfOutput (App.app w) = Some prf /\
    is_blank (App.userMessage (App.app w)) = false /\
    getUser (DB (App.server w)) (App.username (App.app w)) = Some user /\
    generateNonce (App.rng w) = Returned (nonce, rng') /\
    uint8ArrayToBase64Url nonce = Returned encoded /\
    R2_BUCKET (App.server w') !! blob_key user
    = Some (GCM.seal (page_key prf) nonce plaintext) /\
    GCM.open (page_key prf) nonce (GCM.seal (page_key prf) nonce plaintext)
    = Some plaintext /\
    getUserBlobReference (DB (App.server w')) (u_id user)
    = Some (Some (blob_key user), Some encoded) /\
    App.hasBlob (App.app w') = true.
Proof.
  cbv zeta.
  destruct (App.prfOutput (App.app w)) as [prf|] eqn:Hprf.
  2:{ unfold App.handleEncryptAndStore. rewrite Hprf. cbn. discriminate. }
  destruct (is_blank (App.userMessage (App.app w))) eqn:Hblank.
  { unfold App.handleEncryptAndStore. rewrite Hprf, Hblank. cbn.
    discriminate. }
  destruct (aes_gcm_takes_iv 12) eqn:Hiv.
  2:{ destruct (handleEncryptAndStore_throws w prf Hprf Hblank
                  (or_introl Hiv)) as (e & -> & _).
      intros Hm. cbv [append] in Hm. discriminate Hm. }
  destruct (N.ltb_spec page_max_arguments
              (N.of_nat
                 (length (TextEncoder_encode (App.userMessage (App.app w)))
                  + 16))) as [Hlarge | Hfits].
  { destruct (handleEncryptAndStore_throws w prf Hprf Hblank
                (or_intror Hlarge)) as (e & -> & _).
    intros Hm. cbv [append] in Hm. discriminate Hm. }
  assert (Hencoded : uint8ArrayToBase64Url (random_octets 12 (App.rng w))
                     = Returned (base64url (random_octets 12 (App.rng w)))).
  { apply uint8ArrayToBase64Url_fits. rewrite random_octets_length. lia. }
  destruct (getUser (DB (App.server w)) (App.username (App.app w)))
    as [user|] eqn:Hu.
  - intros _.
    exists prf, user, (random_octets 12 (App.rng w)),
      (mkRandom (tape (App.rng w)) (drawn (App.rng w) + 12)),
      (base64url (random_octets 12 (App.rng w))).
    destruct (handleEncryptAndStore_stores w prf user Hprf Hu Hblank Hiv
                Hfits)
      as (Hserver & _ & _ & Hflag & _).
    cbv zeta in Hserver, Hflag.
    destruct (getUser_userById _ _ _ Hu) as (row & Hrow & _).
    destruct (getUserBlobReference_update_blob_reference
                (DB (App.server w)) (u_id user) (blob_key user)
                (base64url (random_octets 12 (App.rng w)))
                row Hrow) as [Href _].
    cbv zeta.
    split; [reflexivity|]. split; [reflexivity|]. split; [reflexivity|].
    split; [reflexivity|]. split; [exact Hencoded|].
    split; [rewrite Hserver; cbn [R2_BUCKET]; apply lookup_insert_eq|].
    split; [apply open_seal|].
    split; [rewrite Hserver; exact Href | exact Hflag].
  - unfold App.handleEncryptAndStore. rewrite Hprf, Hblank.
    unfold App.tryEncryptAndStore.
    cbn [App.app App.server App.rng App.with_app].
    rewrite generateNonce_value.
    rewrite deriveEncryptionKey_value. cbv beta iota.
    rewrite encryptData_value, random_octets_length, Hiv.
    rewrite fromCharCodes_fits by (rewrite seal_length; exact Hfits).
    rewrite Hencoded.
    cbn [App.app App.server App.rng App.with_app].
    unfold store_blob. rewrite Hu.
    cbn [body json_status App.app App.with_app App.message App.setMessage
         App.error_of default].
    intros Hm. cbv [append] in Hm. discriminate Hm.
Qed.

(** X21 on a page of bob that holds a PRF output and a typed message. *)
Lemma stored_message_is_in_the_bucket_witness :
  let w :=
    App.mkWorld
      (App.mkState "bob" "" true (Some [x2a]) false None "hello" "" "" None)
      demo_server counting_random in
  exists object,
    R2_BUCKET (App.server (@App.handleEncryptAndStore demo_platform w))
    !! "user-2-blob"
    = Some object /\
    GCM.open (page_key [x2a]) (map byte_of_N (map N.of_nat (seq 0 12))) object
    = Some (charCodes "hello").
Proof.
  cbv zeta.
  destruct (@stored_message_is_in_the_bucket demo_platform
              (App.mkWorld
                 (App.mkState "bob" "" true (Some [x2a]) false None "hello"
                    "" "" None)
                 demo_server counting_random))
    as (prf & user & nonce & rng' & encoded & Hprf & _ & Hu & Hnonce & _
        & Hobject & Hopen & _).
  - vm_compute. reflexivity.
  - cbv zeta in Hobject, Hopen. injection Hprf as <-. injection Hu as <-.
    injection Hnonce as <- _.
    eexists. split; [exact Hobject | exact Hopen].
Defined.

(** X22. When the status line says that the message was decrypted, the
    text on display is what [TextDecoder] makes of the octets that
    AES-256-GCM, under the key of the page, makes of the object the
    bucket holds for the user and of the nonce in the user's row: the
    tag of the object was checked, the platform took the nonce, and the
    object had no more octets than a call of the worker takes
    arguments. The octets are kept as they are; the text is those
    octets read as UTF-8, so it is the text that was encrypted when
    that was well-formed UTF-8 without a byte order mark in front, and
    differs from it otherwise. The worker is left as it was. *)
Theorem decrypted_message_is_the_stored_one `{Platform} (w : App.World) :
  let w' := App.handleRetrieveAndDecrypt w in
  App.message (App.app w') = "Successfully decrypted message!" ->
  exists prf user key object stored nonce data,
    App.prfOutput (App.app w) = Some prf /\
    getUser (DB (App.server w)) (App.username (App.app w)) = Some user /\
    getUserBlobReference (DB (App.server w)) (u_id user)
    = Some (Some key, Some stored) /\
    R2_BUCKET (App.server w) !! key = Some object /\
    (N.of_nat (length object) <= worker_max_arguments)%N /\
    base64UrlToUint8Array stored = Returned nonce /\
    aes_gcm_takes_iv (length nonce) = true /\
    GCM.open (page_key prf) nonce object = Some data /\
    App.decryptedBlob (App.app w') = Some data /\
    App.decryptedMessage (App.app w') = TextDecoder_decode data /\
    (forall text,
        data = TextEncoder_encode text -> plain_text text = true ->
        App.decryptedMessage (App.app w') = text) /\
    App.server w' = App.server w.
Proof.
  cbv zeta.
  remember (App.handleRetrieveAndDecrypt w) as w' eqn:Hw'. revert Hw'.
  unfold App.handleRetrieveAndDecrypt.
  destruct (App.prfOutput (App.app w)) as [prf|] eqn:Hprf;
    [|intros ->; cbn; discriminate].
  unfold App.tryRetrieveAndDecrypt.
  cbn [App.app App.server App.rng App.with_app].
  unfold retrieve_blob.
  destruct (getUser (DB (App.server w)) (App.username (App.app w)))
    as [user|] eqn:Hu;
    [|intros ->; cbn; intros Hm; cbv [append] in Hm; discriminate Hm].
  destruct (getUserBlobReference (DB (App.server w)) (u_id user))
    as [[[key|] stored]|] eqn:Href;
    try (intros ->; cbn; intros Hm; cbv [append] in Hm; discriminate Hm).
  destruct (String.eqb key "");
    [intros ->; cbn; intros Hm; cbv [append] in Hm; discriminate Hm|].
  destruct (R2_BUCKET (App.server w) !! key) as [object|] eqn:Hobject;
    [|intros ->; cbn; intros Hm; cbv [append] in Hm; discriminate Hm].
  destruct (fromCharCodes_cases worker_max_arguments object)
    as [[Hfits ->] | [_ ->]];
    [|intros ->; cbn; intros Hm; cbv [append] in Hm; discriminate Hm].
  cbn [App.ok json status body negb andb Z.leb Z.compare Pos.compare
       Pos.compare_cont App.app App.server App.rng App.with_app].
  rewrite atob_btoa.
  destruct stored as [stored|];
    [|intros ->; cbn; intros Hm; cbv [append] in Hm; discriminate Hm].
  destruct (base64UrlToUint8Array stored) as [nonce|e] eqn:Hnonce;
    [|intros ->; cbn; intros Hm; cbv [append] in Hm; discriminate Hm].
  rewrite deriveEncryptionKey_value. cbv beta iota.
  rewrite charCodes_binary_string.
  rewrite decryptData_value.
  change (hmac_sha256 (hkdf_extract (default (repeat x00 32) None) prf) [x01])
    with (page_key prf).
  destruct (aes_gcm_takes_iv (length nonce)) eqn:Hiv;
    [|intros ->; cbn; intros Hm; cbv [append] in Hm; discriminate Hm].
  destruct (GCM.open (page_key prf) nonce object) as [data|] eqn:Hopen;
    [|intros ->; cbn; intros Hm; cbv [append] in Hm; discriminate Hm].
  intros ->.
  cbn [App.app App.server App.rng App.with_app App.message App.setMessage
       App.decryptedBlob App.decryptedMessage App.setDecryptedMessage
       App.setDecryptedBlob].
  intros _.
  exists prf, user, key, object, stored, nonce, data.
  repeat (split; [solve [assumption | reflexivity]|]).
  split; [|reflexivity].
  intros text -> Hplain.
  apply TextDecoder_decode_TextEncoder_encode, Hplain.
Qed.

(** X22 on the page of X21 after its store. *)
Lemma decrypted_message_is_the_stored_one_witness :
  let w :=
    @App.handleEncryptAndStore demo_platform
      (App.mkWorld
         (App.mkState "bob" "" true (Some [x2a]) false None "hello" "" ""
            None)
         demo_server counting_random) in
  App.decryptedMessage (App.app (@App.handleRetrieveAndDecrypt demo_platform w))
  = "hello" /\
  App.server (@App.handleRetrieveAndDecrypt demo_platform w) = App.server w.
Proof.
  cbv zeta.
  destruct (@decrypted_message_is_the_stored_one demo_platform
              (@App.handleEncryptAndStore demo_platform
                 (App.mkWorld
                    (App.mkState "bob" "" true (Some [x2a]) false None
                       "hello" "" "" None)
                    demo_server counting_random)))
    as (prf & user & key & object & stored & nonce & data & _ & _ & _ & _
        & _ & _ & _ & _ & _ & _ & _ & Hserver).
  - vm_compute. reflexivity.
  - split; [vm_compute; reflexivity | exact Hserver].
Defined.




(** ** Sign-in *)

(** An authentication the server verified: the challenge was pending
    and not empty, the credential is in [passkeys], and the verifier
    accepted the response against that challenge and that
    credential. *)
Lemma verify_authentication_verified `{SimpleWebAuthn} (username : string)
  (response : AuthenticationResponseJSON) (s : Server) :
  is_verified (fst (verify_authentication username response s)) = true ->
  exists expectedChallenge passkey verification,
    challenges s !! username = Some expectedChallenge /\
    expectedChallenge <> "" /\
    getPasskeyById (DB s) (ar_id response) = Some passkey /\
    verifyAuthenticationResponse response expectedChallenge origin rpID
      (mkCredential (pk_id passkey) (pk_publicKey passkey)
         (pk_counter passkey) (pk_transports passkey))
    = Returned verification /\
    va_verified verification = true.
Proof.
  unfold verify_authentication.
  destruct (challenges s !! username) as [ch|]; [|discriminate].
  destruct (String.eqb ch "") eqn:Hch; [discriminate|].
  destruct (getUser (DB s) username) as [user|]; [|discriminate].
  destruct (getPasskeyById (DB s) (ar_id response)) as [passkey|];
    [|discriminate].
  destruct (verifyAuthenticationResponse _ _ _ _ _) as [v|e] eqn:Hv;
    [|discriminate].
  destruct (va_verified v) eqn:Hverified; [|discriminate].
  intros _. exists ch, passkey, v.
  apply String.eqb_neq in Hch. repeat split; assumption.
Qed.

(** The state /generate-authentication-options leaves when it answers
    with options. *)
Lemma generate_authentication_options_ok (username challenge : string)
  (s : Server) (options : PublicKeyCredentialRequestOptionsJSON) :
  body (fst (generate_authentication_options username challenge s))
  = JRequestOptions options ->
  snd (generate_authentication_options username challenge s)
  = mkServer (DB s) (R2_BUCKET s) (<[username := challenge]> (challenges s)).
Proof.
  unfold generate_authentication_options.
  destruct (getUser (DB s) username); [|discriminate].
  destruct (length _ =? 0)%nat; [discriminate|]. reflexivity.
Qed.

(** X24. The page is signed in only when the server verified. Whatever
    the worker, the verifier and the browser: if a page that was signed
    out is signed in after [handleAuthenticate], then the browser
    answered the options of this very run, the credential it answered
    with is in [passkeys], and the verifier accepted the answer against
    the challenge drawn in this run and against that credential. The
    PRF output the page then holds, if any, is the one of that
    answer. *)
Theorem signed_in_only_when_verified `{SimpleWebAuthn} `{Browser}
  (challenge : string) (w : App.World) :
  let name := App.username (App.app w) in
  let w' := App.handleAuthenticate challenge w in
  App.isAuthenticated (App.app w) = false ->
  App.isAuthenticated (App.app w') = true ->
  exists salt options response passkey verification,
    App.prfSalt (App.app w') = Some salt /\
    body (fst (generate_authentication_options name challenge
                 (App.server w))) = JRequestOptions options /\
    startAuthentication options salt = Returned response /\
    getPasskeyById (DB (App.server w)) (ar_id response) = Some passkey /\
    verifyAuthenticationResponse response challenge origin rpID
      (mkCredential (pk_id passkey) (pk_publicKey passkey)
         (pk_counter passkey) (pk_transports passkey))
    = Returned verification /\
    va_verified verification = true /\
    (App.prfOutput (App.app w') = App.prfOutput (App.app w) \/
     App.prfOutput (App.app w') = ar_prf_first response).
Proof.
  cbv zeta. intros Hout.
  remember (App.handleAuthenticate challenge w) as w' eqn:Hw'. revert Hw'.
  unfold App.handleAuthenticate, App.tryAuthenticate.
  cbn [App.app App.server App.rng App.with_app].
  pose proof (get_prf_salt_state (App.username (App.app w)) (App.server w))
    as Hget.
  destruct (get_prf_salt (App.username (App.app w)) (App.server w))
    as [saltResponse s1].
  cbn [snd] in Hget. subst s1.
  cbn [App.app App.server App.rng App.with_app].
  match goal with
  | |- context [match ?salted with Returned _ => _ | Thrown _ => _ end] =>
      destruct salted as [[currentPrfSalt rng']|e]
  end.
  2:{ intros ->. cbn. congruence. }
  cbn [App.app App.server App.rng].
  pose proof (generate_authentication_options_ok
                (App.username (App.app w)) challenge (App.server w)) as Hgen.
  destruct (generate_authentication_options _ _ _)
    as [optionsResponse s2].
  cbn [fst snd] in Hgen. cbn [fst snd App.app App.server App.rng].
  destruct (negb (App.ok optionsResponse)); [intros ->; cbn; congruence|].
  destruct (body optionsResponse) as [| |options| | | | | |] eqn:Hbody;
    try (intros ->; cbn; congruence).
  specialize (Hgen options eq_refl). subst s2.
  destruct (startAuthentication options currentPrfSalt)
    as [authResponse|e] eqn:Hstart; [|intros ->; cbn; congruence].
  pose proof (verify_authentication_verified (App.username (App.app w))
                authResponse
                (mkServer (DB (App.server w)) (R2_BUCKET (App.server w))
                   (<[App.username (App.app w) := challenge]>
                      (challenges (App.server w))))) as Hverified.
  destruct (verify_authentication _ authResponse _)
    as [verificationResponse s3].
  cbn [fst] in Hverified. cbn [App.app App.server App.rng].
  destruct (is_verified verificationResponse);
    [|intros ->; cbn; congruence].
  destruct (Hverified eq_refl)
    as (ch & passkey & verification & Hch & _ & Hfound & Hv & Hok).
  cbn [challenges DB] in Hch, Hfound. rewrite lookup_insert_eq in Hch.
  injection Hch as <-.
  assert (Hfacts : forall a1 : App.State,
             App.prfSalt a1 = Some currentPrfSalt ->
             (App.prfOutput a1 = App.prfOutput (App.app w) \/
              App.prfOutput a1 = ar_prf_first authResponse) ->
             exists salt options0 response passkey0 verification0,
               App.prfSalt a1 = Some salt /\
               JRequestOptions options = JRequestOptions options0 /\
               startAuthentication options0 salt = Returned response /\
               getPasskeyById (DB (App.server w)) (ar_id response)
               = Some passkey0 /\
               verifyAuthenticationResponse response challenge origin rpID
                 (mkCredential (pk_id passkey0) (pk_publicKey passkey0)
                    (pk_counter passkey0) (pk_transports passkey0))
               = Returned verification0 /\
               va_verified verification0 = true /\
               (App.prfOutput a1 = App.prfOutput (App.app w) \/
                App.prfOutput a1 = ar_prf_first response)).
  { intros a1 Hs Hp.
    exists currentPrfSalt, options, authResponse, passkey, verification.
    repeat split; assumption. }
  destruct (ar_prf_first authResponse) as [prfResult|] eqn:Hprf.
  2:{ intros ->. cbn [App.app App.with_app]. intros _.
      apply Hfacts; [reflexivity|]. left. reflexivity. }
  cbn [App.app App.server App.rng App.with_app].
  destruct (check_blob _ s3) as [blobCheckResponse s4].
  cbn [App.app App.server App.rng App.with_app].
  destruct (body blobCheckResponse) as [| | | | | | | |[|]];
    intros ->; cbn [App.app App.with_app]; intros _;
    (apply Hfacts; [reflexivity|]); right; reflexivity.
Qed.

(** X24 on the demo tables: bob signs in from a fresh page. *)
Lemma signed_in_only_when_verified_witness :
  let w := App.mkWorld (fresh_page "bob") demo_server counting_random in
  let w' :=
    @App.handleAuthenticate (challenge_verifier 6) (prf_browser [x2a])
      "auth-1" w in
  App.isAuthenticated (App.app w') = true /\
  exists response passkey,
    getPasskeyById demo_db (ar_id response) = Some passkey /\
    @verifyAuthenticationResponse (challenge_verifier 6) response "auth-1"
      origin rpID
      (mkCredential (pk_id passkey) (pk_publicKey passkey)
         (pk_counter passkey) (pk_transports passkey))
    = Returned (mkVerifiedAuth true 6).
Proof.
  cbv zeta.
  assert (Hin : App.isAuthenticated
                  (App.app
                     (@App.handleAuthenticate (challenge_verifier 6)
                        (prf_browser [x2a]) "auth-1"
                        (App.mkWorld (fresh_page "bob") demo_server
                           counting_random))) = true)
    by (vm_compute; reflexivity).
  split; [exact Hin|].
  destruct (@signed_in_only_when_verified (challenge_verifier 6)
              (prf_browser [x2a]) "auth-1"
              (App.mkWorld (fresh_page "bob") demo_server counting_random)
              eq_refl Hin)
    as (salt & options & response & passkey & verification & _ & _ & _
        & Hfound & Hv & Hok & _).
  exists response, passkey. split; [exact Hfound|].
  rewrite Hv. destruct verification as [verified counter].
  cbn [va_verified] in Hok. subst verified.
  cbn [verifyAuthenticationResponse challenge_verifier] in Hv.
  injection Hv as _ <-. reflexivity.
Defined.

(** * More of the code: the page as it is rendered *)

(** ** What each handler does to the state of the page *)

Lemma same_session_refl (a : App.State) : same_session a a.
Proof. repeat split. Qed.

Lemma same_session_setMessage (m : string) (a b : App.State) :
  same_session a b -> same_session (App.setMessage m a) b.
Proof. exact id. Qed.

Lemma same_session_setPrfSalt (v : option (list byte)) (a b : App.State) :
  same_session a b -> same_session (App.setPrfSalt v a) b.
Proof. exact id. Qed.

(** [handleRegister] changes the status line and the salt of the page
    at most, and writes nothing to the bucket. *)
Lemma handleRegister_outcome `{SimpleWebAuthn} `{Browser} `{Platform}
  (challenge : string) (w : App.World) :
  same_session (App.app (App.handleRegister challenge w)) (App.app w) /\
  R2_BUCKET (App.server (App.handleRegister challenge w))
  = R2_BUCKET (App.server w).
Proof.
  unfold App.handleRegister, App.tryRegister.
  cbn [App.app App.server App.rng App.with_app].
  set (name := App.username (App.app w)).
  pose proof (handle_footprint
                (GenerateRegistrationOptions name challenge) (App.server w))
    as (_ & Hb1 & _).
  cbv zeta in Hb1. cbn [handle writes_bucket] in Hb1.
  specialize (Hb1 eq_refl).
  rewrite generatePrfSalt_value.
  destruct (App.prfSalt (App.app w)) as [salt|];
    [|set (salt := random_octets 32 (App.rng w))];
    cbn [App.app App.server App.rng App.with_app];
    (destruct (generate_registration_options name challenge (App.server w))
       as [optionsResponse s1];
     cbn [snd] in Hb1; cbn [App.app App.server App.rng];
     destruct (negb (App.ok optionsResponse));
       [split; [repeat split | exact Hb1]|];
     destruct (body optionsResponse);
       try (split; [repeat split | exact Hb1]);
     destruct (startRegistration _ _) as [registrationResponse|e];
       [|split; [repeat split | exact Hb1]];
     pose proof (handle_footprint
                   (VerifyRegistration name registrationResponse) s1)
       as (_ & Hb2 & _);
     cbv zeta in Hb2; cbn [handle writes_bucket] in Hb2;
     specialize (Hb2 eq_refl);
     destruct (verify_registration name registrationResponse s1)
       as [verificationResponse s2];
     cbn [snd] in Hb2; cbn [App.app App.server App.rng];
     rewrite Hb1 in Hb2;
     destruct (is_verified verificationResponse);
       [|split; [repeat split | exact Hb2]];
     destruct (uint8ArrayToBase64Url salt) as [prfSaltBase64|e];
       [|split; [repeat split | exact Hb2]];
     pose proof (handle_footprint (SavePrfSalt name prfSaltBase64) s2)
       as (_ & Hb3 & _);
     cbv zeta in Hb3; cbn [handle writes_bucket] in Hb3;
     specialize (Hb3 eq_refl);
     destruct (save_prf_salt name prfSaltBase64 s2) as [saved s3];
     cbn [snd] in Hb3; cbn [App.app App.server App.rng App.with_app];
     rewrite Hb2 in Hb3; split; [repeat split | exact Hb3]).
Qed.

(** [handleAuthenticate] leaves the page as it was, the status line and
    the salt apart, or signs it in; a PRF output and the blob flag are
    set on a page that is signed in only, and the blob flag only with a
    PRF output. *)
Lemma handleAuthenticate_outcome `{SimpleWebAuthn} `{Browser}
  (challenge : string) (w : App.World) :
  let a := App.app w in
  let a' := App.app (App.handleAuthenticate challenge w) in
  App.username a' = App.username a /\
  App.decryptedBlob a' = App.decryptedBlob a /\
  App.userMessage a' = App.userMessage a /\
  App.encryptedMessage a' = App.encryptedMessage a /\
  App.decryptedMessage a' = App.decryptedMessage a /\
  (App.isAuthenticated a' = App.isAuthenticated a /\
   App.prfOutput a' = App.prfOutput a /\ App.hasBlob a' = App.hasBlob a
   \/
   App.isAuthenticated a' = true /\
   App.prfOutput a' = App.prfOutput a /\ App.hasBlob a' = App.hasBlob a
   \/
   App.isAuthenticated a' = true /\
   (exists prf, App.prfOutput a' = Some prf) /\
   (App.hasBlob a' = App.hasBlob a \/ App.hasBlob a' = true)).
Proof.
  cbv zeta.
  remember (App.handleAuthenticate challenge w) as w' eqn:Hw'.
  revert Hw'. unfold App.handleAuthenticate, App.tryAuthenticate.
  cbn [App.app App.server App.rng App.with_app].
  destruct (get_prf_salt (App.username (App.app w)) (App.server w))
    as [saltResponse s1].
  cbn [App.app App.server App.rng App.with_app].
  match goal with
  | |- context [match ?salted with Returned _ => _ | Thrown _ => _ end] =>
      destruct salted as [[currentPrfSalt rng']|e]
  end.
  2:{ intros ->. cbn. repeat (split; [reflexivity|]). left. repeat split. }
  cbn [App.app App.server App.rng].
  destruct (generate_authentication_options _ _ _)
    as [optionsResponse s2].
  cbn [App.app App.server App.rng].
  destruct (negb (App.ok optionsResponse)).
  { intros ->. cbn. repeat (split; [reflexivity|]). left. repeat split. }
  destruct (body optionsResponse);
    try (intros ->; cbn; repeat (split; [reflexivity|]); left; repeat split;
         fail).
  destruct (startAuthentication _ _) as [authResponse|e].
  2:{ intros ->. cbn. repeat (split; [reflexivity|]). left. repeat split. }
  destruct (verify_authentication _ authResponse s2)
    as [verificationResponse s3].
  cbn [App.app App.server App.rng].
  destruct (is_verified verificationResponse).
  2:{ intros ->. cbn. repeat (split; [reflexivity|]). left. repeat split. }
  destruct (ar_prf_first authResponse) as [prfResult|].
  2:{ intros ->. cbn. repeat (split; [reflexivity|]). right. left.
      repeat split. }
  cbn [App.app App.server App.rng App.with_app].
  destruct (check_blob _ s3) as [blobCheckResponse s4].
  cbn [App.app App.server App.rng App.with_app].
  destruct (body blobCheckResponse) as [| | | | | | | |[|]];
    intros ->; cbn; repeat (split; [reflexivity|]); right; right;
    (split; [reflexivity|]); (split; [eexists; reflexivity|]);
    first [left; reflexivity | right; reflexivity].
Qed.

(** /store-blob with a nonce in the body either answers with the key
    it stored under or leaves the state as it was. *)
Lemma store_blob_stored_or_unchanged (username encryptedBlob nonce : string)
  (s : Server) :
  match body (fst (store_blob username encryptedBlob (Some nonce) s)) with
  | JStored _ => True
  | _ => snd (store_blob username encryptedBlob (Some nonce) s) = s
  end.
Proof.
  unfold store_blob. destruct (getUser (DB s) username); [|reflexivity].
  destruct (atob encryptedBlob); [exact I | reflexivity].
Qed.

(** [handleEncryptAndStore] leaves the worker as it was or sets the
    blob flag; it changes neither the sign-in nor the PRF output nor
    the typed message nor the plaintext on display. *)
Lemma handleEncryptAndStore_outcome `{Platform} (w : App.World) :
  let a := App.app w in
  let w' := App.handleEncryptAndStore w in
  let a' := App.app w' in
  App.username a' = App.username a /\
  App.isAuthenticated a' = App.isAuthenticated a /\
  App.prfOutput a' = App.prfOutput a /\
  App.decryptedBlob a' = App.decryptedBlob a /\
  App.userMessage a' = App.userMessage a /\
  App.decryptedMessage a' = App.decryptedMessage a /\
  (App.server w' = App.server w /\ App.hasBlob a' = App.hasBlob a
   \/ App.hasBlob a' = true).
Proof.
  cbv zeta. unfold App.handleEncryptAndStore.
  destruct (App.prfOutput (App.app w)) as [prf|] eqn:Hprf.
  2:{ cbn. rewrite Hprf. repeat (split; [reflexivity|]). left.
      split; reflexivity. }
  destruct (is_blank (App.userMessage (App.app w))).
  { cbn. rewrite Hprf. repeat (split; [reflexivity|]). left.
    split; reflexivity. }
  unfold App.tryEncryptAndStore.
  cbn [App.app App.server App.rng App.with_app].
  rewrite generateNonce_value.
  rewrite deriveEncryptionKey_value. cbv beta iota.
  rewrite encryptData_value.
  destruct (aes_gcm_takes_iv _).
  2:{ cbn. rewrite Hprf. repeat (split; [reflexivity|]). left.
      split; reflexivity. }
  destruct (fromCharCodes page_max_arguments _) as [binary|e].
  2:{ cbn. rewrite Hprf. repeat (split; [reflexivity|]). left.
      split; reflexivity. }
  destruct (uint8ArrayToBase64Url _) as [nonceBase64|e].
  2:{ cbn. rewrite Hprf. repeat (split; [reflexivity|]). left.
      split; reflexivity. }
  cbn [App.app App.server App.rng App.with_app].
  match goal with
  | |- context [store_blob ?u ?b (Some ?n) ?s] =>
      pose proof (store_blob_stored_or_unchanged u b n s) as Hstore;
      destruct (store_blob u b (Some n) s) as [response srv]
  end.
  cbn [fst snd] in Hstore.
  cbn [App.app App.server App.rng App.with_app].
  destruct (body response); cbn; rewrite ?Hprf;
    repeat (split; [reflexivity|]);
    first [right; reflexivity | left; split; [exact Hstore | reflexivity]].
Qed.

(** [handleRetrieveAndDecrypt] leaves the worker as it was, and changes
    the plaintext on display and the status line at most. *)
Lemma handleRetrieveAndDecrypt_outcome `{Platform} (w : App.World) :
  let a := App.app w in
  let w' := App.handleRetrieveAndDecrypt w in
  let a' := App.app w' in
  App.server w' = App.server w /\
  App.username a' = App.username a /\
  App.isAuthenticated a' = App.isAuthenticated a /\
  App.prfOutput a' = App.prfOutput a /\
  App.hasBlob a' = App.hasBlob a /\
  App.userMessage a' = App.userMessage a /\
  App.encryptedMessage a' = App.encryptedMessage a.
Proof.
  cbv zeta. unfold App.handleRetrieveAndDecrypt.
  destruct (App.prfOutput (App.app w)) as [prf|] eqn:Hprf.
  2:{ cbn. rewrite Hprf. repeat split. }
  unfold App.tryRetrieveAndDecrypt.
  cbn [App.app App.server App.rng App.with_app].
  pose proof (retrieve_blob_state (App.username (App.app w)) (App.server w))
    as Hsame.
  destruct (retrieve_blob (App.username (App.app w)) (App.server w))
    as [response srv].
  cbn [snd] in Hsame. subst srv.
  cbn [App.app App.server App.rng App.with_app].
  destruct (negb (App.ok response)); [cbn; rewrite Hprf; repeat split|].
  destruct (body response) as [| | | | |encryptedBlob nonce| | |];
    try (cbn; rewrite Hprf; repeat split; fail).
  destruct (atob encryptedBlob); [|cbn; rewrite Hprf; repeat split].
  destruct nonce as [nonce|]; [|cbn; rewrite Hprf; repeat split].
  destruct (base64UrlToUint8Array nonce);
    [|cbn; rewrite Hprf; repeat split].
  rewrite deriveEncryptionKey_value. cbv beta iota.
  destruct (decryptData _ _ _); cbn; rewrite Hprf; repeat split.
Qed.

(** ** The page through its controls *)

Lemma event_consistent `{SimpleWebAuthn} `{Browser} `{Platform}
  (e : Event) (w : App.World) :
  page_consistent (App.app w) -> page_consistent (App.app (event e w)).
Proof.
  intros [Hout Hnone]. unfold event.
  destruct (rendered (App.app w) (control_of e)
            && negb (disabled (App.app w) (control_of e))) eqn:Husable;
    [|split; assumption].
  apply andb_true_iff in Husable as [Hrendered Henabled].
  destruct e; cbn [control_of rendered disabled listener] in *.
  - (* the username field *)
    split; assumption.
  - (* the text area *)
    apply andb_true_iff in Hrendered as [Hrendered _].
    apply andb_true_iff in Hrendered as [Hauth Hprf].
    unfold has_prf in Hprf. cbn [App.app App.with_app].
    destruct (App.prfOutput (App.app w)) eqn:Hp; [|discriminate].
    split; cbn; rewrite ?Hp; congruence.
  - (* Register *)
    destruct (handleRegister_outcome challenge w)
      as [(_ & Ha & Hp & Hb & Hdb & Hum & Hem & Hdm) _].
    split; rewrite ?Ha, ?Hp, ?Hb, ?Hdb, ?Hum, ?Hem, ?Hdm; assumption.
  - (* Authenticate *)
    apply negb_true_iff in Hrendered. specialize (Hout Hrendered).
    destruct (Hnone Hout) as (Hb0 & Hdb0 & Hum0 & Hem0 & Hdm0).
    destruct (handleAuthenticate_outcome challenge w)
      as (_ & Hdb & Hum & Hem & Hdm & Hflags).
    cbv zeta in *.
    destruct Hflags as [(Ha & Hp & Hb) | [(Ha & Hp & Hb) | (Ha & Hp & Hb)]].
    + split; rewrite ?Ha, ?Hp, ?Hb, ?Hdb, ?Hum, ?Hem, ?Hdm; auto.
    + split; rewrite ?Ha, ?Hp, ?Hb, ?Hdb, ?Hum, ?Hem, ?Hdm; auto.
    + destruct Hp as [prf Hp]. split; rewrite ?Ha, ?Hp; discriminate.
  - (* Encrypt and store *)
    apply andb_true_iff in Hrendered as [Hauth Hprf].
    unfold has_prf in Hprf.
    destruct (handleEncryptAndStore_outcome w) as (_ & Ha & Hp & _).
    cbv zeta in *.
    destruct (App.prfOutput (App.app w)) eqn:Hp0; [|discriminate].
    split; rewrite ?Ha, ?Hp; congruence.
  - (* Retrieve and decrypt *)
    apply andb_true_iff in Hrendered as [Hrendered _].
    apply andb_true_iff in Hrendered as [Hauth Hprf].
    unfold has_prf in Hprf.
    destruct (handleRetrieveAndDecrypt_outcome w) as (_ & _ & Ha & Hp & _).
    cbv zeta in *.
    destruct (App.prfOutput (App.app w)) eqn:Hp0; [|discriminate].
    split; rewrite ?Ha, ?Hp; congruence.
  - (* Logout *)
    split; intros _; repeat split.
Qed.

Lemma events_consistent `{SimpleWebAuthn} `{Browser} `{Platform}
  (es : list Event) (w : App.World) :
  page_consistent (App.app w) -> page_consistent (App.app (events es w)).
Proof.
  revert w. induction es as [|e es IH]; intros w Hw; cbn [events].
  - exact Hw.
  - apply IH, event_consistent, Hw.
Qed.

(** X25. A page that holds no key holds nothing made with one. Whatever
    the user types and clicks on a freshly loaded page, in whatever
    order, and whatever the worker, the verifier and the browser
    answer: a page that shows the sign-in form holds no PRF output, and
    a page that holds no PRF output has no blob flag, no typed message,
    no ciphertext and no plaintext. So the encryption panel, where the
    plaintext is displayed, is on a page that is signed in and holds
    the PRF output; the render conditions, not the handlers, make it
    so. *)
Theorem page_stays_consistent `{SimpleWebAuthn} `{Browser} `{Platform}
  (es : list Event) (name : string) (s : Server) (rng : Random) :
  let w := events es (App.mkWorld (fresh_page name) s rng) in
  page_consistent (App.app w) /\
  (rendered (App.app w) AuthenticateButton = true ->
   App.prfOutput (App.app w) = None /\
   App.decryptedMessage (App.app w) = "" /\
   App.userMessage (App.app w) = "") /\
  (App.decryptedMessage (App.app w) <> "" ->
   App.isAuthenticated (App.app w) = true /\ has_prf (App.app w) = true).
Proof.
  cbv zeta.
  assert (Hfresh : page_consistent (fresh_page name))
    by (split; intros _; repeat split).
  pose proof (events_consistent es (App.mkWorld (fresh_page name) s rng)
                Hfresh) as [Hout Hnone].
  remember (App.app (events es (App.mkWorld (fresh_page name) s rng)))
    as a eqn:Ea. clear Ea.
  split; [split; assumption|]. split.
  - cbn [rendered]. intros Hform. apply negb_true_iff in Hform.
    specialize (Hout Hform). destruct (Hnone Hout) as (_ & _ & Hum & _ & Hdm).
    auto.
  - intros Hshown. unfold has_prf.
    destruct (App.prfOutput a) eqn:Hp.
    + split; [|reflexivity].
      destruct (App.isAuthenticated a) eqn:Hauth; [reflexivity|].
      specialize (Hout eq_refl). congruence.
    + destruct (Hnone eq_refl) as (_ & _ & _ & _ & Hdm). congruence.
Qed.

(** What one event does to the bucket and to the blob flag. *)
Lemma event_bucket `{SimpleWebAuthn} `{Browser} `{Platform}
  (e : Event) (w : App.World) :
  R2_BUCKET (App.server (event e w)) = R2_BUCKET (App.server w) \/
  e = ClickEncrypt /\
  App.isAuthenticated (App.app w) = true /\
  has_prf (App.app w) = true /\
  App.hasBlob (App.app w) = false /\
  is_blank (App.userMessage (App.app w)) = false /\
  App.hasBlob (App.app (event e w)) = true.
Proof.
  unfold event.
  destruct (rendered (App.app w) (control_of e)
            && negb (disabled (App.app w) (control_of e))) eqn:Husable;
    [|left; reflexivity].
  apply andb_true_iff in Husable as [Hrendered Henabled].
  destruct e; cbn [control_of rendered disabled listener] in *;
    try (left; reflexivity).
  - left. apply (handleRegister_outcome challenge w).
  - left. apply (handleAuthenticate_keeps_users challenge w).
  - apply andb_true_iff in Hrendered as [Hauth Hprf].
    apply negb_true_iff, orb_false_iff in Henabled as [Hblob Hblank].
    destruct (handleEncryptAndStore_outcome w)
      as (_ & _ & _ & _ & _ & _ & [[Hserver _] | Hstored]).
    + left. cbv zeta in Hserver. rewrite Hserver. reflexivity.
    + right. repeat split; assumption.
  - left. destruct (handleRetrieveAndDecrypt_outcome w) as (Hserver & _).
    cbv zeta in Hserver. rewrite Hserver. reflexivity.
Qed.

(** An event other than a logout keeps the blob flag of a consistent
    page that has it. *)
Lemma event_keeps_blob_flag `{SimpleWebAuthn} `{Browser} `{Platform}
  (e : Event) (w : App.World) :
  page_consistent (App.app w) -> App.hasBlob (App.app w) = true ->
  is_logout e = false ->
  App.hasBlob (App.app (event e w)) = true /\
  R2_BUCKET (App.server (event e w)) = R2_BUCKET (App.server w).
Proof.
  intros [Hout Hnone] Hblob Hlogout.
  assert (Hprf : has_prf (App.app w) = true).
  { unfold has_prf. destruct (App.prfOutput (App.app w)); [reflexivity|].
    destruct (Hnone eq_refl) as [Hb _]. congruence. }
  assert (Hauth : App.isAuthenticated (App.app w) = true).
  { destruct (App.isAuthenticated (App.app w)); [reflexivity|].
    specialize (Hout eq_refl). unfold has_prf in Hprf.
    rewrite Hout in Hprf. discriminate. }
  split.
  - unfold event.
    destruct e; cbn [control_of rendered disabled listener is_logout] in *;
      rewrite ?Hauth, ?Hprf, ?Hblob; cbn [negb andb orb];
      try assumption; try discriminate.
    destruct (handleRetrieveAndDecrypt_outcome w)
      as (_ & _ & _ & _ & Hb & _).
    cbv zeta in Hb. rewrite Hb. exact Hblob.
  - destruct (event_bucket e w) as [Hsame | (_ & _ & _ & Hno & _)];
      [exact Hsame | congruence].
Qed.

(** X26. One store for a session, on a page whose handlers run one
    after the other: an event is taken when the handler of the event
    before it has returned, and reaches a listener only when its
    control is rendered and not disabled. A second click that arrives
    while [handleEncryptAndStore] still awaits the key or the worker
    finds the button enabled and is not covered. On such a page the
    bucket is written only through the encrypt button, and only while
    the page shows no blob flag, with a message that is not blank,
    signed in and holding a PRF output; the flag is set by that very
    store. From then on, and from a sign-in at which the worker
    reported a blob, no sequence of clicks and keystrokes short of a
    logout writes to the bucket again: the text area is gone and the
    encrypt button is disabled, so the page does not replace what is
    stored, though /store-blob would. *)
Theorem page_stores_once_per_session `{SimpleWebAuthn} `{Browser}
  `{Platform} (es : list Event) (w : App.World) :
  (forall e,
      R2_BUCKET (App.server (event e w)) <> R2_BUCKET (App.server w) ->
      e = ClickEncrypt /\
      rendered (App.app w) EncryptButton = true /\
      App.hasBlob (App.app w) = false /\
      is_blank (App.userMessage (App.app w)) = false /\
      App.hasBlob (App.app (event e w)) = true) /\
  (page_consistent (App.app w) -> App.hasBlob (App.app w) = true ->
   Forall (fun e => is_logout e = false) es ->
   App.hasBlob (App.app (events es w)) = true /\
   R2_BUCKET (App.server (events es w)) = R2_BUCKET (App.server w) /\
   rendered (App.app (events es w)) MessageTextarea = false /\
   disabled (App.app (events es w)) EncryptButton = true).
Proof.
  split.
  - intros e Hchanged.
    destruct (event_bucket e w) as [Hsame | (He & Ha & Hp & Hb & Hm & Hset)];
      [contradiction|].
    cbn [rendered]. rewrite Ha, Hp. repeat split; assumption.
  - intros Hw Hblob Hall.
    assert (Hrun : App.hasBlob (App.app (events es w)) = true /\
                   R2_BUCKET (App.server (events es w))
                   = R2_BUCKET (App.server w)).
    { revert w Hw Hblob.
      induction Hall as [|e es He _ IH]; intros w Hw Hblob; cbn [events];
        [split; [exact Hblob | reflexivity]|].
      destruct (event_keeps_blob_flag e w Hw Hblob He) as [Hb Hr].
      destruct (IH (event e w) (event_consistent e w Hw) Hb) as [Hb' Hr'].
      split; [exact Hb' | congruence]. }
    destruct Hrun as [Hb Hr]. split; [exact Hb|]. split; [exact Hr|].
    cbn [rendered disabled]. rewrite Hb. split.
    + rewrite andb_false_r. reflexivity.
    + reflexivity.
Qed.

(** X26 on a session of bob, who has a blob in the bucket: he signs in,
    clicks the encrypt button, tries to type and clicks it again, then
    retrieves; the bucket is what it was. *)
Lemma page_stores_once_per_session_witness :
  let s := snd (store_blob "bob" "aGVsbG8=" (Some "bm9uY2U") demo_server) in
  let w :=
    @App.handleAuthenticate (challenge_verifier 6) (prf_browser [x2a])
      "auth-1" (App.mkWorld (fresh_page "bob") s counting_random) in
  let w' :=
    @events (challenge_verifier 6) (prf_browser [x2a]) demo_platform
      [ClickEncrypt; TypeMessage "another"; ClickEncrypt; ClickRetrieve] w in
  App.hasBlob (App.app w) = true /\
  App.hasBlob (App.app w') = true /\
  R2_BUCKET (App.server w') = R2_BUCKET (App.server w).
Proof.
  cbv zeta.
  assert (Hblob : App.hasBlob
                    (App.app
                       (@App.handleAuthenticate (challenge_verifier 6)
                          (prf_browser [x2a]) "auth-1"
                          (App.mkWorld (fresh_page "bob")
                             (snd (store_blob "bob" "aGVsbG8=" (Some "bm9uY2U")
                                     demo_server))
                             counting_random))) = true)
    by (vm_compute; reflexivity).
  split; [exact Hblob|].
  destruct (@page_stores_once_per_session (challenge_verifier 6)
              (prf_browser [x2a]) demo_platform
              [ClickEncrypt; TypeMessage "another"; ClickEncrypt;
               ClickRetrieve]
              (@App.handleAuthenticate (challenge_verifier 6)
                 (prf_browser [x2a]) "auth-1"
                 (App.mkWorld (fresh_page "bob")
                    (snd (store_blob "bob" "aGVsbG8=" (Some "bm9uY2U")
                            demo_server))
                    counting_random))) as [_ Hsession].
  destruct Hsession as (Hb & Hr & _).
  - apply (@event_consistent (challenge_verifier 6) (prf_browser [x2a])
             demo_platform (ClickAuthenticate "auth-1")
             (App.mkWorld (fresh_page "bob")
                (snd (store_blob "bob" "aGVsbG8=" (Some "bm9uY2U") demo_server))
                counting_random)).
    split; intros _; repeat split.
  - exact Hblob.
  - repeat constructor.
  - split; [exact Hb | exact Hr].
Defined.
